(** * Study-set application: persistence layer and Learn-mode state machine

    A shallow embedding of
    - [src/lib/types.ts]        (entity model),
    - [src/lib/local-db.ts]     (fallback store, [createLocalStorageClient]),
    - [src/lib/neon-db.ts] and [src/lib/db.ts] (database backend),
    - [src/components/study-modes/learn/learn-view.tsx] (Learn mode),
    - the API routes under [src/app/api] that call the database backend,
    followed by the properties of the specification that concern them and
    by further properties of the same code.

    Conventions.  JavaScript numbers that hold timestamps, counters and
    indices are integers here ([Z]); an optional property ([x?: T], or a
    value that may be [null]) is an [option]; a [Map] is a [gmap]; the
    browser's [localStorage] is an ordered association list, because
    [Object.keys(localStorage)] is iterated in order; a text is a [string],
    the bytes of its UTF-8 encoding, so that U+0000 is the byte 0. *)

From Stdlib Require Import ZArith List Lia Permutation Sorted Ascii String.
From stdpp Require Import gmap strings list.

Open Scope Z_scope.

(** ** Entity model ([src/lib/types.ts]) *)

Inductive SourceType := Pdf | Manual | AiGenerated.

Inductive Mode := Flashcards | Quiz | Match | Learn | Write.

Record StudyItem := mkStudyItem {
  item_id : string;
  term : string;
  definition : string;
  options : option (list string);
  correctAnswer : option string
}.

Record StudySet := mkStudySet {
  set_id : string;
  title : string;
  description : string;
  createdAt : Z;
  updatedAt : Z;
  set_items : list StudyItem;
  sourceType : SourceType;
  sourceName : option string
}.

Record UserProgress := mkUserProgress {
  studySetId : string;
  mode : Mode;
  progress_updatedAt : Z;
  itemsStudied : Z;
  correctAnswers : Z;
  incorrectAnswers : Z;
  completedSessions : Z
}.

#[global] Instance SourceType_eq_dec : EqDecision SourceType.
Proof. solve_decision. Defined.
#[global] Instance Mode_eq_dec : EqDecision Mode.
Proof. solve_decision. Defined.
#[global] Instance StudyItem_eq_dec : EqDecision StudyItem.
Proof. solve_decision. Defined.
#[global] Instance StudySet_eq_dec : EqDecision StudySet.
Proof. solve_decision. Defined.
#[global] Instance UserProgress_eq_dec : EqDecision UserProgress.
Proof. solve_decision. Defined.

(** The string a mode is written as (the literal types of [UserProgress.mode]). *)
Definition mode_name (m : Mode) : string :=
  match m with
  | Flashcards => "flashcards"
  | Quiz => "quiz"
  | Match => "match"
  | Learn => "learn"
  | Write => "write"
  end.

(** ** Learn mode ([learn-view.tsx]) *)

Module LearnView.

(** [interface LearnItem extends StudyItem]; [KnowledgeLevel = 0 | 1 | 2 | 3 | 4]
    is a number at run time, kept in range by [valid_level]. *)
Record LearnItem := mkLearnItem {
  item : StudyItem;
  knowledgeLevel : Z;
  nextReview : Z;
  lastReviewed : option Z
}.

Definition valid_level (l : Z) : Prop := 0 <= l <= 4.

Inductive Stage := StageTerm | StageDefinition | StageQuiz.

Inductive Feedback := FeedbackCorrect | FeedbackIncorrect.

#[global] Instance Stage_eq_dec : EqDecision Stage.
Proof. solve_decision. Defined.
#[global] Instance Feedback_eq_dec : EqDecision Feedback.
Proof. solve_decision. Defined.

(** The body of the progress POST issued by [saveProgress]. *)
Record ProgressPost := mkProgressPost {
  post_studySetId : string;
  post_mode : Mode;
  post_itemsStudied : Z;
  post_correctAnswers : Z;
  post_incorrectAnswers : Z;
  post_completedSessions : Z
}.

(** The component's [useState] cells, plus the requests it has sent. *)
Record LearnState := mkLearnState {
  items : list LearnItem;
  currentIndex : Z;
  stage : Stage;
  userInput : string;
  feedback : option Feedback;
  isSessionComplete : bool;
  mastered : Z;
  inProgress : Z;
  notStarted : Z;
  posted : list ProgressPost
}.

Definition setItems (v : list LearnItem) (st : LearnState) : LearnState :=
  mkLearnState v (currentIndex st) (stage st) (userInput st) (feedback st)
    (isSessionComplete st) (mastered st) (inProgress st) (notStarted st) (posted st).
Definition setCurrentIndex (v : Z) (st : LearnState) : LearnState :=
  mkLearnState (items st) v (stage st) (userInput st) (feedback st)
    (isSessionComplete st) (mastered st) (inProgress st) (notStarted st) (posted st).
Definition setStage (v : Stage) (st : LearnState) : LearnState :=
  mkLearnState (items st) (currentIndex st) v (userInput st) (feedback st)
    (isSessionComplete st) (mastered st) (inProgress st) (notStarted st) (posted st).
Definition setUserInput (v : string) (st : LearnState) : LearnState :=
  mkLearnState (items st) (currentIndex st) (stage st) v (feedback st)
    (isSessionComplete st) (mastered st) (inProgress st) (notStarted st) (posted st).
Definition setFeedback (v : option Feedback) (st : LearnState) : LearnState :=
  mkLearnState (items st) (currentIndex st) (stage st) (userInput st) v
    (isSessionComplete st) (mastered st) (inProgress st) (notStarted st) (posted st).
Definition setIsSessionComplete (v : bool) (st : LearnState) : LearnState :=
  mkLearnState (items st) (currentIndex st) (stage st) (userInput st) (feedback st)
    v (mastered st) (inProgress st) (notStarted st) (posted st).
Definition setCounters (m p n : Z) (st : LearnState) : LearnState :=
  mkLearnState (items st) (currentIndex st) (stage st) (userInput st) (feedback st)
    (isSessionComplete st) m p n (posted st).
Definition post (p : ProgressPost) (st : LearnState) : LearnState :=
  mkLearnState (items st) (currentIndex st) (stage st) (userInput st) (feedback st)
    (isSessionComplete st) (mastered st) (inProgress st) (notStarted st) (posted st ++ [p]).

(** [arr[i]] for a number [i]: [undefined] outside [0 .. length-1]. *)
Definition at_index {A} (l : list A) (i : Z) : option A :=
  if i <? 0 then None else l !! Z.to_nat i.

(** [useState(() => studySet.items.map(...))], also used by [resetSession]. *)
Definition freshItems (now : Z) (s : StudySet) : list LearnItem :=
  map (fun it => mkLearnItem it 0 now None) (set_items s).

Definition initialState (now : Z) (s : StudySet) : LearnState :=
  mkLearnState (freshItems now s) 0 StageTerm "" None false
    0 0 (Z.of_nat (length (set_items s))) [].

(** [updateStats] *)
Definition countZ {A} (p : A -> bool) (l : list A) : Z :=
  Z.of_nat (length (List.filter p l)).

Definition updateStats (st : LearnState) : LearnState :=
  let masterCount := countZ (fun it => 3 <=? knowledgeLevel it) (items st) in
  let progressCount :=
    countZ (fun it => (0 <? knowledgeLevel it) && (knowledgeLevel it <? 3)) (items st) in
  setCounters masterCount progressCount
    (Z.of_nat (length (items st)) - masterCount - progressCount) st.

(** The review intervals, in milliseconds, indexed by the new level. *)
Definition intervals : list Z :=
  [ 1000 * 60;
    1000 * 60 * 60;
    1000 * 60 * 60 * 24;
    1000 * 60 * 60 * 24 * 3;
    1000 * 60 * 60 * 24 * 7 ].

(** [updateItemKnowledge].  [None] stands for the runs that leave the typed
    model: no item at [currentIndex], or a level for which
    [intervals[newLevel]] is [undefined]. *)
Definition updateItemKnowledge (now : Z) (st : LearnState) : option LearnState :=
  let isCorrect := bool_decide (feedback st = Some FeedbackCorrect) in
  match at_index (items st) (currentIndex st) with
  | None => None
  | Some currentItem =>
      let newLevel :=
        if isCorrect then Z.min 4 (knowledgeLevel currentItem + 1)
        else Z.max 0 (knowledgeLevel currentItem - 1) in
      match at_index intervals newLevel with
      | None => None
      | Some interval =>
          let nextReview' := now + interval in
          let updatedItems :=
            <[ Z.to_nat (currentIndex st) :=
                 mkLearnItem (item currentItem) newLevel nextReview' (Some now) ]>
              (items st) in
          Some (setItems updatedItems st)
      end
  end.

(** [Array.prototype.sort((a, b) => a.nextReview - b.nextReview)]: a stable
    sort by ascending [nextReview], written as an insertion sort. *)
Fixpoint insertByNextReview (x : LearnItem) (l : list LearnItem) : list LearnItem :=
  match l with
  | [] => [x]
  | y :: l' =>
      if nextReview x <=? nextReview y then x :: y :: l'
      else y :: insertByNextReview x l'
  end.

Definition sortByNextReview (l : list LearnItem) : list LearnItem :=
  foldr insertByNextReview [] l.

(** [Array.prototype.findIndex]: the first position whose element satisfies
    [p], or [-1]. *)
Fixpoint findIndex {A} (p : A -> bool) (l : list A) : Z :=
  match l with
  | [] => -1
  | x :: l' =>
      if p x then 0
      else let r := findIndex p l' in if r <? 0 then -1 else r + 1
  end.

Definition isDue (now : Z) (it : LearnItem) : bool := nextReview it <=? now.

Definition dueItems (now : Z) (st : LearnState) : list LearnItem :=
  sortByNextReview (List.filter (isDue now) (items st)).

(** [saveProgress]: the request body computed from the current items. *)
Definition progressPost (studySet : StudySet) (st : LearnState) : ProgressPost :=
  let correctItems := countZ (fun it => 2 <=? knowledgeLevel it) (items st) in
  let incorrectItems :=
    countZ (fun it => (knowledgeLevel it <? 2) && bool_decide (lastReviewed it <> None))
      (items st) in
  mkProgressPost (set_id studySet) Learn
    (countZ (fun it => bool_decide (lastReviewed it <> None)) (items st))
    correctItems incorrectItems 1.

Definition saveProgress (studySet : StudySet) (st : LearnState) : LearnState :=
  post (progressPost studySet st) st.

(** The effect "find next item to review", run with the clock reading [now]. *)
Definition findNextItem (studySet : StudySet) (now : Z) (st : LearnState) : LearnState :=
  if bool_decide (stage st <> StageTerm) then st
  else
    match dueItems now st with
    | first :: _ =>
        let nextItemIndex :=
          findIndex (fun it => bool_decide (item_id (item it) = item_id (item first)))
            (items st) in
        setCurrentIndex nextItemIndex st
    | [] => saveProgress studySet (setIsSessionComplete true st)
    end.

(** [handleNext] *)
Definition handleNext (now : Z) (st : LearnState) : option LearnState :=
  match stage st with
  | StageTerm => Some (setStage StageDefinition st)
  | StageDefinition => Some (setStage StageQuiz st)
  | StageQuiz =>
      match updateItemKnowledge now st with
      | None => None
      | Some st' => Some (setFeedback None (setUserInput "" (setStage StageTerm st')))
      end
  end.

(** [String.prototype.includes]: [needle] occurs in [s] as a contiguous run. *)
Fixpoint includes (s needle : string) : bool :=
  if String.prefix needle s then true
  else match s with
       | EmptyString => false
       | String _ s' => includes s' needle
       end.

(** [checkAnswer].  The strings are sequences of code units;
    [String.prototype.toLowerCase] and [String.prototype.trim] are taken as
    they come from the JavaScript engine. *)
Section CheckAnswer.
Variables toLowerCase trim : string -> string.

Definition gradeAnswer (input definition : string) : bool :=
  includes (trim (toLowerCase input))
           (String.substring 0 20 (trim (toLowerCase definition))).

Definition checkAnswer (st : LearnState) : option LearnState :=
  match at_index (items st) (currentIndex st) with
  | None => None
  | Some it =>
      let isCorrect := gradeAnswer (userInput st) (definition (item it)) in
      Some (setFeedback
              (Some (if isCorrect then FeedbackCorrect else FeedbackIncorrect)) st)
  end.
End CheckAnswer.

(** The two built-ins on code units below 128, for running examples. *)
Definition asciiLower (c : ascii) : ascii :=
  let n := nat_of_ascii c in
  if ((65 <=? n) && (n <=? 90))%nat then ascii_of_nat (n + 32) else c.

Fixpoint asciiToLowerCase (s : string) : string :=
  match s with
  | EmptyString => EmptyString
  | String c s' => String (asciiLower c) (asciiToLowerCase s')
  end.

Definition isBlank (c : ascii) : bool :=
  let n := nat_of_ascii c in ((9 <=? n) && (n <=? 13) || (n =? 32))%nat.

Fixpoint trimStart (s : string) : string :=
  match s with
  | EmptyString => EmptyString
  | String c s' => if isBlank c then trimStart s' else s
  end.

Fixpoint trimEnd (s : string) : string :=
  match s with
  | EmptyString => EmptyString
  | String c s' =>
      match trimEnd s' with
      | EmptyString => if isBlank c then EmptyString else String c EmptyString
      | t => String c t
      end
  end.

Definition asciiTrim (s : string) : string := trimEnd (trimStart s).

(** The re-review delay of a level as the specification tabulates it:
    1 minute, 1 hour, 1 day, 3 days, 7 days. *)
Definition minute : Z := 60 * 1000.
Definition hour : Z := 60 * minute.
Definition day : Z := 24 * hour.

Definition delayOfLevel (level : Z) : Z :=
  if level =? 0 then minute
  else if level =? 1 then hour
  else if level =? 2 then day
  else if level =? 3 then 3 * day
  else 7 * day.

(** Ascending due dates. *)
Definition dueBefore (a b : LearnItem) : Prop := nextReview a <= nextReview b.

(** Sample data: two cards of a set, and a session in its quiz stage. *)
Definition sampleItemA : StudyItem := mkStudyItem "a" "Hola" "Hello there" None None.
Definition sampleItemB : StudyItem := mkStudyItem "b" "Adios" "Goodbye" None None.
Definition sampleSet : StudySet :=
  mkStudySet "s1" "Spanish" "" 0 0 [sampleItemA; sampleItemB] Manual None.
Definition sampleQuizState : LearnState :=
  mkLearnState [mkLearnItem sampleItemA 2 100 None; mkLearnItem sampleItemB 0 50 None]
    0 StageQuiz "hello there" (Some FeedbackCorrect) false 0 1 1 [].

(** A session in its term stage, both cards due, the second one earlier. *)
Definition sampleTermState : LearnState :=
  mkLearnState [mkLearnItem sampleItemA 2 100 None; mkLearnItem sampleItemB 0 50 None]
    0 StageTerm "" None false 0 1 1 [].

End LearnView.

(** ** Inputs of the persistence operations *)

(** The argument of [createStudySet].  Its declared type omits [id],
    [createdAt] and [updatedAt], but the object it is called with by the
    [POST /api/study-sets] route is the output of [studySetSchema.parse], whose
    defaults fill in all three; the object spread [...data] copies whatever
    is there, hence the three optional fields. *)
Record StudySetInput := mkStudySetInput {
  in_title : string;
  in_description : string;
  in_items : list StudyItem;
  in_sourceType : SourceType;
  in_sourceName : option string;
  in_id : option string;
  in_createdAt : option Z;
  in_updatedAt : option Z
}.

(** [Partial<Omit<StudySet, 'id' | 'createdAt'>>]: [None] is a property that
    is not there. *)
Record StudySetPatch := mkStudySetPatch {
  p_title : option string;
  p_description : option string;
  p_updatedAt : option Z;
  p_items : option (list StudyItem);
  p_sourceType : option SourceType;
  p_sourceName : option string
}.

(** [Omit<UserProgress, 'updatedAt'>] *)
Record ProgressInput := mkProgressInput {
  pi_studySetId : string;
  pi_mode : Mode;
  pi_itemsStudied : Z;
  pi_correctAnswers : Z;
  pi_incorrectAnswers : Z;
  pi_completedSessions : Z
}.

(** [{ id, createdAt: now, updatedAt: now, ...data }]: properties of [data]
    come last and win. *)
Definition newStudySet (id : string) (now : Z) (data : StudySetInput) : StudySet :=
  mkStudySet (default id (in_id data)) (in_title data) (in_description data)
    (default now (in_createdAt data)) (default now (in_updatedAt data))
    (in_items data) (in_sourceType data) (in_sourceName data).

(** [{ ...progress, updatedAt: now }] *)
Definition stampProgress (now : Z) (p : ProgressInput) : UserProgress :=
  mkUserProgress (pi_studySetId p) (pi_mode p) now (pi_itemsStudied p)
    (pi_correctAnswers p) (pi_incorrectAnswers p) (pi_completedSessions p).

(** ** Fallback store ([createLocalStorageClient]) *)

Module LocalDb.

(** What a text kept in [localStorage] is to [JSON.parse].  The store only
    ever writes the first three shapes; [JsonMalformed] is a text that
    [JSON.parse] rejects (or the empty text, which the loaders skip as
    well).  A text that parses to a value of a shape other than the one a
    loader expects has no counterpart in the types and is skipped like a
    malformed one. *)
Inductive Json :=
  | JsonStudySet (s : StudySet)
  | JsonProgress (p : UserProgress)
  | JsonIds (ids : list string)
  | JsonMalformed.

(** The browser side: the entries of [localStorage] in key order, and whether
    the quota is exhausted, in which case [setItem] throws. *)
Record Browser := mkBrowser {
  localStorage : list (string * Json);
  storageFull : bool
}.

Definition keys (ls : list (string * Json)) : list string := map fst ls.

Fixpoint getItem (k : string) (ls : list (string * Json)) : option Json :=
  match ls with
  | [] => None
  | (k', v) :: ls' => if bool_decide (k' = k) then Some v else getItem k ls'
  end.

Fixpoint putItem (k : string) (v : Json) (ls : list (string * Json)) :
    list (string * Json) :=
  match ls with
  | [] => [(k, v)]
  | (k', v') :: ls' =>
      if bool_decide (k' = k) then (k, v) :: ls' else (k', v') :: putItem k v ls'
  end.

(** [localStorage.setItem]: [None] when it throws. *)
Definition setItem (k : string) (v : Json) (b : Browser) : option Browser :=
  if storageFull b then None
  else Some (mkBrowser (putItem k v (localStorage b)) (storageFull b)).

Definition removeItem (k : string) (b : Browser) : Browser :=
  mkBrowser (List.filter (fun e => negb (bool_decide (fst e = k))) (localStorage b))
    (storageFull b).

(** [memoryStore] *)
Record MemoryStore := mkMemoryStore {
  studySets : gmap string StudySet;
  studySetIds : list string;
  progress : gmap string UserProgress
}.

(** The client object: its in-memory store and, on the client, the browser
    ([isClient ()] holds exactly when there is one). *)
Record Client := mkClient {
  memoryStore : MemoryStore;
  window : option Browser
}.

Definition emptyMemoryStore : MemoryStore := mkMemoryStore ∅ [] ∅.

Definition isClient (w : Client) : bool :=
  match window w with Some _ => true | None => false end.

Definition studySetKey (id : string) : string := "study-set:" +:+ id.
Definition allSetsKey : string := "study-sets:all".
Definition progressKey (studySetId mode : string) : string :=
  "progress:" +:+ studySetId +:+ ":" +:+ mode.

Definition includesId (id : string) (ids : list string) : bool :=
  bool_decide (id ∈ ids).

(** [if (!ids.includes(id)) ids.push(id)] *)
Definition pushId (ids : list string) (id : string) : list string :=
  if includesId id ids then ids else ids ++ [id].

Definition setStudySet (k : string) (s : StudySet) (m : MemoryStore) : MemoryStore :=
  mkMemoryStore (<[k := s]> (studySets m)) (studySetIds m) (progress m).
Definition setStudySetIds (ids : list string) (m : MemoryStore) : MemoryStore :=
  mkMemoryStore (studySets m) ids (progress m).
Definition deleteStudySetEntry (k : string) (m : MemoryStore) : MemoryStore :=
  mkMemoryStore (delete k (studySets m)) (studySetIds m) (progress m).
Definition setProgress (k : string) (p : UserProgress) (m : MemoryStore) : MemoryStore :=
  mkMemoryStore (studySets m) (studySetIds m) (<[k := p]> (progress m)).

(** The three loops of [initializeFromLocalStorage]. *)
Definition loadStudySet (ls : list (string * Json)) (m : MemoryStore) (key : string) :
    MemoryStore :=
  match getItem key ls with
  | Some (JsonStudySet studySet) =>
      setStudySetIds (pushId (studySetIds m) (set_id studySet))
        (setStudySet (set_id studySet) studySet m)
  | _ => m
  end.

Definition loadAllIds (ls : list (string * Json)) (m : MemoryStore) : MemoryStore :=
  match getItem allSetsKey ls with
  | Some (JsonIds allSetsIds) => setStudySetIds (foldl pushId (studySetIds m) allSetsIds) m
  | _ => m
  end.

Definition loadProgress (ls : list (string * Json)) (m : MemoryStore) (key : string) :
    MemoryStore :=
  match getItem key ls with
  | Some (JsonProgress p) => setProgress key p m
  | _ => m
  end.

Definition startsWith (pre : string) (key : string) : bool := String.prefix pre key.

Definition loadFrom (ls : list (string * Json)) (m : MemoryStore) : MemoryStore :=
  let studySetKeys := List.filter (startsWith "study-set:") (keys ls) in
  let m1 := foldl (loadStudySet ls) m studySetKeys in
  let m2 := loadAllIds ls m1 in
  let progressKeys := List.filter (startsWith "progress:") (keys ls) in
  foldl (loadProgress ls) m2 progressKeys.

Definition initializeFromLocalStorage (w : Client) : Client :=
  match window w with
  | None => w
  | Some b => mkClient (loadFrom (localStorage b) (memoryStore w)) (window w)
  end.

(** [try { localStorage.setItem(...); ... } catch { console.error }]: the
    quota is either exhausted or not, so the writes of one block all happen
    or all throw. *)
Definition tryWrite (f : Browser -> option Browser) (w : Client) : Client :=
  match window w with
  | None => w
  | Some b =>
      match f b with
      | Some b' => mkClient (memoryStore w) (Some b')
      | None => w
      end
  end.

(** [createStudySet]: [id] is the value of [nanoid()], [now] of [Date.now()]. *)
Definition createStudySet (id : string) (now : Z) (data : StudySetInput) (w : Client) :
    Client * StudySet :=
  let studySet := newStudySet id now data in
  let m := setStudySet id studySet (memoryStore w) in
  let m := setStudySetIds (pushId (studySetIds m) id) m in
  let w := mkClient m (window w) in
  let w :=
    tryWrite (fun b =>
      b1 ← setItem (studySetKey id) (JsonStudySet studySet) b;
      setItem allSetsKey (JsonIds (studySetIds m)) b1) w in
  (w, studySet).

Definition getStudySet (id : string) (w : Client) : Client * option StudySet :=
  let w := initializeFromLocalStorage w in
  match studySets (memoryStore w) !! id with
  | Some s => (w, Some s)
  | None =>
      match window w with
      | Some b =>
          match getItem (studySetKey id) (localStorage b) with
          | Some (JsonStudySet studySet) =>
              (mkClient (setStudySet id studySet (memoryStore w)) (window w),
               Some studySet)
          | _ => (w, None)
          end
      | None => (w, None)
      end
  end.

(** [{ ...existingSet, ...data, updatedAt: Date.now() }] *)
Definition mergeStudySet (existingSet : StudySet) (data : StudySetPatch) (now : Z) :
    StudySet :=
  mkStudySet (set_id existingSet)
    (default (title existingSet) (p_title data))
    (default (description existingSet) (p_description data))
    (createdAt existingSet)
    now
    (default (set_items existingSet) (p_items data))
    (default (sourceType existingSet) (p_sourceType data))
    (match p_sourceName data with Some n => Some n | None => sourceName existingSet end).

Definition updateStudySet (id : string) (now : Z) (data : StudySetPatch) (w : Client) :
    Client * option StudySet :=
  let w := initializeFromLocalStorage w in
  let '(w, existingSet) := getStudySet id w in
  match existingSet with
  | None => (w, None)
  | Some existingSet =>
      let updatedSet := mergeStudySet existingSet data now in
      let w := mkClient (setStudySet id updatedSet (memoryStore w)) (window w) in
      let w := tryWrite (setItem (studySetKey id) (JsonStudySet updatedSet)) w in
      (w, Some updatedSet)
  end.

Definition deleteStudySet (id : string) (w : Client) : Client * bool :=
  let w := initializeFromLocalStorage w in
  match studySets (memoryStore w) !! id with
  | None => (w, false)
  | Some _ =>
      let m := deleteStudySetEntry id (memoryStore w) in
      let m :=
        setStudySetIds
          (List.filter (fun setId => negb (bool_decide (setId = id))) (studySetIds m)) m in
      let w := mkClient m (removeItem (studySetKey id) <$> window w) in
      let w := tryWrite (setItem allSetsKey (JsonIds (studySetIds m))) w in
      (w, true)
  end.

(** [Array.from(memoryStore.studySets.values())]; the order of a [Map]'s
    values is not kept by [gmap]. *)
Definition getAllStudySets (w : Client) : Client * list StudySet :=
  let w := initializeFromLocalStorage w in
  (w, snd <$> map_to_list (studySets (memoryStore w))).

Definition saveUserProgress (now : Z) (p : ProgressInput) (w : Client) :
    Client * UserProgress :=
  let w := initializeFromLocalStorage w in
  let userProgress := stampProgress now p in
  let key := progressKey (pi_studySetId p) (mode_name (pi_mode p)) in
  let w := mkClient (setProgress key userProgress (memoryStore w)) (window w) in
  let w := tryWrite (setItem key (JsonProgress userProgress)) w in
  (w, userProgress).

Definition getUserProgress (studySetId mode : string) (w : Client) :
    Client * option UserProgress :=
  let w := initializeFromLocalStorage w in
  let key := progressKey studySetId mode in
  match progress (memoryStore w) !! key with
  | Some p => (w, Some p)
  | None =>
      match window w with
      | Some b =>
          match getItem key (localStorage b) with
          | Some (JsonProgress p) =>
              (mkClient (setProgress key p (memoryStore w)) (window w), Some p)
          | _ => (w, None)
          end
      | None => (w, None)
      end
  end.

(** *** Reading the store

    What the entries of [localStorage] say about one study set or one
    progress record. *)
Definition storedStudySet (ls : list (string * Json)) (id : string) : option StudySet :=
  match getItem (studySetKey id) ls with
  | Some (JsonStudySet s) => Some s
  | _ => None
  end.

Definition storedProgress (ls : list (string * Json)) (key : string) :
    option UserProgress :=
  match getItem key ls with
  | Some (JsonProgress p) => Some p
  | _ => None
  end.

(** The persisted layout: under a key [study-set:<id>] there is the study
    set whose id is [<id>]. *)
Definition entryConsistent (e : string * Json) : bool :=
  match snd e with
  | JsonStudySet s =>
      negb (startsWith "study-set:" (fst e)) || bool_decide (fst e = studySetKey (set_id s))
  | _ => true
  end.

Definition layoutConsistent (ls : list (string * Json)) : bool :=
  forallb entryConsistent ls.

(** On the client the layout is the persisted one; on the server there is
    nothing to ask. *)
Definition consistent (w : Client) : Prop :=
  match window w with
  | None => True
  | Some b => layoutConsistent (localStorage b) = true
  end.

(** ... and, in addition, the browser accepts writes. *)
Definition healthy (w : Client) : Prop :=
  match window w with
  | None => True
  | Some b => layoutConsistent (localStorage b) = true /\ storageFull b = false
  end.

Definition writable (w : Client) : Prop :=
  match window w with
  | None => True
  | Some b => storageFull b = false
  end.

(** No study set is kept under [id]: neither in memory nor, on the client,
    in an entry of [localStorage] that is filed under [id] or carries it. *)
Definition noEntryFor (id : string) (ls : list (string * Json)) : bool :=
  forallb (fun e =>
             match snd e with
             | JsonStudySet s =>
                 negb (startsWith "study-set:" (fst e)) ||
                 (negb (bool_decide (fst e = studySetKey id)) &&
                  negb (bool_decide (set_id s = id)))
             | _ => true
             end) ls.

Definition absent (id : string) (w : Client) : Prop :=
  studySets (memoryStore w) !! id = None /\
  match window w with
  | None => True
  | Some b => noEntryFor id (localStorage b) = true
  end.

(** The study set, or progress record, that the store shows for a key. *)
Definition visibleStudySet (id : string) (w : Client) : option StudySet :=
  match window w with
  | Some b =>
      match storedStudySet (localStorage b) id with
      | Some s => Some s
      | None => studySets (memoryStore w) !! id
      end
  | None => studySets (memoryStore w) !! id
  end.

Definition visibleProgress (key : string) (w : Client) : option UserProgress :=
  match window w with
  | Some b =>
      match storedProgress (localStorage b) key with
      | Some p => Some p
      | None => progress (memoryStore w) !! key
      end
  | None => progress (memoryStore w) !! key
  end.

(** How many records are kept under a key, in memory and in the browser. *)
Definition underKey {A} (key : string) (l : list (string * A)) : list (string * A) :=
  List.filter (fun e => bool_decide (fst e = key)) l.

Definition recordsInMemory (key : string) (w : Client) : nat :=
  length (underKey key (map_to_list (progress (memoryStore w)))).

Definition recordsInBrowser (key : string) (w : Client) : nat :=
  match window w with
  | Some b => length (underKey key (localStorage b))
  | None => 0
  end.

(** Sample stores: the server side, and a browser holding one study set. *)
Definition sampleInput : StudySetInput :=
  mkStudySetInput "Spanish" "Basics"
    [mkStudyItem "a" "Hola" "Hello there" None None;
     mkStudyItem "b" "Adios" "Goodbye" None None]
    Manual None None None None.

Definition serverStore : Client := mkClient emptyMemoryStore None.

Definition browserStore : Client :=
  fst (createStudySet "k1" 10 sampleInput
         (mkClient emptyMemoryStore (Some (mkBrowser [] false)))).

(** Every study set is filed under its own id, in memory and in the
    browser. *)
Definition wellKeyed (w : Client) : Prop :=
  (forall k s, studySets (memoryStore w) !! k = Some s -> set_id s = k) /\
  consistent w.

(** One call of the client, with an input of the declared type for
    [createStudySet] (no id of its own). *)
Inductive Step : Client -> Client -> Prop :=
  | StepCreate id now data w :
      in_id data = None -> Step w (fst (createStudySet id now data w))
  | StepGet id w : Step w (fst (getStudySet id w))
  | StepUpdate id now data w : Step w (fst (updateStudySet id now data w))
  | StepDelete id w : Step w (fst (deleteStudySet id w))
  | StepGetAll w : Step w (fst (getAllStudySets w))
  | StepSaveProgress now p w : Step w (fst (saveUserProgress now p w))
  | StepGetProgress studySetId mode w : Step w (fst (getUserProgress studySetId mode w)).

(** A creation input that brings an id of its own, as the output of
    [studySetSchema.parse] does. *)
Definition inputWithId : StudySetInput :=
  mkStudySetInput "Spanish" "Basics"
    [mkStudyItem "a" "Hola" "Hello there" None None]
    Manual None (Some "own") (Some 5) (Some 5).

(** A browser store in which [createStudySet] was called with that input:
    the study set is filed under ["k1"] and carries the id ["own"]. *)
Definition ownIdStore : Client :=
  fst (createStudySet "k1" 10 inputWithId
         (mkClient emptyMemoryStore (Some (mkBrowser [] false)))).

(** The same, after a study set was created under the generated id
    ["own"]. *)
Definition clashingStore : Client :=
  fst (createStudySet "k1" 20 inputWithId
         (fst (createStudySet "own" 10 sampleInput
                 (mkClient emptyMemoryStore (Some (mkBrowser [] false)))))).

(** A browser store holding two study sets and a progress record. *)
Definition twoSetStore : Client :=
  fst (saveUserProgress 30 (mkProgressInput "k2" Learn 2 1 1 1)
         (fst (createStudySet "k2" 20 sampleInput browserStore))).

End LocalDb.

(** ** Database backend ([neon-db.ts], [db.ts]) *)

Module Db.

(** Rows of the three tables created by [setupDatabase]. *)
Record StudySetRow := mkStudySetRow {
  row_id : string;
  row_title : string;
  row_description : string;
  created_at : Z;
  updated_at : Z;
  source_type : SourceType;
  source_name : option string
}.

Record StudyItemRow := mkStudyItemRow {
  irow_id : string;
  irow_study_set_id : string;
  irow_term : string;
  irow_definition : string;
  irow_options : option (list string);
  irow_correct_answer : option string
}.

Record UserProgressRow := mkUserProgressRow {
  prow_study_set_id : string;
  prow_mode : Mode;
  prow_updated_at : Z;
  items_studied : Z;
  correct_answers : Z;
  incorrect_answers : Z;
  completed_sessions : Z
}.

(** The tables, each in the order its rows were inserted. *)
Record Tables := mkTables {
  study_sets : list StudySetRow;
  study_items : list StudyItemRow;
  user_progress : list UserProgressRow
}.

Definition emptyTables : Tables := mkTables [] [] [].

(** The connection: the tables, which of the coming [query] calls fail in
    transport ([true] at position [n]: the [n]-th call from now throws), and
    what [console.error] has printed. *)
Record Conn := mkConn {
  tables : Tables;
  faults : list bool;
  console : list string
}.

(** A computation that may throw: [None] is a thrown exception. *)
Definition M (A : Type) : Type := Conn -> Conn * option A.

Definition ret {A} (a : A) : M A := fun c => (c, Some a).
Definition throw {A} : M A := fun c => (c, None).
Definition bind {A B} (m : M A) (k : A -> M B) : M B :=
  fun c => match m c with
           | (c', Some a) => k a c'
           | (c', None) => (c', None)
           end.
(** [try { body } catch (error) { console.error(msg, error); handler }] *)
Definition tryCatch {A} (body : M A) (msg : string) (handler : M A) : M A :=
  fun c => match body c with
           | (c', Some a) => (c', Some a)
           | (c', None) =>
               handler (mkConn (tables c') (faults c') (console c' ++ [msg]))
           end.

Notation "'await' x <~ m ;; k" := (bind m (fun x => k))
  (at level 10, x name, m at level 99, k at level 200).

(** [for (const x of xs) await f(x)] *)
Fixpoint forEach {A} (xs : list A) (f : A -> M unit) : M unit :=
  match xs with
  | [] => ret tt
  | x :: xs' => await _ <~ f x ;; forEach xs' f
  end.

(** [xs.map(async x => f(x))] awaited as a whole. *)
Fixpoint mapM {A B} (f : A -> M B) (xs : list A) : M (list B) :=
  match xs with
  | [] => ret []
  | x :: xs' => await y <~ f x ;; await ys <~ mapM f xs' ;; ret (y :: ys)
  end.

(** [query]: a statement is a partial function on the tables ([None]: the
    engine rejects it and the tables stay as they were). *)
Definition query {R} (stmt : Tables -> option (Tables * R)) : M R :=
  fun c =>
    match faults c with
    | true :: fs => (mkConn (tables c) fs (console c), None)
    | _ =>
        let fs := tail (faults c) in
        match stmt (tables c) with
        | Some (t', r) => (mkConn t' fs (console c), Some r)
        | None => (mkConn (tables c) fs (console c), None)
        end
    end.

(** *** The statements *)

Definition hasStudySet (id : string) (t : Tables) : bool :=
  bool_decide (id ∈ map row_id (study_sets t)).

(** [INTEGER] columns hold 32-bit values. *)
Definition int4 (z : Z) : bool := (- 2 ^ 31 <=? z) && (z <? 2 ^ 31).

(** [TEXT] columns hold no U+0000: the engine rejects a value that has
    one. *)
Fixpoint text (s : string) : bool :=
  match s with
  | EmptyString => true
  | String c s' => negb (Ascii.eqb c Ascii.zero) && text s'
  end.

Definition textOrNull (o : option string) : bool :=
  match o with Some s => text s | None => true end.

(** [TEXT[]] *)
Definition textsOrNull (o : option (list string)) : bool :=
  match o with Some l => forallb text l | None => true end.

(** [BIGINT] columns hold 64-bit values. *)
Definition int8 (z : Z) : bool := (- 2 ^ 63 <=? z) && (z <? 2 ^ 63).

(** The values of a row fit the columns of its table. *)
Definition fitsStudySets (r : StudySetRow) : bool :=
  text (row_id r) && text (row_title r) && text (row_description r) &&
  int8 (created_at r) && int8 (updated_at r) && textOrNull (source_name r).

Definition fitsStudyItems (r : StudyItemRow) : bool :=
  text (irow_id r) && text (irow_study_set_id r) && text (irow_term r) &&
  text (irow_definition r) && textsOrNull (irow_options r) &&
  textOrNull (irow_correct_answer r).

(** [INSERT INTO study_sets ...]: the values must fit their columns, and
    [id] is the primary key. *)
Definition insertStudySet (r : StudySetRow) (t : Tables) : option (Tables * unit) :=
  if negb (fitsStudySets r) then None
  else if hasStudySet (row_id r) t then None
  else Some (mkTables (study_sets t ++ [r]) (study_items t) (user_progress t), tt).

(** [INSERT INTO study_items ...]: the values must fit their columns, [id]
    is the primary key of the whole table and [study_set_id] references
    [study_sets]. *)
Definition insertStudyItem (r : StudyItemRow) (t : Tables) : option (Tables * unit) :=
  if negb (fitsStudyItems r) then None
  else if bool_decide (irow_id r ∈ map irow_id (study_items t)) then None
  else if negb (hasStudySet (irow_study_set_id r) t) then None
  else Some (mkTables (study_sets t) (study_items t ++ [r]) (user_progress t), tt).

(** [SELECT * FROM study_sets WHERE id = $1] *)
Definition selectStudySet (id : string) (t : Tables) : option (Tables * list StudySetRow) :=
  Some (t, List.filter (fun r => bool_decide (row_id r = id)) (study_sets t)).

(** [UPDATE study_sets SET ... WHERE id = $6]: the new values must fit
    their columns. *)
Definition updateStudySetRow (id ttl descr : string) (now : Z) (st : SourceType)
    (sn : option string) (t : Tables) : option (Tables * unit) :=
  if negb (text ttl && text descr && int8 now && textOrNull sn) then None else
  Some (mkTables
          (map (fun r => if bool_decide (row_id r = id)
                         then mkStudySetRow (row_id r) ttl descr (created_at r) now st sn
                         else r) (study_sets t))
          (study_items t) (user_progress t), tt).

(** [DELETE FROM study_items WHERE study_set_id = $1] *)
Definition deleteStudyItems (id : string) (t : Tables) : option (Tables * unit) :=
  Some (mkTables (study_sets t)
          (List.filter (fun r => negb (bool_decide (irow_study_set_id r = id))) (study_items t))
          (user_progress t), tt).

(** [DELETE FROM study_sets WHERE id = $1], with the two
    [ON DELETE CASCADE] references; the result is [rowCount]. *)
Definition deleteStudySetRow (id : string) (t : Tables) : option (Tables * Z) :=
  Some (mkTables
          (List.filter (fun r => negb (bool_decide (row_id r = id))) (study_sets t))
          (List.filter (fun r => negb (bool_decide (irow_study_set_id r = id))) (study_items t))
          (List.filter (fun r => negb (bool_decide (prow_study_set_id r = id))) (user_progress t)),
        Z.of_nat (length (List.filter (fun r => bool_decide (row_id r = id)) (study_sets t)))).

(** [SELECT * FROM study_sets ORDER BY updated_at DESC] *)
Fixpoint insertByUpdatedAt (x : StudySetRow) (l : list StudySetRow) : list StudySetRow :=
  match l with
  | [] => [x]
  | y :: l' =>
      if updated_at y <=? updated_at x then x :: y :: l'
      else y :: insertByUpdatedAt x l'
  end.

Definition selectAllStudySets (t : Tables) : option (Tables * list StudySetRow) :=
  Some (t, foldr insertByUpdatedAt [] (study_sets t)).

Definition progressMatches (id : string) (mode : string) (r : UserProgressRow) : bool :=
  bool_decide (prow_study_set_id r = id) && bool_decide (mode_name (prow_mode r) = mode).

(** [UPDATE user_progress SET ... WHERE study_set_id = $6 AND mode = $7
    RETURNING *]: what it makes of one row, and the statement, whose result
    is [rowCount]. *)
Definition updatedRow (p : UserProgress) (r : UserProgressRow) : UserProgressRow :=
  if progressMatches (studySetId p) (mode_name (mode p)) r
  then mkUserProgressRow (prow_study_set_id r) (prow_mode r) (progress_updatedAt p)
         (itemsStudied p) (correctAnswers p) (incorrectAnswers p) (completedSessions p)
  else r.

Definition updateProgress (p : UserProgress) (t : Tables) : option (Tables * Z) :=
  if negb (int4 (itemsStudied p) && int4 (correctAnswers p) &&
           int4 (incorrectAnswers p) && int4 (completedSessions p)) then None
  else
    Some (mkTables (study_sets t) (study_items t) (map (updatedRow p) (user_progress t)),
          Z.of_nat (length (List.filter
                              (progressMatches (studySetId p) (mode_name (mode p)))
                              (user_progress t)))).

(** [INSERT INTO user_progress ...]: [study_set_id] references [study_sets]
    and [(study_set_id, mode)] is unique. *)
Definition insertProgress (p : UserProgress) (t : Tables) : option (Tables * unit) :=
  if negb (int4 (itemsStudied p) && int4 (correctAnswers p) &&
           int4 (incorrectAnswers p) && int4 (completedSessions p)) then None
  else if negb (hasStudySet (studySetId p) t) then None
  else if existsb (progressMatches (studySetId p) (mode_name (mode p))) (user_progress t)
  then None
  else Some (mkTables (study_sets t) (study_items t)
               (user_progress t ++
                  [mkUserProgressRow (studySetId p) (mode p) (progress_updatedAt p)
                     (itemsStudied p) (correctAnswers p) (incorrectAnswers p)
                     (completedSessions p)]), tt).

(** [SELECT * FROM user_progress WHERE study_set_id = $1 AND mode = $2] *)
Definition selectProgress (id mode : string) (t : Tables) :
    option (Tables * list UserProgressRow) :=
  Some (t, List.filter (progressMatches id mode) (user_progress t)).

(** [x || null] on an optional text: the empty text is falsy. *)
Definition orNull (o : option string) : option string :=
  match o with
  | Some s => if bool_decide (s = "") then None else Some s
  | None => None
  end.

(** [x || y] for a text [y]. *)
Definition orElse (o : option string) (y : string) : string :=
  match o with
  | Some s => if bool_decide (s = "") then y else s
  | None => y
  end.

Definition itemRow (setId : string) (it : StudyItem) : StudyItemRow :=
  mkStudyItemRow (item_id it) setId (term it) (definition it) (options it)
    (orNull (correctAnswer it)).

Definition itemOfRow (r : StudyItemRow) : StudyItem :=
  mkStudyItem (irow_id r) (irow_term r) (irow_definition r) (irow_options r)
    (irow_correct_answer r).

Definition studySetOfRows (r : StudySetRow) (itemRows : list StudyItemRow) : StudySet :=
  mkStudySet (row_id r) (row_title r) (row_description r) (created_at r) (updated_at r)
    (map itemOfRow itemRows) (source_type r) (source_name r).

Definition progressOfRow (r : UserProgressRow) : UserProgress :=
  mkUserProgress (prow_study_set_id r) (prow_mode r) (prow_updated_at r) (items_studied r)
    (correct_answers r) (incorrect_answers r) (completed_sessions r).

Section Engine.

(** [SELECT * FROM study_items WHERE study_set_id = $1] has no [ORDER BY]:
    the order in which the engine hands back the matching rows is its
    own, [scan] applied to their insertion order. *)
Variable scan : list StudyItemRow -> list StudyItemRow.

Definition selectStudyItems (id : string) (t : Tables) :
    option (Tables * list StudyItemRow) :=
  Some (t, scan (List.filter (fun r => bool_decide (irow_study_set_id r = id))
                   (study_items t))).

Definition insertItems (setId : string) (its : list StudyItem) : M unit :=
  forEach its (fun it => query (insertStudyItem (itemRow setId it))).

(** [createStudySetDb]: [id] is the value of [nanoid()], [now] of
    [Date.now()]. *)
Definition createStudySetDb (id : string) (now : Z) (data : StudySetInput) : M StudySet :=
  let studySet := newStudySet id now data in
  tryCatch
    (await _ <~ query (insertStudySet
                   (mkStudySetRow id (title studySet) (orElse (Some (description studySet)) "")
                      (createdAt studySet) (updatedAt studySet) (sourceType studySet)
                      (orNull (sourceName studySet)))) ;;
     await _ <~ insertItems id (set_items studySet) ;;
     ret studySet)
    "Error creating study set:"
    throw.

Definition getStudySetDb (id : string) : M (option StudySet) :=
  tryCatch
    (await studySetRows <~ query (selectStudySet id) ;;
     match studySetRows with
     | [] => ret None
     | studySetRow :: _ =>
         await itemRows <~ query (selectStudyItems id) ;;
         ret (Some (studySetOfRows studySetRow itemRows))
     end)
    "Error getting study set:"
    (ret None).

(** [updateStudySetDb]; the [getStudySet] it calls is [getStudySetDb],
    this function being exported only when there is a database. *)
Definition updateStudySetDb (id : string) (now : Z) (data : StudySetPatch) :
    M (option StudySet) :=
  tryCatch
    (await existingStudySet <~ getStudySetDb id ;;
     match existingStudySet with
     | None => ret None
     | Some existingStudySet =>
         await _ <~ query (updateStudySetRow id
                       (orElse (p_title data) (title existingStudySet))
                       (default (description existingStudySet) (p_description data))
                       now
                       (default (sourceType existingStudySet) (p_sourceType data))
                       (match p_sourceName data with
                        | Some n => Some n
                        | None => sourceName existingStudySet
                        end)) ;;
         await _ <~ match p_items data with
              | Some its =>
                  await _ <~ query (deleteStudyItems id) ;;
                  insertItems id its
              | None => ret tt
              end ;;
         getStudySetDb id
     end)
    "Error updating study set:"
    (ret None).

Definition deleteStudySetDb (id : string) : M bool :=
  tryCatch
    (await rowCount <~ query (deleteStudySetRow id) ;;
     ret (0 <? rowCount))
    "Error deleting study set:"
    (ret false).

Definition getAllStudySetsDb : M (list StudySet) :=
  tryCatch
    (await studySetRows <~ query selectAllStudySets ;;
     mapM (fun row =>
             await itemRows <~ query (selectStudyItems (row_id row)) ;;
             ret (studySetOfRows row itemRows)) studySetRows)
    "Error getting all study sets:"
    (ret []).

Definition saveUserProgressDb (now : Z) (p : ProgressInput) : M UserProgress :=
  let userProgress := stampProgress now p in
  tryCatch
    (await rowCount <~ query (updateProgress userProgress) ;;
     await _ <~ (if rowCount =? 0 then query (insertProgress userProgress) else ret tt) ;;
     ret userProgress)
    "Error saving user progress:"
    (ret userProgress).

Definition getUserProgressDb (studySetId mode : string) : M (option UserProgress) :=
  tryCatch
    (await rows <~ query (selectProgress studySetId mode) ;;
     match rows with
     | [] => ret None
     | row :: _ => ret (Some (progressOfRow row))
     end)
    "Error getting user progress:"
    (ret None).

End Engine.

(** *** Reading the tables *)

(** Referential integrity of [study_items], which the engine maintains. *)
Definition itemsReferenceSets (t : Tables) : bool :=
  forallb (fun r => hasStudySet (irow_study_set_id r) t) (study_items t).

(** The number of progress rows for a study set and a mode. *)
Definition progressCount (id mode : string) (t : Tables) : nat :=
  length (List.filter (progressMatches id mode) (user_progress t)).

(** The rows of [study_items] that belong to a study set. *)
Definition itemsOf (id : string) (t : Tables) : list StudyItemRow :=
  List.filter (fun r => bool_decide (irow_study_set_id r = id)) (study_items t).

(** An item as it comes back from its row: [correctAnswer] went through
    [|| null]. *)
Definition storedItem (it : StudyItem) : StudyItem :=
  mkStudyItem (item_id it) (term it) (definition it) (options it)
    (orNull (correctAnswer it)).

(** What a creation and an update hand to the engine fits the columns: the
    row of the study set, the rows of the items, the new values of a row. *)
Definition headerFits (id : string) (now : Z) (data : StudySetInput) : bool :=
  fitsStudySets
    (mkStudySetRow id (in_title data) (orElse (Some (in_description data)) "")
       (default now (in_createdAt data)) (default now (in_updatedAt data))
       (in_sourceType data) (orNull (in_sourceName data))).

Definition itemsFit (setId : string) (its : list StudyItem) : bool :=
  forallb (fun it => fitsStudyItems (itemRow setId it)) its.

Definition patchFits (now : Z) (existing : StudySet) (data : StudySetPatch) : bool :=
  text (orElse (p_title data) (title existing)) &&
  text (default (description existing) (p_description data)) &&
  int8 now &&
  textOrNull (match p_sourceName data with
              | Some n => Some n
              | None => sourceName existing
              end).

(** The engine hands rows back in insertion order. *)
Definition inInsertionOrder (scan : list StudyItemRow -> list StudyItemRow) : Prop :=
  forall rows, scan rows = rows.

(** No transport failure is pending. *)
Definition reliable (c : Conn) : Prop := faults c = [].

(** Sample connections: an empty database, and one holding a study set. *)
Definition emptyConn : Conn := mkConn emptyTables [] [].

Definition sampleData : StudySetInput :=
  mkStudySetInput "Spanish" "Basics"
    [mkStudyItem "a" "Hola" "Hello there" None None;
     mkStudyItem "b" "Adios" "Goodbye" (Some ["x"; "y"]) (Some "B")]
    Manual (Some "book.pdf") None None None.

Definition sampleConn : Conn := fst (createStudySetDb "k1" 10 sampleData emptyConn).

(** The counters fit their [INTEGER] columns. *)
Definition countersFit (p : ProgressInput) : bool :=
  int4 (pi_itemsStudied p) && int4 (pi_correctAnswers p) &&
  int4 (pi_incorrectAnswers p) && int4 (pi_completedSessions p).

(** An operation whose first [query] throws: one line on the console, the
    tables untouched, one entry of the failure schedule used up, and the
    result [r] ([None]: the exception goes on to the caller). *)
Definition failsWith {A} (m : M A) (c : Conn) (fs : list bool) (msg : string)
    (r : option A) : Prop :=
  m c = (mkConn (tables c) fs (console c ++ [msg]), r).

(** A connection to the sample database whose next call fails. *)
Definition brokenConn : Conn := mkConn (tables sampleConn) [true] [].







Definition quizProgress (studied right wrong sessions : Z) : ProgressInput :=
  mkProgressInput "k1" Quiz studied right wrong sessions.

(** The ids of the items are pairwise distinct and none is in
    [study_items] yet, where [id] is the primary key. *)
Definition freshItemIds (its : list StudyItem) (t : Tables) : Prop :=
  NoDup (map item_id its) /\
  forall it, it ∈ its -> item_id it ∉ map irow_id (study_items t).

(** A replacement of the items of the sample study set: the two cards in
    the other order. *)
Definition swappedItems : StudySetPatch :=
  mkStudySetPatch None None None
    (Some [mkStudyItem "b" "Adios" "Goodbye" None None;
           mkStudyItem "a" "Hola" "Hello there" None None])
    None None.


End Db.

(** ** Learn mode: the session as a whole *)

Module LearnSession.
Import LearnView.

(** [resetSession] *)
Definition resetSession (now : Z) (studySet : StudySet) (st : LearnState) : LearnState :=
  setIsSessionComplete false
    (setFeedback None
       (setUserInput ""
          (setStage StageTerm
             (setCurrentIndex 0 (setItems (freshItems now studySet) st))))).

(** What the user and React can do to a session of [studySet]: type, press
    "Check", press the button of the stage, reset, and the two effects. *)
Inductive SessionStep (toLowerCase trim : string -> string) (studySet : StudySet) :
    LearnState -> LearnState -> Prop :=
  | StepType text st : SessionStep toLowerCase trim studySet st (setUserInput text st)
  | StepCheck st st' :
      checkAnswer toLowerCase trim st = Some st' ->
      SessionStep toLowerCase trim studySet st st'
  | StepNext now st st' :
      handleNext now st = Some st' -> SessionStep toLowerCase trim studySet st st'
  | StepReset now st : SessionStep toLowerCase trim studySet st (resetSession now studySet st)
  | StepStats st : SessionStep toLowerCase trim studySet st (updateStats st)
  | StepFind now st : SessionStep toLowerCase trim studySet st (findNextItem studySet now st).

(** An item that was never reviewed is still at level 0. *)
Definition reviewedOrNew (it : LearnItem) : Prop :=
  lastReviewed it = None -> knowledgeLevel it = 0.

(** What holds of the items throughout a session of [studySet]. *)
Definition sessionItems (studySet : StudySet) (l : list LearnItem) : Prop :=
  map item l = set_items studySet /\
  Forall (fun it => valid_level (knowledgeLevel it)) l /\
  Forall reviewedOrNew l.

(** The number of items due at [now]. *)
Definition dueCount (now : Z) (l : list LearnItem) : nat :=
  length (List.filter (isDue now) l).

End LearnSession.

(** ** Fallback store: a new client *)

Module LocalClient.
Import LocalDb.

(** [createLocalStorageClient ()]: a client starts with an empty in-memory
    store; what it finds in the browser, if there is one, is whatever
    earlier clients left there. *)
Definition createLocalStorageClient (browser : option Browser) : Client :=
  mkClient emptyMemoryStore browser.

(** The client of a page that is loaded again, or of a server that is
    started again: the memory of [w] is gone, its browser is as it was. *)
Definition reloaded (w : Client) : Client := createLocalStorageClient (window w).

(** A browser store that takes no more writes and still holds a progress
    record and the sample study set. *)
Definition fullStore : Client :=
  match window twoSetStore with
  | Some b => mkClient (memoryStore twoSetStore) (Some (mkBrowser (localStorage b) true))
  | None => twoSetStore
  end.

(** A patch that only renames a study set. *)
Definition renameOnly : StudySetPatch :=
  mkStudySetPatch (Some "Spanish II") None None None None None.

End LocalClient.

(** ** Further sample databases *)

Module DbSamples.
Import Db.

(** The sample database with the quiz progress of its study set. *)
Definition progressConn : Conn :=
  fst (saveUserProgressDb 20 (quizProgress 3 2 1 1) sampleConn).

(** A creation input whose second item has the id of an item that the sample
    database holds already. *)
Definition clashingData : StudySetInput :=
  mkStudySetInput "French" "Basics"
    [mkStudyItem "c" "Salut" "Hi" None None;
     mkStudyItem "a" "Merci" "Thanks" None None;
     mkStudyItem "d" "Oui" "Yes" None None]
    Manual None None None None.

(** A second study set, older than the first. *)
Definition olderData : StudySetInput :=
  mkStudySetInput "French" "Basics"
    [mkStudyItem "c" "Salut" "Hi" None None]
    Manual None None None None.

Definition twoSetConn : Conn := fst (createStudySetDb "k0" 5 olderData sampleConn).

(** A replacement of items whose second item has the id of the item of
    the older study set. *)
Definition clashingPatch : StudySetPatch :=
  mkStudySetPatch None None None
    (Some [mkStudyItem "e" "Uno" "One" None None;
           mkStudyItem "c" "Dos" "Two" None None])
    None None.

End DbSamples.

(** ** The constraints of the tables *)

Module DbSchema.
Import Db.

(** Referential integrity of [user_progress]. *)
Definition progressReferencesSets (t : Tables) : bool :=
  forallb (fun r => hasStudySet (prow_study_set_id r) t) (user_progress t).

(** What [setupDatabase] declares: the primary keys of [study_sets] and
    [study_items], the two references to [study_sets], and
    [UNIQUE(study_set_id, mode)]. *)
Definition schemaHolds (t : Tables) : Prop :=
  NoDup (map row_id (study_sets t)) /\
  NoDup (map irow_id (study_items t)) /\
  itemsReferenceSets t = true /\
  progressReferencesSets t = true /\
  forall id md, (progressCount id md t <= 1)%nat.

(** A computation hands on a property of the connection. *)
Definition keeps (P : Conn -> Prop) {A} (m : M A) : Prop :=
  forall c, P c -> P (fst (m c)).

(** A property that does not look at the console, and that survives a call
    being used up. *)
Definition steady (P : Conn -> Prop) : Prop :=
  (forall c msg, P c -> P (mkConn (tables c) (faults c) (console c ++ [msg]))) /\
  (forall c, P c -> P (mkConn (tables c) (tail (faults c)) (console c))).

(** A statement hands on a property of the connection. *)
Definition stmtKeeps (P : Conn -> Prop) {R} (stmt : Tables -> option (Tables * R)) :
    Prop :=
  forall c t' r,
    P c -> stmt (tables c) = Some (t', r) ->
    P (mkConn t' (tail (faults c)) (console c)).

(** A property of the tables, as one of the connection. *)
Definition onTables (Q : Tables -> Prop) : Conn -> Prop := fun c => Q (tables c).

(** What the tables hold for one study set, and for a study set and a
    mode; [t] holds the same as [t0]. *)
Definition rowsOf (id : string) (t : Tables) : list StudySetRow :=
  List.filter (fun r => bool_decide (row_id r = id)) (study_sets t).

Definition progressOf (id md : string) (t : Tables) : list UserProgressRow :=
  List.filter (progressMatches id md) (user_progress t).

Definition sameStudySet (id : string) (t0 t : Tables) : Prop :=
  rowsOf id t = rowsOf id t0 /\ itemsOf id t = itemsOf id t0.

Definition sameProgress (id md : string) (t0 t : Tables) : Prop :=
  progressOf id md t = progressOf id md t0.

Definition sameFor (id : string) (t0 t : Tables) : Prop :=
  sameStudySet id t0 t /\ forall md, sameProgress id md t0 t.

Section Calls.

Variable scan : list StudyItemRow -> list StudyItemRow.

(** One call of the database backend. *)
Inductive DbCall : Conn -> Conn -> Prop :=
  | CallCreate id now data c : DbCall c (fst (createStudySetDb id now data c))
  | CallGet id c : DbCall c (fst (getStudySetDb scan id c))
  | CallUpdate id now data c : DbCall c (fst (updateStudySetDb scan id now data c))
  | CallDelete id c : DbCall c (fst (deleteStudySetDb id c))
  | CallGetAll c : DbCall c (fst (getAllStudySetsDb scan c))
  | CallSaveProgress now p c : DbCall c (fst (saveUserProgressDb now p c))
  | CallGetProgress id md c : DbCall c (fst (getUserProgressDb id md c)).

(** One call that writes, for the study set [id]. *)
Inductive CallOn (id : string) : Conn -> Conn -> Prop :=
  | OnCreate now data c : CallOn id c (fst (createStudySetDb id now data c))
  | OnUpdate now data c : CallOn id c (fst (updateStudySetDb scan id now data c))
  | OnDelete c : CallOn id c (fst (deleteStudySetDb id c))
  | OnSaveProgress now p c :
      pi_studySetId p = id -> CallOn id c (fst (saveUserProgressDb now p c)).

End Calls.

End DbSchema.

(** ** The API routes over the database ([hasDatabase] holds) *)

Module Api.
Import Db.

(** What a route answers: [NextResponse.json(body)], or
    [NextResponse.json({ error }, { status })]; the [details] that some error
    bodies carry besides, the text of the exception, are left out. *)
Inductive Response (A : Type) :=
  | Success (body : A)
  | Failure (status : Z) (error : string).
Arguments Success {A} body.
Arguments Failure {A} status error.

(** [CREATE TABLE IF NOT EXISTS ...]: a table that is not there yet is one
    without rows, so the statement changes nothing in the tables. *)
Definition createTableIfNotExists (t : Tables) : option (Tables * unit) := Some (t, tt).

(** [setupDatabase] of [neon-db.ts]; the result is its [success]. *)
Definition setupDatabase : M bool :=
  tryCatch
    (await _ <~ query createTableIfNotExists ;;
     await _ <~ query createTableIfNotExists ;;
     await _ <~ query createTableIfNotExists ;;
     ret true)
    "Error setting up database:"
    (ret false).

(** [initDb], with a [DATABASE_URL]. *)
Definition initDb : M bool := setupDatabase.

Definition ensureDbInitialized : M unit :=
  tryCatch (await _ <~ initDb ;; ret tt) "Failed to initialize database:" (ret tt).

Section Routes.

Variable scan : list StudyItemRow -> list StudyItemRow.

(** [GET /api/study-sets/[id]] *)
Definition GET_studySet (id : string) : M (Response StudySet) :=
  tryCatch
    (await _ <~ ensureDbInitialized ;;
     await studySet <~ getStudySetDb scan id ;;
     match studySet with
     | None => ret (Failure 404 "Study set not found")
     | Some studySet => ret (Success studySet)
     end)
    "Failed to get study set:"
    (ret (Failure 500 "Failed to fetch study set")).

(** [DELETE /api/study-sets/[id]]; the body of a success is
    [{ success: true }]. *)
Definition DELETE_studySet (id : string) : M (Response bool) :=
  tryCatch
    (await _ <~ ensureDbInitialized ;;
     await success <~ deleteStudySetDb id ;;
     if negb success then ret (Failure 404 "Study set not found")
     else ret (Success true))
    "Failed to delete study set:"
    (ret (Failure 500 "Failed to delete study set")).

(** [GET /api/study-sets] *)
Definition GET_studySets : M (Response (list StudySet)) :=
  tryCatch
    (await _ <~ ensureDbInitialized ;;
     await studySets <~ getAllStudySetsDb scan ;;
     ret (Success studySets))
    "Failed to get study sets:"
    (ret (Failure 500 "Failed to fetch study sets")).

End Routes.

(** [GET /api/learning-modes/quiz] and [GET /api/learning-modes/flashcards],
    which differ in the mode only: [studySetId] is
    [url.searchParams.get("studySetId")], [now] the value of [Date.now()]. *)
Definition GET_progress (md : Mode) (now : Z) (studySetId : option string) :
    M (Response UserProgress) :=
  match studySetId with
  | None => ret (Failure 400 "Study set ID is required")
  | Some studySetId =>
      if bool_decide (studySetId = "") then ret (Failure 400 "Study set ID is required")
      else
        tryCatch
          (await progress <~ getUserProgressDb studySetId (mode_name md) ;;
           ret (Success (default (mkUserProgress studySetId md now 0 0 0 0) progress)))
          "Failed to get progress:"
          (ret (Failure 500 "Failed to fetch progress"))
  end.

Definition GET_quizProgress := GET_progress Quiz.
Definition GET_flashcardsProgress := GET_progress Flashcards.

(** [sampleStudySets] of the sample-data route: a constant of the module,
    so the ids of its thirteen items are drawn once, when the module is
    loaded; [itemId n] is the [n]-th of them. *)
Definition sampleStudySets (itemId : nat -> string) : list StudySetInput :=
  [mkStudySetInput "Basic Spanish Vocabulary" "Essential Spanish words for beginners"
     [mkStudyItem (itemId 0%nat) "Hola" "Hello" None None;
      mkStudyItem (itemId 1%nat) "Gracias" "Thank you" None None;
      mkStudyItem (itemId 2%nat) "Buenos días" "Good morning" None None;
      mkStudyItem (itemId 3%nat) "Buenas noches" "Good night" None None;
      mkStudyItem (itemId 4%nat) "Por favor" "Please" None None;
      mkStudyItem (itemId 5%nat) "Adiós" "Goodbye" None None;
      mkStudyItem (itemId 6%nat) "Sí" "Yes" None None;
      mkStudyItem (itemId 7%nat) "No" "No" None None]
     Manual None None None None;
   mkStudySetInput "Biology Terms" "Common biology terminology"
     [mkStudyItem (itemId 8%nat) "Mitochondria"
        "The powerhouse of the cell, responsible for producing energy" None None;
      mkStudyItem (itemId 9%nat) "DNA"
        "Deoxyribonucleic acid, the genetic material in humans and almost all other organisms"
        None None;
      mkStudyItem (itemId 10%nat) "Photosynthesis"
        "The process by which plants use sunlight to synthesize foods from carbon dioxide and water"
        None None;
      mkStudyItem (itemId 11%nat) "Cell"
        "The basic structural and functional unit of all organisms" None None;
      mkStudyItem (itemId 12%nat) "Ecosystem"
        "A biological community of interacting organisms and their physical environment"
        None None]
     Manual None None None None].

(** [for (const setData of sampleStudySets) createdSets.push(await
    createStudySet(setData))]; [fresh n] gives the values of [nanoid()] and
    [Date.now()] in the [n]-th call of [createStudySet]. *)
Fixpoint createAll (fresh : nat -> string * Z) (n : nat) (sets : list StudySetInput) :
    M (list StudySet) :=
  match sets with
  | [] => ret []
  | setData :: sets' =>
      await studySet <~ createStudySetDb (fst (fresh n)) (snd (fresh n)) setData ;;
      await createdSets <~ createAll fresh (S n) sets' ;;
      ret (studySet :: createdSets)
  end.

(** [POST /api/sample-data]; the body of a success is the list of the study
    sets created. *)
Definition POST_sampleData (itemId : nat -> string) (fresh : nat -> string * Z) :
    M (Response (list StudySet)) :=
  tryCatch
    (await _ <~ ensureDbInitialized ;;
     await createdSets <~ createAll fresh 0 (sampleStudySets itemId) ;;
     ret (Success createdSets))
    "Failed to create sample data:"
    (ret (Failure 500 "Failed to create sample data")).

(** Thirteen distinct item ids. *)
Definition letterId (n : nat) : string :=
  String (ascii_of_nat (97 + n)) EmptyString.

(** The ids and times of two calls of the sample-data route. *)
Definition firstCall (n : nat) : string * Z :=
  match n with O => ("s1", 10) | _ => ("s2", 11) end.
Definition secondCall (n : nat) : string * Z :=
  match n with O => ("s3", 20) | _ => ("s4", 21) end.

(** A connection to the sample database on which the fourth call from now
    fails. *)
Definition flakyConn : Conn := mkConn (tables sampleConn) [false; false; false; true] [].

End Api.

(** * Properties *)

(** ** Learn mode *)

Section LearnViewFacts.
Import LearnView.

Lemma at_index_Some {A} (l : list A) (i : Z) (x : A) :
  at_index l i = Some x <-> 0 <= i /\ l !! Z.to_nat i = Some x.
Proof.
  unfold at_index. destruct (Z.ltb_spec i 0); split.
  - discriminate.
  - intros [? _]; lia.
  - auto.
  - tauto.
Qed.

Lemma intervals_delay (level : Z) :
  valid_level level -> at_index intervals level = Some (delayOfLevel level).
Proof.
  unfold valid_level. intros Hl.
  assert (level = 0 \/ level = 1 \/ level = 2 \/ level = 3 \/ level = 4) as Hc by lia.
  destruct Hc as [-> | [-> | [-> | [-> | ->]]]]; reflexivity.
Qed.

Lemma intervals_defined (level : Z) (d : Z) :
  at_index intervals level = Some d -> valid_level level.
Proof.
  intros [H0 Hd]%at_index_Some. apply lookup_lt_Some in Hd.
  unfold valid_level. simpl in Hd. lia.
Qed.

(** The level after a recall attempt stays a level. *)
Lemma newLevel_valid (level : Z) (isCorrect : bool) :
  valid_level level ->
  valid_level (if isCorrect then Z.min 4 (level + 1) else Z.max 0 (level - 1)).
Proof. unfold valid_level. destruct isCorrect; lia. Qed.

(** *** Sorting by due date *)

Lemma insertByNextReview_perm (x : LearnItem) (l : list LearnItem) :
  Permutation (insertByNextReview x l) (x :: l).
Proof.
  induction l as [| y l IH]; simpl.
  - reflexivity.
  - destruct (nextReview x <=? nextReview y).
    + reflexivity.
    + rewrite IH. apply perm_swap.
Qed.

Lemma sortByNextReview_perm (l : list LearnItem) :
  Permutation (sortByNextReview l) l.
Proof.
  induction l as [| x l IH]; simpl.
  - reflexivity.
  - rewrite insertByNextReview_perm. by constructor.
Qed.

Lemma insertByNextReview_sorted (x : LearnItem) (l : list LearnItem) :
  StronglySorted dueBefore l -> StronglySorted dueBefore (insertByNextReview x l).
Proof.
  induction 1 as [| y l Hs IH Hall]; simpl.
  - repeat constructor.
  - destruct (Z.leb_spec (nextReview x) (nextReview y)) as [Hle | Hgt].
    + constructor; [by constructor |].
      constructor; [exact Hle |].
      eapply Forall_impl; [exact Hall |].
      unfold dueBefore. intros z Hz. lia.
    + constructor; [exact IH |].
      rewrite insertByNextReview_perm. constructor; [| exact Hall].
      unfold dueBefore. lia.
Qed.

Lemma sortByNextReview_sorted (l : list LearnItem) :
  StronglySorted dueBefore (sortByNextReview l).
Proof.
  induction l as [| x l IH]; simpl.
  - constructor.
  - by apply insertByNextReview_sorted.
Qed.

(** The head of the sorted list is an element with the least due date. *)
Lemma sortByNextReview_head (l : list LearnItem) (d : LearnItem) (rest : list LearnItem) :
  sortByNextReview l = d :: rest ->
  d ∈ l /\ forall x, x ∈ l -> nextReview d <= nextReview x.
Proof.
  intros Hs.
  pose proof (sortByNextReview_perm l) as Hp.
  pose proof (sortByNextReview_sorted l) as Hsorted.
  rewrite Hs in Hp, Hsorted. split.
  - rewrite <- Hp. by left.
  - intros x Hx. rewrite <- Hp in Hx.
    apply StronglySorted_inv in Hsorted as [_ Hall].
    apply elem_of_cons in Hx as [-> | Hx]; [lia |].
    rewrite Forall_forall in Hall. by apply Hall.
Qed.

Lemma sortByNextReview_nil (l : list LearnItem) :
  sortByNextReview l = [] -> l = [].
Proof.
  intros Hs. pose proof (sortByNextReview_perm l) as Hp. rewrite Hs in Hp.
  by apply Permutation_nil.
Qed.

(** *** [findIndex] *)

Lemma findIndex_found {A} (p : A -> bool) (l : list A) (x : A) :
  x ∈ l -> p x = true ->
  exists y, at_index l (findIndex p l) = Some y /\ p y = true.
Proof.
  induction l as [| z l IH]; intros Hin Hp.
  - by apply elem_of_nil in Hin.
  - simpl. destruct (p z) eqn:Hz.
    + exists z. by split.
    + apply elem_of_cons in Hin as [-> | Hin]; [congruence |].
      destruct (IH Hin Hp) as (y & Hy & Hpy).
      apply at_index_Some in Hy as [H0 Hy].
      destruct (Z.ltb_spec (findIndex p l) 0); [lia |].
      exists y. split; [| exact Hpy].
      apply at_index_Some. split; [lia |].
      replace (Z.to_nat (findIndex p l + 1)) with (S (Z.to_nat (findIndex p l))) by lia.
      exact Hy.
Qed.

(** With pairwise distinct ids, looking an element up by its id finds it. *)
Lemma findIndex_by_id (l : list LearnItem) (d : LearnItem) :
  NoDup (map (fun it => item_id (item it)) l) ->
  d ∈ l ->
  at_index l (findIndex (fun it => bool_decide (item_id (item it) = item_id (item d))) l)
  = Some d.
Proof.
  intros Hnd Hin.
  destruct (findIndex_found
              (fun it => bool_decide (item_id (item it) = item_id (item d))) l d Hin)
    as (y & Hy & Hpy).
  { by apply bool_decide_eq_true. }
  rewrite Hy. f_equal.
  apply bool_decide_eq_true in Hpy.
  apply at_index_Some in Hy as [_ Hy].
  apply list_elem_of_lookup in Hin as [j Hj].
  assert (Z.to_nat (findIndex (fun it => bool_decide (item_id (item it) = item_id (item d))) l) = j) as Hij.
  { eapply NoDup_lookup; [exact Hnd | |].
    - rewrite list_lookup_fmap, Hy. simpl. reflexivity.
    - rewrite list_lookup_fmap, Hj. simpl. by rewrite Hpy. }
  rewrite Hij in Hy. congruence.
Qed.

Lemma filter_isDue (now : Z) (l : list LearnItem) (x : LearnItem) :
  x ∈ List.filter (isDue now) l <-> x ∈ l /\ nextReview x <= now.
Proof.
  rewrite !list_elem_of_In, filter_In. unfold isDue. by rewrite Z.leb_le.
Qed.


(** *** The knowledge-level transition *)

(** C1.  After a recall attempt at time [now] on the item shown (the one at
    [currentIndex], whose level is one of 0..4), [updateItemKnowledge] puts
    in its place the same card with: level [min (level + 1) 4] when the
    attempt was graded correct and [max (level - 1) 0] otherwise;
    [nextReview] equal to [now] plus the delay of the new level, the delays
    of levels 0..4 being 1 minute, 1 hour, 1 day, 3 days and 7 days; and
    [lastReviewed] equal to [now].  The new level is again one of 0..4,
    the other items and the rest of the state are as before. *)
Theorem updateItemKnowledge_transition (now : Z) (st : LearnState) (it : LearnItem) :
  at_index (items st) (currentIndex st) = Some it ->
  valid_level (knowledgeLevel it) ->
  exists st' it',
    updateItemKnowledge now st = Some st' /\
    at_index (items st') (currentIndex st) = Some it' /\
    item it' = item it /\
    (feedback st = Some FeedbackCorrect ->
       knowledgeLevel it' = Z.min (knowledgeLevel it + 1) 4) /\
    (feedback st <> Some FeedbackCorrect ->
       knowledgeLevel it' = Z.max (knowledgeLevel it - 1) 0) /\
    valid_level (knowledgeLevel it') /\
    nextReview it' = now + delayOfLevel (knowledgeLevel it') /\
    lastReviewed it' = Some now /\
    (forall j, j <> currentIndex st -> at_index (items st') j = at_index (items st) j) /\
    setItems (items st) st' = st.
Proof.
  intros Hit Hlvl. unfold updateItemKnowledge. rewrite Hit.
  set (isCorrect := bool_decide (feedback st = Some FeedbackCorrect)).
  set (newLevel := if isCorrect then Z.min 4 (knowledgeLevel it + 1)
                   else Z.max 0 (knowledgeLevel it - 1)).
  assert (valid_level newLevel) as Hnew by (by apply newLevel_valid).
  rewrite (intervals_delay newLevel Hnew).
  apply at_index_Some in Hit as [H0 Hit].
  eexists _, _. split; [reflexivity |].
  split.
  { simpl. apply at_index_Some. split; [exact H0 |].
    apply list_lookup_insert_eq. by eapply lookup_lt_Some. }
  simpl. repeat split; try done.
  - intros Hc. unfold newLevel, isCorrect. rewrite bool_decide_eq_true_2 by done. lia.
  - intros Hc. unfold newLevel, isCorrect. rewrite bool_decide_eq_false_2 by done. lia.
  - apply Hnew.
  - apply Hnew.
  - intros j Hj. unfold at_index. destruct (j <? 0) eqn:Hneg; [done |].
    apply list_lookup_insert_ne. apply Z.ltb_ge in Hneg. lia.
  - by destruct st.
Qed.

(** C1, at a session in its quiz stage: a card at level 2 answered correctly
    at time 1000. *)
Lemma updateItemKnowledge_transition_witness :
  exists st' it',
    updateItemKnowledge 1000 sampleQuizState = Some st' /\
    at_index (items st') 0 = Some it' /\
    knowledgeLevel it' = 3 /\ nextReview it' = 1000 + 3 * day /\
    lastReviewed it' = Some 1000.
Proof.
  destruct (updateItemKnowledge_transition 1000 sampleQuizState
              (mkLearnItem sampleItemA 2 100 None))
    as (st' & it' & Hrun & Hat & _ & Hup & _ & _ & Hnext & Hlast & _).
  - reflexivity.
  - unfold valid_level. simpl. lia.
  - exists st', it'.
    assert (knowledgeLevel it' = 3) as Hl by (rewrite Hup; [reflexivity | reflexivity]).
    repeat split; try assumption.
    rewrite Hnext, Hl. reflexivity.
Defined.


(** *** Choosing the next item *)

(** C4.  In the term stage, with the ids of the items pairwise distinct (the
    entity model's uniqueness of item ids): when some item is due
    ([nextReview <= now]), the session is not marked complete by this step
    and the item then shown, the one at the new [currentIndex], is an item
    of the session that is due and no due item has an earlier [nextReview],
    so that of two due items with [nextReview] T1 < T2 the second is not the
    one shown; when no item is due, the session is marked complete. *)
Theorem findNextItem_earliest_due (studySet : StudySet) (now : Z) (st : LearnState) :
  stage st = StageTerm ->
  NoDup (map (fun it => item_id (item it)) (items st)) ->
  ((exists d, d ∈ items st /\ nextReview d <= now) ->
     isSessionComplete (findNextItem studySet now st) = isSessionComplete st /\
     exists shown,
       at_index (items (findNextItem studySet now st))
                (currentIndex (findNextItem studySet now st)) = Some shown /\
       shown ∈ items st /\
       nextReview shown <= now /\
       (forall d, d ∈ items st -> nextReview d <= now ->
                  nextReview shown <= nextReview d) /\
       (forall d1 d2, d1 ∈ items st -> d2 ∈ items st ->
                      nextReview d1 <= now -> nextReview d2 <= now ->
                      nextReview d1 < nextReview d2 -> shown <> d2)) /\
  ((forall d, d ∈ items st -> now < nextReview d) ->
     isSessionComplete (findNextItem studySet now st) = true).
Proof.
  intros Hstage Hnd. unfold findNextItem.
  rewrite bool_decide_eq_false_2 by (rewrite Hstage; auto).
  unfold dueItems. split.
  - intros (d & Hd & Hdue).
    destruct (sortByNextReview (List.filter (isDue now) (items st))) as [| first rest] eqn:Hs.
    { apply sortByNextReview_nil in Hs.
      assert (d ∈ List.filter (isDue now) (items st)) as Hin by (by apply filter_isDue).
      rewrite Hs in Hin. by apply elem_of_nil in Hin. }
    apply sortByNextReview_head in Hs as [Hfirst Hmin].
    apply filter_isDue in Hfirst as [Hfirst Hfdue].
    split; [reflexivity |].
    exists first. simpl.
    split; [by apply findIndex_by_id |].
    split; [exact Hfirst |].
    split; [exact Hfdue |].
    assert (forall x, x ∈ items st -> nextReview x <= now ->
                      nextReview first <= nextReview x) as Hleast.
    { intros x Hx Hxdue. apply Hmin. by apply filter_isDue. }
    split; [exact Hleast |].
    intros d1 d2 Hd1 _ Hdue1 _ Hlt ->.
    specialize (Hleast d1 Hd1 Hdue1). lia.
  - intros Hnone.
    destruct (sortByNextReview (List.filter (isDue now) (items st))) as [| first rest] eqn:Hs.
    { reflexivity. }
    apply sortByNextReview_head in Hs as [Hfirst _].
    apply filter_isDue in Hfirst as [Hfirst Hfdue].
    specialize (Hnone first Hfirst). lia.
Qed.

(** C4, at a session with two due cards: the one due at 50 is shown rather
    than the one due at 100. *)
Lemma findNextItem_earliest_due_witness :
  exists shown,
    at_index (items (findNextItem sampleSet 200 sampleTermState))
             (currentIndex (findNextItem sampleSet 200 sampleTermState)) = Some shown /\
    nextReview shown <= 200 /\
    shown <> mkLearnItem sampleItemA 2 100 None.
Proof.
  destruct (findNextItem_earliest_due sampleSet 200 sampleTermState) as [Hdue _].
  - reflexivity.
  - simpl. repeat constructor; set_solver.
  - destruct Hdue as (_ & shown & Hat & _ & Hle & _ & Hlt).
    + exists (mkLearnItem sampleItemB 0 50 None). split; [set_solver | simpl; lia].
    + exists shown. repeat split; try assumption.
      apply (Hlt (mkLearnItem sampleItemB 0 50 None)); simpl; try lia; set_solver.
Defined.

(** *** Grading a typed answer *)

Lemma append_cons (a : ascii) (s r : string) :
  String a s +:+ r = String a (s +:+ r).
Proof. reflexivity. Qed.

Lemma append_empty (r : string) : "" +:+ r = r.
Proof. reflexivity. Qed.

Lemma prefix_app (p s : string) :
  String.prefix p s = true <-> exists r, s = p +:+ r.
Proof.
  revert s. induction p as [| a p IH]; intros s; simpl.
  - split; [intros _; by exists s | intros _; by destruct s].
  - destruct s as [| b s]; simpl.
    + split; [discriminate | intros [r Hr]; discriminate].
    + destruct (ascii_dec a b) as [-> | Hne].
      * rewrite IH. split; intros [r Hr]; exists r.
        -- rewrite append_cons. congruence.
        -- rewrite append_cons in Hr. congruence.
      * split; [discriminate |].
        intros [r Hr]. rewrite append_cons in Hr. congruence.
Qed.

Lemma includes_unfold (s needle : string) :
  includes s needle =
  if String.prefix needle s then true
  else match s with
       | EmptyString => false
       | String _ s' => includes s' needle
       end.
Proof. by destruct s. Qed.

(** [includes] finds exactly the contiguous occurrences. *)
Lemma includes_occurs (s needle : string) :
  includes s needle = true <-> exists l r, s = l +:+ needle +:+ r.
Proof.
  induction s as [| c s IH]; rewrite includes_unfold.
  - destruct (String.prefix needle "") eqn:Hp.
    + split; [intros _ | done].
      apply prefix_app in Hp as [r Hr]. by exists ""%string, r.
    + split; [discriminate |].
      intros (l & r & Hlr). destruct l; [| discriminate].
      rewrite append_empty in Hlr.
      assert (String.prefix needle "" = true) by (apply prefix_app; eauto).
      congruence.
  - destruct (String.prefix needle (String c s)) eqn:Hp.
    + split; [intros _ | done].
      apply prefix_app in Hp as [r Hr]. by exists ""%string, r.
    + rewrite IH. split.
      * intros (l & r & ->). by exists (String c l), r.
      * intros (l & r & Hlr). destruct l as [| c' l].
        -- rewrite append_empty in Hlr.
           assert (String.prefix needle (String c s) = true)
             by (apply prefix_app; eauto).
           congruence.
        -- rewrite append_cons in Hlr. injection Hlr as _ ->. eauto.
Qed.

(** [s.substring(0, n)] is the beginning of [s]. *)
Lemma substring_beginning (n : nat) (s : string) :
  exists r, s = String.substring 0 n s +:+ r.
Proof.
  revert s. induction n as [| n IH]; intros s.
  - exists s. by destruct s.
  - destruct s as [| c s]; simpl.
    + by exists ""%string.
    + destruct (IH s) as [r Hr]. exists r. rewrite append_cons. congruence.
Qed.

Lemma substring_length (n : nat) (s : string) :
  String.length (String.substring 0 n s) = Nat.min n (String.length s).
Proof.
  revert s. induction n as [| n IH]; intros s.
  - by destruct s.
  - destruct s as [| c s]; simpl; [done |]. by rewrite IH.
Qed.

(** C9.  In the quiz stage [checkAnswer] grades the typed text correct
    exactly when the lower-cased, trimmed text contains, as a contiguous
    run, the first 20 characters of the lower-cased, trimmed definition of
    the item shown (the whole of it when it is shorter), and grades it
    incorrect otherwise; so typing the definition itself is graded correct.
    This holds whatever [toLowerCase] and [trim] compute. *)
Theorem checkAnswer_substring_grading
    (toLowerCase trim : string -> string) (st : LearnState) (it : LearnItem) :
  at_index (items st) (currentIndex st) = Some it ->
  exists st',
    checkAnswer toLowerCase trim st = Some st' /\
    (feedback st' = Some FeedbackCorrect <->
       exists l r,
         trim (toLowerCase (userInput st)) =
         l +:+ String.substring 0 20 (trim (toLowerCase (definition (item it)))) +:+ r) /\
    (exists rest,
       trim (toLowerCase (definition (item it))) =
       String.substring 0 20 (trim (toLowerCase (definition (item it)))) +:+ rest) /\
    String.length (String.substring 0 20 (trim (toLowerCase (definition (item it)))))
      = Nat.min 20 (String.length (trim (toLowerCase (definition (item it))))) /\
    (feedback st' <> Some FeedbackCorrect -> feedback st' = Some FeedbackIncorrect) /\
    (userInput st = definition (item it) -> feedback st' = Some FeedbackCorrect) /\
    setFeedback (feedback st) st' = st.
Proof.
  intros Hit. unfold checkAnswer. rewrite Hit.
  eexists. split; [reflexivity |]. simpl.
  unfold gradeAnswer.
  pose proof (substring_beginning 20 (trim (toLowerCase (definition (item it)))))
    as Hbegin.
  pose proof (substring_length 20 (trim (toLowerCase (definition (item it)))))
    as Hlen.
  destruct (includes _ _) eqn:Hinc.
  - apply includes_occurs in Hinc.
    repeat split; try done. by destruct st.
  - repeat split; try done.
    + intros Hocc%includes_occurs. congruence.
    + intros Heq. rewrite Heq in Hinc. exfalso.
      destruct (substring_beginning 20 (trim (toLowerCase (definition (item it)))))
        as [r Hr].
      assert (includes (trim (toLowerCase (definition (item it))))
                (String.substring 0 20 (trim (toLowerCase (definition (item it)))))
              = true) as Hyes.
      { apply includes_occurs. exists ""%string, r. exact Hr. }
      congruence.
    + by destruct st.
Qed.

(** C9, at a session whose user typed the definition in lower case. *)
Lemma checkAnswer_substring_grading_witness :
  exists st',
    checkAnswer asciiToLowerCase asciiTrim sampleQuizState = Some st' /\
    feedback st' = Some FeedbackCorrect.
Proof.
  destruct (checkAnswer_substring_grading asciiToLowerCase asciiTrim sampleQuizState
              (mkLearnItem sampleItemA 2 100 None))
    as (st' & Hrun & Hiff & _).
  - reflexivity.
  - exists st'. split; [exact Hrun |].
    apply Hiff. exists ""%string, ""%string. reflexivity.
Defined.

End LearnViewFacts.

(** ** Fallback store *)

Section LocalDbFacts.
Import LocalDb.

(** *** Keys *)

Lemma studySetKey_inj (a b : string) : studySetKey a = studySetKey b -> a = b.
Proof. unfold studySetKey. intros H. by simplify_eq. Qed.

Lemma studySetKey_prefix (id : string) : startsWith "study-set:" (studySetKey id) = true.
Proof. apply prefix_app. by exists id. Qed.

Lemma progressKey_prefix (id m : string) : startsWith "progress:" (progressKey id m) = true.
Proof. apply prefix_app. by exists (id +:+ ":" +:+ m). Qed.

Lemma studySetKey_not_progress (id : string) :
  startsWith "progress:" (studySetKey id) = false.
Proof. reflexivity. Qed.

Lemma allSetsKey_not_studySet : startsWith "study-set:" allSetsKey = false.
Proof. reflexivity. Qed.

Lemma allSetsKey_not_progress : startsWith "progress:" allSetsKey = false.
Proof. reflexivity. Qed.

(** *** [localStorage] as an association list *)

Lemma getItem_putItem_eq (k : string) (v : Json) (ls : list (string * Json)) :
  getItem k (putItem k v ls) = Some v.
Proof.
  induction ls as [| [k' v'] ls IH]; simpl.
  - by rewrite bool_decide_eq_true_2.
  - destruct (bool_decide (k' = k)) eqn:Hk; simpl.
    + by rewrite bool_decide_eq_true_2.
    + by rewrite Hk.
Qed.

Lemma getItem_putItem_ne (k k0 : string) (v : Json) (ls : list (string * Json)) :
  k <> k0 -> getItem k0 (putItem k v ls) = getItem k0 ls.
Proof.
  intros Hne. induction ls as [| [k' v'] ls IH]; simpl.
  - by rewrite bool_decide_eq_false_2.
  - destruct (bool_decide (k' = k)) eqn:Hk; simpl.
    + apply bool_decide_eq_true in Hk as ->.
      by rewrite !bool_decide_eq_false_2.
    + by rewrite IH.
Qed.

Lemma getItem_remove_eq (k : string) (ls : list (string * Json)) :
  getItem k (List.filter (fun e => negb (bool_decide (fst e = k))) ls) = None.
Proof.
  induction ls as [| [k' v'] ls IH]; simpl; [done |].
  destruct (bool_decide (k' = k)) eqn:Hk; simpl; [done |].
  by rewrite Hk.
Qed.

Lemma getItem_remove_ne (k k0 : string) (ls : list (string * Json)) :
  k <> k0 ->
  getItem k0 (List.filter (fun e => negb (bool_decide (fst e = k))) ls) = getItem k0 ls.
Proof.
  intros Hne. induction ls as [| [k' v'] ls IH]; simpl; [done |].
  destruct (bool_decide (k' = k)) eqn:Hk; simpl.
  - apply bool_decide_eq_true in Hk as ->. by rewrite bool_decide_eq_false_2.
  - by rewrite IH.
Qed.

Lemma getItem_Some_elem (k : string) (v : Json) (ls : list (string * Json)) :
  getItem k ls = Some v -> (k, v) ∈ ls.
Proof.
  induction ls as [| [k' v'] ls IH]; simpl; [done |].
  destruct (bool_decide (k' = k)) eqn:Hk.
  - apply bool_decide_eq_true in Hk as ->. intros [= ->]. by left.
  - intros H. right. by apply IH.
Qed.

Lemma getItem_Some_key (k : string) (v : Json) (ls : list (string * Json)) :
  getItem k ls = Some v -> k ∈ keys ls.
Proof.
  intros H%getItem_Some_elem. unfold keys.
  apply list_elem_of_fmap. by exists (k, v).
Qed.

Lemma forallb_elem {A} (p : A -> bool) (l : list A) (x : A) :
  forallb p l = true -> x ∈ l -> p x = true.
Proof.
  rewrite forallb_forall. intros H Hx. apply H. by apply list_elem_of_In.
Qed.

Lemma forallb_putItem (p : string * Json -> bool) (k : string) (v : Json)
    (ls : list (string * Json)) :
  forallb p ls = true -> p (k, v) = true -> forallb p (putItem k v ls) = true.
Proof.
  intros Hls Hkv. induction ls as [| [k' v'] ls IH]; simpl in *.
  - by rewrite Hkv.
  - apply andb_true_iff in Hls as [H1 H2].
    destruct (bool_decide (k' = k)); simpl.
    + by rewrite Hkv, H2.
    + by rewrite H1, IH.
Qed.

Lemma forallb_filter {A} (p q : A -> bool) (l : list A) :
  forallb p l = true -> forallb p (List.filter q l) = true.
Proof.
  induction l as [| x l IH]; simpl; [done |].
  intros [H1 H2]%andb_true_iff.
  destruct (q x); simpl; [rewrite H1 |]; by apply IH.
Qed.

(** The use made of the layout: an entry found under a study-set key is
    filed under its own id. *)
Lemma layoutConsistent_getItem (ls : list (string * Json)) (key : string) (s : StudySet) :
  layoutConsistent ls = true ->
  startsWith "study-set:" key = true ->
  getItem key ls = Some (JsonStudySet s) ->
  key = studySetKey (set_id s).
Proof.
  intros Hc Hp Hg%getItem_Some_elem.
  pose proof (forallb_elem _ _ _ Hc Hg) as He.
  unfold entryConsistent in He. simpl in He. rewrite Hp in He. simpl in He.
  by apply bool_decide_eq_true in He.
Qed.

Lemma noEntryFor_getItem (id : string) (ls : list (string * Json)) (key : string)
    (s : StudySet) :
  noEntryFor id ls = true ->
  startsWith "study-set:" key = true ->
  getItem key ls = Some (JsonStudySet s) ->
  key <> studySetKey id /\ set_id s <> id.
Proof.
  intros Hc Hp Hg%getItem_Some_elem.
  pose proof (forallb_elem _ _ _ Hc Hg) as He.
  simpl in He. rewrite Hp in He. simpl in He.
  apply andb_true_iff in He as [H1 H2].
  apply negb_true_iff, bool_decide_eq_false in H1, H2. done.
Qed.

(** *** Loading from [localStorage] *)

Lemma foldl_snoc {A B} (f : A -> B -> A) (a : A) (l : list B) (x : B) :
  foldl f a (l ++ [x]) = f (foldl f a l) x.
Proof. by rewrite foldl_app. Qed.

Lemma loadStudySet_progress (ls : list (string * Json)) (m : MemoryStore) (key : string) :
  progress (loadStudySet ls m key) = progress m.
Proof. unfold loadStudySet. by repeat case_match. Qed.

Lemma loadStudySets_progress (ls : list (string * Json)) (ks : list string) (m : MemoryStore) :
  progress (foldl (loadStudySet ls) m ks) = progress m.
Proof.
  revert m. induction ks as [| k ks IH]; intros m; simpl; [done |].
  by rewrite IH, loadStudySet_progress.
Qed.

Lemma loadProgress_studySets (ls : list (string * Json)) (ks : list string) (m : MemoryStore) :
  studySets (foldl (loadProgress ls) m ks) = studySets m.
Proof.
  revert m. induction ks as [| k ks IH]; intros m; simpl; [done |].
  rewrite IH. unfold loadProgress. by repeat case_match.
Qed.

Lemma loadAllIds_studySets (ls : list (string * Json)) (m : MemoryStore) :
  studySets (loadAllIds ls m) = studySets m.
Proof. unfold loadAllIds. by repeat case_match. Qed.

Lemma loadAllIds_progress (ls : list (string * Json)) (m : MemoryStore) :
  progress (loadAllIds ls m) = progress m.
Proof. unfold loadAllIds. by repeat case_match. Qed.

Lemma loadFrom_studySets (ls : list (string * Json)) (m : MemoryStore) :
  studySets (loadFrom ls m) =
  studySets (foldl (loadStudySet ls) m (List.filter (startsWith "study-set:") (keys ls))).
Proof. unfold loadFrom. by rewrite loadProgress_studySets, loadAllIds_studySets. Qed.

Lemma elem_of_filter_keys (pre k : string) (ls : list (string * Json)) :
  k ∈ List.filter (startsWith pre) (keys ls) <-> startsWith pre k = true /\ k ∈ keys ls.
Proof. rewrite !list_elem_of_In, filter_In. tauto. Qed.

Lemma elem_of_snoc_l {A} (l : list A) (x y : A) : y ∈ l -> y ∈ l ++ [x].
Proof. intros. apply elem_of_app. by left. Qed.

Lemma elem_of_snoc_r {A} (l : list A) (x : A) : x ∈ l ++ [x].
Proof. apply elem_of_app. right. by apply list_elem_of_singleton. Qed.

(** An id that no entry carries is looked up as before the load. *)
Lemma loadStudySets_other (ls : list (string * Json)) (ks : list string) (m : MemoryStore)
    (id : string) :
  (forall key s, key ∈ ks -> getItem key ls = Some (JsonStudySet s) -> set_id s <> id) ->
  studySets (foldl (loadStudySet ls) m ks) !! id = studySets m !! id.
Proof.
  induction ks as [| k ks IH] using rev_ind; intros Hno; [done |].
  assert (studySets (foldl (loadStudySet ls) m ks) !! id = studySets m !! id) as Hrec.
  { apply IH. intros key s Hin. apply Hno. by apply elem_of_snoc_l. }
  rewrite foldl_snoc. unfold loadStudySet at 1.
  destruct (getItem k ls) as [[s | | |] |] eqn:Hk; try exact Hrec.
  simpl. rewrite lookup_insert_ne; [exact Hrec |].
  apply (Hno k s); [apply elem_of_snoc_r | exact Hk].
Qed.

(** If every entry that carries [id] holds [s], and memory does too, a load
    leaves [s] under [id]. *)
Lemma loadStudySets_same (ls : list (string * Json)) (ks : list string) (m : MemoryStore)
    (id : string) (s : StudySet) :
  (forall key s', key ∈ ks -> getItem key ls = Some (JsonStudySet s') ->
                  set_id s' = id -> s' = s) ->
  studySets m !! id = Some s ->
  studySets (foldl (loadStudySet ls) m ks) !! id = Some s.
Proof.
  induction ks as [| k ks IH] using rev_ind; intros Hall Hm; [done |].
  rewrite foldl_snoc. unfold loadStudySet at 1.
  assert (studySets (foldl (loadStudySet ls) m ks) !! id = Some s) as Hrec.
  { apply IH; [| done]. intros key s' Hin. apply Hall. by apply elem_of_snoc_l. }
  destruct (getItem k ls) as [[s' | | |] |] eqn:Hk; try exact Hrec.
  simpl. destruct (decide (set_id s' = id)) as [Heq | Hne].
  - rewrite Heq, lookup_insert_eq. f_equal.
    apply (Hall k s'); [apply elem_of_snoc_r | exact Hk | exact Heq].
  - by rewrite lookup_insert_ne.
Qed.

(** An entry filed under [id] that carries [id], and is the only one to
    carry it, is what a load leaves under [id]. *)
Lemma loadStudySets_filed (ls : list (string * Json)) (ks : list string) (m : MemoryStore)
    (id : string) (s : StudySet) :
  getItem (studySetKey id) ls = Some (JsonStudySet s) ->
  set_id s = id ->
  (forall key s', key ∈ ks -> getItem key ls = Some (JsonStudySet s') ->
                  set_id s' = id -> s' = s) ->
  studySetKey id ∈ ks ->
  studySets (foldl (loadStudySet ls) m ks) !! id = Some s.
Proof.
  intros Hk Hid.
  induction ks as [| k ks IH] using rev_ind; intros Hone Hin;
    [by apply elem_of_nil in Hin |].
  rewrite foldl_snoc.
  destruct (decide (k = studySetKey id)) as [-> | Hne].
  - unfold loadStudySet. rewrite Hk. simpl. by rewrite Hid, lookup_insert_eq.
  - assert (studySets (foldl (loadStudySet ls) m ks) !! id = Some s) as Hrec.
    { apply IH.
      - intros key s' Hkey. apply Hone. by apply elem_of_snoc_l.
      - apply elem_of_app in Hin as [Hin | Hin]; [exact Hin |].
        apply list_elem_of_singleton in Hin. congruence. }
    apply (loadStudySets_same ls [k] _ id s); [| exact Hrec].
    intros key s' Hkey%list_elem_of_singleton. subst key.
    apply Hone. apply elem_of_snoc_r.
Qed.

Lemma layoutConsistent_carrier (ls : list (string * Json)) (id key : string)
    (s : StudySet) :
  layoutConsistent ls = true ->
  key ∈ List.filter (startsWith "study-set:") (keys ls) ->
  getItem key ls = Some (JsonStudySet s) ->
  set_id s = id ->
  key = studySetKey id.
Proof.
  intros Hc [Hp _]%elem_of_filter_keys Hg Hid.
  rewrite <- Hid. by eapply layoutConsistent_getItem.
Qed.

(** With the persisted layout, what a load leaves under [id] is the entry
    filed under [id] when there is one, and what memory had otherwise. *)
Lemma loadFrom_lookup (ls : list (string * Json)) (m : MemoryStore) (id : string) :
  layoutConsistent ls = true ->
  studySets (loadFrom ls m) !! id =
  match storedStudySet ls id with
  | Some s => Some s
  | None => studySets m !! id
  end.
Proof.
  intros Hc. rewrite loadFrom_studySets. unfold storedStudySet.
  destruct (getItem (studySetKey id) ls) as [[s | p | ids |] |] eqn:Hk.
  2-5: apply loadStudySets_other; intros key s' Hin Hg Hid';
       pose proof (layoutConsistent_carrier _ _ _ _ Hc Hin Hg Hid') as ->; congruence.
  pose proof (layoutConsistent_getItem _ _ _ Hc (studySetKey_prefix id) Hk) as Hid.
  apply studySetKey_inj in Hid.
  apply loadStudySets_filed; [exact Hk | done | |].
  - intros key s' Hin Hg Hid'.
    pose proof (layoutConsistent_carrier _ _ _ _ Hc Hin Hg Hid') as ->. congruence.
  - apply elem_of_filter_keys. split; [apply studySetKey_prefix |].
    by eapply getItem_Some_key.
Qed.

(** A load reads the progress records off the entries filed under a
    [progress:] key. *)
Lemma loadProgresses_lookup (ls : list (string * Json)) (ks : list string)
    (m : MemoryStore) (key : string) :
  progress (foldl (loadProgress ls) m ks) !! key =
  match storedProgress ls key with
  | Some p => if bool_decide (key ∈ ks) then Some p else progress m !! key
  | None => progress m !! key
  end.
Proof.
  induction ks as [| k ks IH] using rev_ind.
  - change (foldl (loadProgress ls) m []) with m.
    destruct (storedProgress ls key); [| done].
    destruct (bool_decide (key ∈ [])) eqn:Hb; [| done].
    apply bool_decide_eq_true in Hb. by apply elem_of_nil in Hb.
  - rewrite foldl_snoc. unfold loadProgress at 1. unfold storedProgress in *.
    destruct (decide (k = key)) as [-> | Hne].
    + destruct (getItem key ls) as [[s | p | ids |] |] eqn:Hk; try exact IH.
      simpl. rewrite lookup_insert_eq.
      by rewrite bool_decide_eq_true_2 by apply elem_of_snoc_r.
    + assert (bool_decide (key ∈ ks ++ [k]) = bool_decide (key ∈ ks)) as ->.
      { apply bool_decide_ext. rewrite elem_of_app, list_elem_of_singleton. naive_solver. }
      destruct (getItem k ls) as [[s | p | ids |] |] eqn:Hk; try exact IH.
      simpl. by rewrite lookup_insert_ne.
Qed.

Lemma loadFrom_progress (ls : list (string * Json)) (m : MemoryStore) (key : string) :
  startsWith "progress:" key = true ->
  progress (loadFrom ls m) !! key =
  match storedProgress ls key with
  | Some p => Some p
  | None => progress m !! key
  end.
Proof.
  intros Hp. unfold loadFrom. rewrite loadProgresses_lookup.
  rewrite loadAllIds_progress, loadStudySets_progress.
  unfold storedProgress.
  destruct (getItem key ls) as [[s | p | ids |] |] eqn:Hk; try done.
  rewrite bool_decide_eq_true_2; [done |].
  apply elem_of_filter_keys. split; [exact Hp | by eapply getItem_Some_key].
Qed.

(** *** [initializeFromLocalStorage] and the two readers *)

Lemma initialize_window (w : Client) :
  window (initializeFromLocalStorage w) = window w.
Proof. unfold initializeFromLocalStorage. by destruct (window w) eqn:Hw. Qed.

Lemma initialize_lookup (id : string) (w : Client) :
  consistent w ->
  studySets (memoryStore (initializeFromLocalStorage w)) !! id = visibleStudySet id w.
Proof.
  unfold consistent, initializeFromLocalStorage, visibleStudySet.
  destruct (window w) as [b |]; [| done].
  intros Hc. simpl. by apply loadFrom_lookup.
Qed.

Lemma initialize_progress (key : string) (w : Client) :
  startsWith "progress:" key = true ->
  progress (memoryStore (initializeFromLocalStorage w)) !! key = visibleProgress key w.
Proof.
  unfold initializeFromLocalStorage, visibleProgress.
  destruct (window w) as [b |]; [| done].
  intros Hp. simpl. by apply loadFrom_progress.
Qed.

Lemma initialize_consistent (w : Client) :
  consistent w -> consistent (initializeFromLocalStorage w).
Proof. unfold consistent. by rewrite initialize_window. Qed.

(** What is shown for an id does not change by loading. *)
Lemma initialize_visible (id : string) (w : Client) :
  consistent w ->
  visibleStudySet id (initializeFromLocalStorage w) = visibleStudySet id w.
Proof.
  intros Hc. unfold visibleStudySet at 1.
  rewrite initialize_window, initialize_lookup by done.
  unfold visibleStudySet. destruct (window w) as [b |]; [| done].
  by destruct (storedStudySet (localStorage b) id).
Qed.

(** [getStudySet] loads and then returns what the store shows for the id. *)
Lemma getStudySet_visible (id : string) (w : Client) :
  consistent w ->
  getStudySet id w = (initializeFromLocalStorage w, visibleStudySet id w).
Proof.
  intros Hc. unfold getStudySet.
  rewrite initialize_lookup by done.
  destruct (visibleStudySet id w) as [s |] eqn:Hv; [done |].
  rewrite initialize_window.
  unfold visibleStudySet, storedStudySet in Hv.
  destruct (window w) as [b |]; [| done].
  by destruct (getItem (studySetKey id) (localStorage b)) as [[| | |] |].
Qed.

(** An id the store knows nothing of is answered by [null]. *)
Lemma getStudySet_absent (id : string) (w : Client) :
  absent id w ->
  getStudySet id w = (initializeFromLocalStorage w, None) /\
  absent id (initializeFromLocalStorage w).
Proof.
  intros [Hm Hls].
  assert (studySets (memoryStore (initializeFromLocalStorage w)) !! id = None) as Hinit.
  { unfold initializeFromLocalStorage. destruct (window w) as [b |]; [| done].
    simpl. rewrite loadFrom_studySets, <- Hm.
    apply loadStudySets_other.
    intros key s [Hp _]%elem_of_filter_keys Hg.
    by destruct (noEntryFor_getItem _ _ _ _ Hls Hp Hg). }
  split.
  - unfold getStudySet. rewrite Hinit, initialize_window.
    destruct (window w) as [b |]; [| done].
    destruct (getItem (studySetKey id) (localStorage b)) as [[s | | |] |] eqn:Hg; try done.
    by destruct (noEntryFor_getItem _ _ _ _ Hls (studySetKey_prefix id) Hg).
  - split; [exact Hinit |]. by rewrite initialize_window.
Qed.

(** [getUserProgress] loads and then returns what the store shows for the
    key. *)
Lemma getUserProgress_visible (studySetId mode : string) (w : Client) :
  getUserProgress studySetId mode w =
  (initializeFromLocalStorage w, visibleProgress (progressKey studySetId mode) w).
Proof.
  unfold getUserProgress.
  rewrite initialize_progress by apply progressKey_prefix.
  destruct (visibleProgress (progressKey studySetId mode) w) as [p |] eqn:Hv; [done |].
  rewrite initialize_window.
  unfold visibleProgress, storedProgress in Hv.
  destruct (window w) as [b |]; [| done].
  by destruct (getItem (progressKey studySetId mode) (localStorage b)) as [[| | |] |].
Qed.

(** *** The writers *)

(** After a write of [s] under the key of [id] into a store that had the
    persisted layout, a load leaves [s] under [id], whatever id [s] itself
    carries. *)
Lemma loadFrom_written (ls ls' : list (string * Json)) (m : MemoryStore) (id : string)
    (s : StudySet) :
  layoutConsistent ls = true ->
  (forall key, startsWith "study-set:" key = true -> key <> studySetKey id ->
               getItem key ls' = getItem key ls) ->
  getItem (studySetKey id) ls' = Some (JsonStudySet s) ->
  studySets m !! id = Some s ->
  studySets (loadFrom ls' m) !! id = Some s.
Proof.
  intros Hc Hsame Hnew Hm. rewrite loadFrom_studySets.
  apply loadStudySets_same; [| exact Hm].
  intros key s' [Hp _]%elem_of_filter_keys Hg Hid.
  destruct (decide (key = studySetKey id)) as [-> | Hne]; [congruence |].
  rewrite Hsame in Hg by done.
  pose proof (layoutConsistent_getItem _ _ _ Hc Hp Hg) as Hkey.
  rewrite Hid in Hkey. contradiction.
Qed.

Lemma studySetKey_ne_allSetsKey (id : string) : allSetsKey <> studySetKey id.
Proof.
  intros H. pose proof (studySetKey_prefix id) as Hp. rewrite <- H in Hp. discriminate.
Qed.

Lemma layoutConsistent_put_ids (ids : list string) (ls : list (string * Json)) :
  layoutConsistent ls = true ->
  layoutConsistent (putItem allSetsKey (JsonIds ids) ls) = true.
Proof. intros Hc. by apply forallb_putItem. Qed.

(** [createStudySet] followed by [getStudySet] on the key it used. *)
Lemma createStudySet_getStudySet (id : string) (now : Z) (data : StudySetInput)
    (w : Client) :
  healthy w ->
  snd (getStudySet id (fst (createStudySet id now data w))) =
  Some (newStudySet id now data).
Proof.
  unfold healthy, createStudySet, getStudySet, initializeFromLocalStorage, tryWrite, setItem.
  destruct (window w) as [b |] eqn:Hw; simpl; rewrite ?Hw; simpl.
  - intros [Hc Hfull]. rewrite Hfull. simpl. rewrite ?Hfull. simpl.
    erewrite loadFrom_written; [done | exact Hc | | |].
    + intros key Hp Hne.
      rewrite getItem_putItem_ne; [by rewrite getItem_putItem_ne |].
      intros <-. by rewrite allSetsKey_not_studySet in Hp.
    + rewrite getItem_putItem_ne by apply studySetKey_ne_allSetsKey.
      apply getItem_putItem_eq.
    + simpl. apply lookup_insert_eq.
  - intros _. by rewrite lookup_insert_eq.
Qed.

(** Writing [s] under [id], in memory and in the browser, and reading [id]
    back. *)
Lemma write_getStudySet (id : string) (s : StudySet) (w : Client) :
  healthy w ->
  snd (getStudySet id
         (tryWrite (setItem (studySetKey id) (JsonStudySet s))
            (mkClient (setStudySet id s (memoryStore w)) (window w)))) = Some s.
Proof.
  unfold healthy, getStudySet, initializeFromLocalStorage, tryWrite, setItem.
  destruct (window w) as [b |] eqn:Hw; simpl.
  - intros [Hc Hfull]. rewrite Hfull. simpl.
    erewrite loadFrom_written; [done | exact Hc | | |].
    + intros key Hp Hne. by rewrite getItem_putItem_ne.
    + apply getItem_putItem_eq.
    + simpl. apply lookup_insert_eq.
  - intros _. by rewrite lookup_insert_eq.
Qed.

Lemma healthy_consistent (w : Client) : healthy w -> consistent w.
Proof. unfold healthy, consistent. destruct (window w); tauto. Qed.

Lemma initialize_healthy (w : Client) :
  healthy w -> healthy (initializeFromLocalStorage w).
Proof. unfold healthy. by rewrite initialize_window. Qed.

(** [updateStudySet] on a study set the store shows, and [getStudySet]
    after it. *)
Lemma updateStudySet_getStudySet (id : string) (now : Z) (data : StudySetPatch)
    (w : Client) (existingSet : StudySet) :
  healthy w ->
  visibleStudySet id w = Some existingSet ->
  snd (updateStudySet id now data w) = Some (mergeStudySet existingSet data now) /\
  snd (getStudySet id (fst (updateStudySet id now data w))) =
  Some (mergeStudySet existingSet data now).
Proof.
  intros Hh Hv.
  pose proof (healthy_consistent w Hh) as Hc.
  unfold updateStudySet.
  rewrite getStudySet_visible by (by apply initialize_consistent).
  rewrite initialize_visible, Hv by done.
  split; [done |].
  apply write_getStudySet. by do 2 apply initialize_healthy.
Qed.

(** [updateStudySet] on an id the store knows nothing of. *)
Lemma updateStudySet_absent (id : string) (now : Z) (data : StudySetPatch) (w : Client) :
  absent id w -> snd (updateStudySet id now data w) = None.
Proof.
  intros Ha. unfold updateStudySet.
  destruct (getStudySet_absent id w Ha) as [_ Ha'].
  destruct (getStudySet_absent id _ Ha') as [-> _]. done.
Qed.

Lemma tryWrite_memoryStore (f : Browser -> option Browser) (w : Client) :
  memoryStore (tryWrite f w) = memoryStore w.
Proof. unfold tryWrite. destruct (window w); [destruct (f _) |]; done. Qed.

Lemma tryWrite_put_ids (ids : list string) (w : Client) :
  exists keep : bool,
    window (tryWrite (setItem allSetsKey (JsonIds ids)) w) =
    (fun b => mkBrowser
                (if keep then localStorage b
                 else putItem allSetsKey (JsonIds ids) (localStorage b))
                (storageFull b)) <$> window w.
Proof.
  unfold tryWrite, setItem. destruct (window w) as [b |] eqn:Hw; simpl.
  - destruct (storageFull b) eqn:Hf; simpl.
    + exists true. rewrite Hw. destruct b; simpl in *; by subst.
    + by exists false.
  - exists true. by rewrite Hw.
Qed.

(** The world after a [deleteStudySet] that found the study set: the entry
    is gone from memory and from [localStorage], where at most the index of
    ids was rewritten. *)
Lemma deleteStudySet_world (id : string) (w : Client) :
  exists (w' : Client) (found keep : bool) (ids : list string),
    deleteStudySet id w = (w', found) /\
    found = bool_decide (is_Some (studySets (memoryStore (initializeFromLocalStorage w)) !! id)) /\
    studySets (memoryStore w') =
      delete id (studySets (memoryStore (initializeFromLocalStorage w))) /\
    progress (memoryStore w') = progress (memoryStore (initializeFromLocalStorage w)) /\
    window w' =
      (fun b => if found
                then mkBrowser
                       (let ls := List.filter (fun e => negb (bool_decide (fst e = studySetKey id)))
                                    (localStorage b) in
                        if keep then ls else putItem allSetsKey (JsonIds ids) ls)
                       (storageFull b)
                else b) <$> window w.
Proof.
  unfold deleteStudySet.
  destruct (studySets (memoryStore (initializeFromLocalStorage w)) !! id) as [s |] eqn:Hl.
  - match goal with
    | |- context [tryWrite (setItem allSetsKey (JsonIds ?ids)) ?w0] =>
        destruct (tryWrite_put_ids ids w0) as [keep Hkeep];
        exists (tryWrite (setItem allSetsKey (JsonIds ids)) w0), true, keep, ids
    end.
    split; [done |]. split; [done |].
    split; [by rewrite tryWrite_memoryStore |].
    split; [by rewrite tryWrite_memoryStore |].
    rewrite Hkeep. simpl. rewrite initialize_window.
    destruct (window w) as [b |]; [| done]. simpl. by destruct keep.
  - exists (initializeFromLocalStorage w), false, true, [].
    split; [done |]. split; [done |].
    rewrite delete_id by done. split; [done |]. split; [done |].
    rewrite initialize_window. by destruct (window w).
Qed.

Lemma visibleStudySet_unfold (id : string) (w : Client) :
  visibleStudySet id w =
  match window w with
  | Some b =>
      match storedStudySet (localStorage b) id with
      | Some s => Some s
      | None => studySets (memoryStore w) !! id
      end
  | None => studySets (memoryStore w) !! id
  end.
Proof. reflexivity. Qed.

(** What the store shows after [deleteStudySet id]: nothing for [id], and
    for any other id what it showed before. *)
Lemma deleteStudySet_visible (id id' : string) (w : Client) :
  consistent w ->
  consistent (fst (deleteStudySet id w)) /\
  visibleStudySet id' (fst (deleteStudySet id w)) =
  if bool_decide (id' = id) then None else visibleStudySet id' w.
Proof.
  intros Hc.
  destruct (deleteStudySet_world id w)
    as (w' & found & keep & ids & -> & Hfound & Hsets & _ & Hwin).
  simpl. pose proof (initialize_lookup id' w Hc) as Hinit'.
  pose proof (initialize_lookup id w Hc) as Hinit.
  split.
  - unfold consistent in *. rewrite Hwin.
    destruct (window w) as [b |]; [| done]. simpl.
    destruct found; [| done]. simpl.
    destruct keep; [by apply forallb_filter |].
    apply layoutConsistent_put_ids. by apply forallb_filter.
  - rewrite (visibleStudySet_unfold id' w'), Hwin, Hsets.
    rewrite (visibleStudySet_unfold id' w) in *. rewrite (visibleStudySet_unfold id w) in *.
    destruct (window w) as [b |] eqn:Hw; simpl.
    + unfold storedStudySet in *.
      destruct (decide (id' = id)) as [-> | Hne].
      * rewrite bool_decide_eq_true_2 by done. rewrite lookup_delete_eq.
        destruct found; simpl.
        -- destruct keep.
           ++ by rewrite getItem_remove_eq.
           ++ rewrite getItem_putItem_ne by apply studySetKey_ne_allSetsKey.
              by rewrite getItem_remove_eq.
        -- symmetry in Hfound. apply bool_decide_eq_false in Hfound.
           rewrite Hinit in Hfound.
           destruct (getItem (studySetKey id) (localStorage b)) as [[s | | |] |]; try done.
           exfalso. apply Hfound. eauto.
      * rewrite bool_decide_eq_false_2 by done.
        rewrite lookup_delete_ne by done. rewrite Hinit'.
        assert (studySetKey id <> studySetKey id') as Hk
          by (intros Hk%studySetKey_inj; congruence).
        destruct found; simpl.
        -- destruct keep.
           ++ rewrite getItem_remove_ne by done.
              by destruct (getItem (studySetKey id') (localStorage b)) as [[| | |] |].
           ++ rewrite getItem_putItem_ne by apply studySetKey_ne_allSetsKey.
              rewrite getItem_remove_ne by done.
              by destruct (getItem (studySetKey id') (localStorage b)) as [[| | |] |].
        -- by destruct (getItem (studySetKey id') (localStorage b)) as [[| | |] |].
    + destruct (decide (id' = id)) as [-> | Hne].
      * rewrite bool_decide_eq_true_2 by done. apply lookup_delete_eq.
      * rewrite bool_decide_eq_false_2 by done.
        rewrite lookup_delete_ne by done. exact Hinit'.
Qed.

(** [deleteStudySet] leaves the progress records as they are shown. *)
Lemma deleteStudySet_visibleProgress (id key : string) (w : Client) :
  startsWith "progress:" key = true ->
  visibleProgress key (fst (deleteStudySet id w)) = visibleProgress key w.
Proof.
  intros Hp.
  destruct (deleteStudySet_world id w)
    as (w' & found & keep & ids & -> & _ & _ & Hprog & Hwin).
  simpl. pose proof (initialize_progress key w Hp) as Hinit.
  unfold visibleProgress in *. rewrite Hwin, Hprog.
  destruct (window w) as [b |] eqn:Hw; simpl; [| exact Hinit].
  rewrite Hinit. unfold storedProgress.
  assert (studySetKey id <> key) as Hk.
  { intros <-. by rewrite studySetKey_not_progress in Hp. }
  assert (allSetsKey <> key) as Hall.
  { intros <-. by rewrite allSetsKey_not_progress in Hp. }
  destruct found; simpl.
  - destruct keep.
    + rewrite getItem_remove_ne by done.
      by destruct (getItem key (localStorage b)) as [[| | |] |].
    + rewrite getItem_putItem_ne by done. rewrite getItem_remove_ne by done.
      by destruct (getItem key (localStorage b)) as [[| | |] |].
  - by destruct (getItem key (localStorage b)) as [[| | |] |].
Qed.

(** [saveUserProgress] followed by [getUserProgress] on the same key. *)
Lemma saveUserProgress_getUserProgress (now : Z) (p : ProgressInput) (w : Client) :
  writable w ->
  writable (fst (saveUserProgress now p w)) /\
  snd (saveUserProgress now p w) = stampProgress now p /\
  snd (getUserProgress (pi_studySetId p) (mode_name (pi_mode p))
         (fst (saveUserProgress now p w))) = Some (stampProgress now p).
Proof.
  intros Hwr. rewrite getUserProgress_visible. simpl.
  unfold saveUserProgress, writable, visibleProgress, tryWrite, setItem in *. simpl.
  rewrite initialize_window.
  destruct (window w) as [b |] eqn:Hw; simpl.
  - rewrite Hwr. simpl. split; [done |]. split; [done |].
    unfold storedProgress. by rewrite getItem_putItem_eq.
  - split; [done |]. split; [done |]. by rewrite lookup_insert_eq.
Qed.

(** *** One record per key *)

Lemma underKey_NoDup {A} (key : string) (l : list (string * A)) :
  NoDup (map fst l) -> (length (underKey key l) <= 1)%nat.
Proof.
  induction l as [| [k v] l IH]; simpl; [lia |].
  intros [Hk Hnd]%NoDup_cons. specialize (IH Hnd).
  destruct (bool_decide (k = key)) eqn:Hkey; simpl; [| exact IH].
  apply bool_decide_eq_true in Hkey as ->.
  assert (underKey key l = []) as ->; [| simpl; lia].
  clear IH Hnd. induction l as [| [k' v'] l IH]; simpl; [done |].
  rewrite fmap_cons, not_elem_of_cons in Hk. destruct Hk as [Hne Hk]. simpl in Hne.
  rewrite bool_decide_eq_false_2 by congruence. by apply IH.
Qed.

Lemma recordsInMemory_le (key : string) (w : Client) : (recordsInMemory key w <= 1)%nat.
Proof. apply underKey_NoDup, NoDup_fst_map_to_list. Qed.

Lemma underKey_putItem (key k : string) (v : Json) (ls : list (string * Json)) :
  (length (underKey key ls) <= 1)%nat ->
  (length (underKey key (putItem k v ls)) <= 1)%nat.
Proof.
  induction ls as [| [k' v'] ls IH]; simpl.
  - intros _. destruct (bool_decide (k = key)); simpl; lia.
  - destruct (bool_decide (k' = k)) eqn:Hk; simpl.
    + apply bool_decide_eq_true in Hk as ->. by destruct (bool_decide (k = key)).
    + destruct (bool_decide (k' = key)) eqn:Hkey; simpl; [| exact IH].
      intros Hle. apply bool_decide_eq_true in Hkey as ->.
      assert (underKey key ls = []) as Hnil
        by (destruct (underKey key ls); [done | simpl in Hle; lia]).
      apply bool_decide_eq_false in Hk.
      assert (underKey key (putItem k v ls) = []) as ->; [| simpl; lia].
      clear IH Hle. induction ls as [| [k2 v2] ls IH2]; simpl in *.
      * by rewrite bool_decide_eq_false_2 by congruence.
      * destruct (bool_decide (k2 = key)) eqn:Hk2; [discriminate |].
        destruct (bool_decide (k2 = k)); simpl.
        -- by rewrite bool_decide_eq_false_2 by congruence.
        -- rewrite Hk2. by apply IH2.
Qed.

(** [saveUserProgress] keeps at most one record under each key. *)
Lemma saveUserProgress_records (now : Z) (p : ProgressInput) (w : Client) :
  (forall key, (recordsInBrowser key w <= 1)%nat) ->
  forall key,
    (recordsInMemory key (fst (saveUserProgress now p w)) <= 1)%nat /\
    (recordsInBrowser key (fst (saveUserProgress now p w)) <= 1)%nat.
Proof.
  intros Hle key. split; [apply recordsInMemory_le |].
  specialize (Hle key). unfold recordsInBrowser, saveUserProgress, tryWrite, setItem in *.
  simpl. rewrite initialize_window.
  destruct (window w) as [b |] eqn:Hw; simpl; rewrite ?Hw; [| lia].
  destruct (storageFull b); simpl; rewrite ?Hw; [exact Hle |].
  by apply underKey_putItem.
Qed.

(** *** The persisted layout is an invariant *)

Lemma loadStudySets_wellKeyed (ls : list (string * Json)) (ks : list string)
    (m : MemoryStore) :
  (forall k s, studySets m !! k = Some s -> set_id s = k) ->
  forall k s, studySets (foldl (loadStudySet ls) m ks) !! k = Some s -> set_id s = k.
Proof.
  revert m. induction ks as [| key ks IH]; intros m Hm; [exact Hm |].
  simpl. apply IH. unfold loadStudySet.
  destruct (getItem key ls) as [[s0 | | |] |]; try exact Hm.
  simpl. intros k s [[<- <-] | [_ Hold]]%lookup_insert_Some; [done | by apply Hm].
Qed.

Lemma initialize_wellKeyed (w : Client) :
  wellKeyed w -> wellKeyed (initializeFromLocalStorage w).
Proof.
  intros [Hm Hc]. split; [| by apply initialize_consistent].
  unfold initializeFromLocalStorage. destruct (window w) as [b |]; [| exact Hm].
  simpl. intros k s. rewrite loadFrom_studySets. by apply loadStudySets_wellKeyed.
Qed.

Lemma tryWrite_setItem_consistent (k : string) (v : Json) (w : Client) :
  entryConsistent (k, v) = true ->
  consistent w -> consistent (tryWrite (setItem k v) w).
Proof.
  unfold consistent, tryWrite, setItem. intros He.
  destruct (window w) as [b |] eqn:Hw; simpl; [| by rewrite Hw].
  destruct (storageFull b); simpl; [by rewrite Hw |].
  intros Hc. by apply forallb_putItem.
Qed.

Lemma entryConsistent_own (s : StudySet) :
  entryConsistent (studySetKey (set_id s), JsonStudySet s) = true.
Proof.
  unfold entryConsistent. simpl. rewrite bool_decide_eq_true_2 by done.
  apply orb_true_r.
Qed.

(** Each call of the client keeps every study set filed under its own id. *)
Lemma wellKeyed_step (w w' : Client) : wellKeyed w -> Step w w' -> wellKeyed w'.
Proof.
  intros Hwk Hstep. destruct Hstep as
    [id now data w Hown | id w | id now data w | id w | w | now p w | sid md w].
  - (* createStudySet *)
    destruct Hwk as [Hm Hc]. unfold createStudySet. simpl.
    assert (set_id (newStudySet id now data) = id) as Hid
      by (unfold newStudySet; simpl; by rewrite Hown).
    split.
    + unfold tryWrite. simpl.
      assert (forall k s, <[id := newStudySet id now data]> (studySets (memoryStore w)) !! k
                          = Some s -> set_id s = k) as Hm'.
      { intros k s [[<- <-] | [_ Hold]]%lookup_insert_Some; [done | by apply Hm]. }
      destruct (window w) as [b |]; [| exact Hm'].
      by destruct (setItem _ _ b ≫= _).
    + unfold consistent, tryWrite, setItem in *. simpl.
      destruct (window w) as [b |] eqn:Hw; simpl; [| done].
      destruct (storageFull b) eqn:Hfull; simpl; [done |].
      apply layoutConsistent_put_ids. apply forallb_putItem; [done |].
      rewrite <- Hid at 1. apply entryConsistent_own.
  - (* getStudySet *)
    rewrite getStudySet_visible by apply Hwk. by apply initialize_wellKeyed.
  - (* updateStudySet *)
    pose proof (initialize_wellKeyed _ (initialize_wellKeyed _ Hwk)) as [Hm2 Hc2].
    unfold updateStudySet.
    rewrite getStudySet_visible by (apply initialize_consistent, Hwk).
    destruct (visibleStudySet id (initializeFromLocalStorage w)) as [existingSet |] eqn:Hv;
      [| by split].
    assert (set_id existingSet = id) as Hid.
    { apply Hm2. rewrite initialize_lookup by (apply initialize_consistent, Hwk). exact Hv. }
    simpl. split.
    + rewrite tryWrite_memoryStore. simpl.
      intros k s [[<- <-] | [_ Hold]]%lookup_insert_Some; [done | by apply Hm2].
    + apply tryWrite_setItem_consistent; [| exact Hc2].
      rewrite <- Hid at 1.
      apply (entryConsistent_own (mergeStudySet existingSet data now)).
  - (* deleteStudySet *)
    destruct (deleteStudySet_visible id id w (proj2 Hwk)) as [Hc' _].
    split; [| exact Hc'].
    destruct (deleteStudySet_world id w) as (w' & found & keep & ids & -> & _ & Hsets & _).
    simpl. rewrite Hsets. intros k s [_ Hold]%lookup_delete_Some.
    by apply (initialize_wellKeyed w Hwk).
  - (* getAllStudySets *)
    by apply initialize_wellKeyed.
  - (* saveUserProgress *)
    destruct (initialize_wellKeyed w Hwk) as [Hm1 Hc1].
    unfold saveUserProgress. simpl. split.
    + rewrite tryWrite_memoryStore. exact Hm1.
    + by apply tryWrite_setItem_consistent.
  - (* getUserProgress *)
    rewrite getUserProgress_visible. by apply initialize_wellKeyed.
Qed.

(** ... and so does every sequence of calls. *)
Lemma wellKeyed_reachable (w0 w : Client) : wellKeyed w0 -> rtc Step w0 w -> wellKeyed w.
Proof.
  intros Hwk Hsteps. induction Hsteps as [| w0 w1 w Hstep _ IH]; [exact Hwk |].
  apply IH. by eapply wellKeyed_step.
Qed.

(** *** What a new client finds *)

(** A new client over the same browser reads what the browser holds. *)
Lemma reloaded_lookup (id : string) (w : Client) :
  consistent w ->
  snd (getStudySet id (LocalClient.reloaded w)) =
  match window w with
  | Some b => storedStudySet (localStorage b) id
  | None => None
  end.
Proof.
  intros Hc. rewrite getStudySet_visible by exact Hc.
  unfold LocalClient.reloaded, LocalClient.createLocalStorageClient, visibleStudySet. simpl.
  destruct (window w) as [b |]; [| apply lookup_empty].
  destruct (storedStudySet (localStorage b) id); [done | apply lookup_empty].
Qed.

(** The browser after [createStudySet] and after [updateStudySet], where it
    accepts writes. *)
Lemma createStudySet_window (id : string) (now : Z) (data : StudySetInput) (w : Client)
    (b : Browser) :
  window w = Some b -> storageFull b = false ->
  window (fst (createStudySet id now data w)) =
  Some (mkBrowser
          (putItem allSetsKey (JsonIds (pushId (studySetIds (memoryStore w)) id))
             (putItem (studySetKey id) (JsonStudySet (newStudySet id now data))
                (localStorage b))) false).
Proof.
  intros Hw Hfull. unfold createStudySet, tryWrite, setItem. simpl. rewrite Hw. simpl.
  rewrite !Hfull. simpl. by rewrite ?Hfull.
Qed.

Lemma updateStudySet_window (id : string) (now : Z) (data : StudySetPatch) (w : Client)
    (b : Browser) (existingSet : StudySet) :
  consistent w ->
  window w = Some b -> storageFull b = false ->
  visibleStudySet id w = Some existingSet ->
  window (fst (updateStudySet id now data w)) =
  Some (mkBrowser
          (putItem (studySetKey id) (JsonStudySet (mergeStudySet existingSet data now))
             (localStorage b)) false).
Proof.
  intros Hc Hw Hfull Hv. unfold updateStudySet.
  rewrite getStudySet_visible by (by apply initialize_consistent).
  rewrite initialize_visible, Hv by done.
  unfold tryWrite, setItem. simpl. rewrite !initialize_window, Hw. simpl.
  by rewrite Hfull.
Qed.

(** A study set written under its own id is read by a new client. *)
Lemma createStudySet_reloaded (id : string) (now : Z) (data : StudySetInput) (w : Client) :
  healthy w -> window w <> None -> in_id data = None ->
  snd (getStudySet id (LocalClient.reloaded (fst (createStudySet id now data w))))
  = Some (newStudySet id now data).
Proof.
  unfold healthy. intros Hh Hclient Hown.
  destruct (window w) as [b |] eqn:Hw; [| done]. destruct Hh as [Hc Hfull].
  pose proof (createStudySet_window id now data w b Hw Hfull) as Hwin.
  rewrite reloaded_lookup.
  - rewrite Hwin. simpl. unfold storedStudySet.
    rewrite getItem_putItem_ne by apply studySetKey_ne_allSetsKey.
    by rewrite getItem_putItem_eq.
  - unfold consistent. rewrite Hwin. simpl.
    apply layoutConsistent_put_ids. apply forallb_putItem; [done |].
    assert (set_id (newStudySet id now data) = id) as Hid
      by (unfold newStudySet; simpl; by rewrite Hown).
    rewrite <- Hid at 1. apply entryConsistent_own.
Qed.

Lemma updateStudySet_reloaded (id : string) (now : Z) (data : StudySetPatch) (w : Client)
    (existingSet : StudySet) :
  healthy w -> window w <> None ->
  visibleStudySet id w = Some existingSet -> set_id existingSet = id ->
  snd (getStudySet id (LocalClient.reloaded (fst (updateStudySet id now data w))))
  = Some (mergeStudySet existingSet data now).
Proof.
  intros Hh Hclient Hv Hid. pose proof (healthy_consistent w Hh) as Hcw.
  unfold healthy in Hh.
  destruct (window w) as [b |] eqn:Hw; [| done]. destruct Hh as [Hc Hfull].
  pose proof (updateStudySet_window id now data w b existingSet Hcw Hw Hfull Hv) as Hwin.
  rewrite reloaded_lookup.
  - rewrite Hwin. simpl. unfold storedStudySet. by rewrite getItem_putItem_eq.
  - unfold consistent. rewrite Hwin. simpl. apply forallb_putItem; [done |].
    assert (set_id (mergeStudySet existingSet data now) = id) as Hid' by exact Hid.
    rewrite <- Hid' at 1. apply entryConsistent_own.
Qed.

End LocalDbFacts.

(** ** Database backend *)

Section DbFacts.
Import Db.

Variable scan : list StudyItemRow -> list StudyItemRow.

Lemma mode_name_inj (m1 m2 : Mode) : mode_name m1 = mode_name m2 -> m1 = m2.
Proof. destruct m1, m2; simpl; intros H; first [reflexivity | discriminate H]. Qed.

(** *** [query] *)

Lemma query_reliable {R} (stmt : Tables -> option (Tables * R)) (c : Conn) :
  reliable c ->
  query stmt c =
  match stmt (tables c) with
  | Some (t', r) => (mkConn t' [] (console c), Some r)
  | None => (mkConn (tables c) [] (console c), None)
  end.
Proof. unfold reliable, query. intros ->. simpl. by destruct (stmt (tables c)) as [[? ?] |]. Qed.

Lemma query_fault {R} (stmt : Tables -> option (Tables * R)) (c : Conn) (fs : list bool) :
  faults c = true :: fs ->
  query stmt c = (mkConn (tables c) fs (console c), None).
Proof. unfold query. by intros ->. Qed.

(** *** Inserting the items of a study set *)

Lemma insertItems_reliable (setId : string) (its : list StudyItem) (c c' : Conn) :
  reliable c ->
  insertItems setId its c = (c', Some tt) ->
  reliable c' /\ console c' = console c /\
  study_sets (tables c') = study_sets (tables c) /\
  user_progress (tables c') = user_progress (tables c) /\
  study_items (tables c') = study_items (tables c) ++ map (itemRow setId) its.
Proof.
  revert c. induction its as [| it its IH]; intros c Hr Hrun.
  - injection Hrun as <-. by rewrite app_nil_r.
  - unfold insertItems in Hrun. simpl in Hrun. unfold bind at 1 in Hrun.
    rewrite query_reliable in Hrun by done.
    unfold insertStudyItem in Hrun.
    destruct (negb (fitsStudyItems _)); [discriminate Hrun |].
    destruct (bool_decide _); [discriminate Hrun |].
    destruct (negb _); [discriminate Hrun |].
    apply IH in Hrun as (Hr' & Hcon & Hsets & Hprog & Hitems); [| done].
    simpl in *. rewrite Hitems, <- app_assoc. done.
Qed.

(** *** [getStudySetDb] *)

Lemma conn_eta (c : Conn) : mkConn (tables c) (faults c) (console c) = c.
Proof. by destruct c. Qed.

Lemma hasStudySet_false_filter (id : string) (t : Tables) :
  hasStudySet id t = false ->
  List.filter (fun r => bool_decide (row_id r = id)) (study_sets t) = [].
Proof.
  unfold hasStudySet. intros Hno%bool_decide_eq_false.
  induction (study_sets t) as [| r rows IH]; simpl; [done |].
  rewrite fmap_cons, not_elem_of_cons in Hno. destruct Hno as [Hne Hno].
  rewrite bool_decide_eq_false_2 by done. by apply IH.
Qed.

(** Without transport failures [getStudySetDb] returns the first row with
    the id, dressed with the rows of its items in the order of the scan,
    and leaves the connection as it is. *)
Lemma getStudySetDb_reliable (id : string) (c : Conn) :
  reliable c ->
  getStudySetDb scan id c =
  (c, Some match List.filter (fun r => bool_decide (row_id r = id)) (study_sets (tables c)) with
           | [] => None
           | row :: _ => Some (studySetOfRows row (scan (itemsOf id (tables c))))
           end).
Proof.
  intros Hr. unfold getStudySetDb, tryCatch, bind.
  rewrite query_reliable by done. unfold selectStudySet.
  pose proof (conn_eta c) as Heta. rewrite Hr in Heta.
  destruct (List.filter _ (study_sets (tables c))) as [| row rows]; simpl.
  - unfold ret. by rewrite Heta.
  - unfold query, selectStudyItems, ret. simpl. by rewrite Heta.
Qed.

(** [getStudySetDb] returns, whatever happens. *)
Lemma getStudySetDb_returns (id : string) (c : Conn) :
  exists c' r, getStudySetDb scan id c = (c', Some r) /\ tables c' = tables c.
Proof.
  unfold getStudySetDb, tryCatch, bind, query, selectStudySet, selectStudyItems, ret.
  destruct (faults c) as [| [|] fs]; simpl; eauto.
  - destruct (List.filter _ (study_sets (tables c))); simpl; eauto.
  - destruct (List.filter _ (study_sets (tables c))); simpl; eauto.
    destruct fs as [| [|] fs']; simpl; eauto.
Qed.

(** When there is no row with the id, [getStudySetDb] returns [null]. *)
Lemma getStudySetDb_none (id : string) (c : Conn) :
  hasStudySet id (tables c) = false ->
  exists c', getStudySetDb scan id c = (c', Some None) /\ tables c' = tables c.
Proof.
  intros Hno%hasStudySet_false_filter.
  unfold getStudySetDb, tryCatch, bind, query, selectStudySet, ret.
  destruct (faults c) as [| [|] fs]; simpl; rewrite ?Hno; simpl; eauto.
Qed.

Lemma orElse_self (d : string) : orElse (Some d) "" = d.
Proof. unfold orElse. case_bool_decide; congruence. Qed.

Lemma itemOfRow_itemRow (setId : string) (it : StudyItem) :
  itemOfRow (itemRow setId it) = storedItem it.
Proof. reflexivity. Qed.

Lemma itemsOf_own (id : string) (its : list StudyItem) :
  List.filter (fun r => bool_decide (irow_study_set_id r = id)) (map (itemRow id) its)
  = map (itemRow id) its.
Proof.
  induction its as [| it its IH]; simpl; [done |].
  rewrite bool_decide_eq_true_2 by done. by rewrite IH.
Qed.

Lemma itemsOf_unknown (id : string) (t : Tables) :
  itemsReferenceSets t = true -> hasStudySet id t = false -> itemsOf id t = [].
Proof.
  unfold itemsReferenceSets, itemsOf. intros Hfk Hno.
  induction (study_items t) as [| r rows IH]; simpl in *; [done |].
  apply andb_true_iff in Hfk as [Hr Hrows].
  rewrite bool_decide_eq_false_2; [by apply IH |].
  intros Heq. rewrite Heq in Hr. congruence.
Qed.

(** *** [createStudySetDb] *)

(** A [createStudySetDb] that returns has added one row for the study set,
    under key [id], and one row per item, in the order of the input. *)
Lemma createStudySetDb_returned (id : string) (now : Z) (data : StudySetInput)
    (c c' : Conn) (s : StudySet) :
  reliable c ->
  createStudySetDb id now data c = (c', Some s) ->
  s = newStudySet id now data /\
  reliable c' /\ console c' = console c /\
  hasStudySet id (tables c) = false /\
  study_sets (tables c') =
    study_sets (tables c) ++
      [mkStudySetRow id (in_title data) (in_description data)
         (default now (in_createdAt data)) (default now (in_updatedAt data))
         (in_sourceType data) (orNull (in_sourceName data))] /\
  study_items (tables c') = study_items (tables c) ++ map (itemRow id) (in_items data) /\
  user_progress (tables c') = user_progress (tables c).
Proof.
  intros Hr. unfold createStudySetDb, tryCatch, bind.
  rewrite orElse_self, query_reliable by done. unfold insertStudySet.
  destruct (negb (fitsStudySets _)); [simpl; discriminate |]. simpl.
  destruct (hasStudySet id (tables c)) eqn:Hhas; [discriminate |].
  match goal with
  | |- context [insertItems id ?its ?c1] =>
      destruct (insertItems id its c1) as [c2 [[] |]] eqn:Hins; [| discriminate]
  end.
  apply insertItems_reliable in Hins as (Hr2 & Hcon & Hsets & Hprog & Hitems); [| done].
  simpl in *. intros [= <- <-]. done.
Qed.

Lemma insertItems_succeeds (setId : string) (its : list StudyItem) (c : Conn) :
  reliable c ->
  hasStudySet setId (tables c) = true ->
  itemsFit setId its = true ->
  freshItemIds its (tables c) ->
  exists c', insertItems setId its c = (c', Some tt).
Proof.
  revert c. induction its as [| it its IH]; intros c Hr Hhas Hfit [Hnd Hfresh].
  - by exists c.
  - unfold itemsFit in Hfit. cbn [forallb] in Hfit.
    apply andb_true_iff in Hfit as [Hfit1 Hfit].
    unfold insertItems. simpl. unfold bind at 1.
    rewrite query_reliable by done. unfold insertStudyItem.
    rewrite Hfit1. cbn [negb].
    rewrite bool_decide_eq_false_2 by (apply Hfresh; by left).
    simpl. rewrite Hhas. simpl.
    apply IH; [done | done | exact Hfit |].
    simpl in Hnd. apply NoDup_cons in Hnd as [Hit Hnd].
    split; [exact Hnd |]. intros it' Hin. simpl.
    rewrite map_app, elem_of_app. simpl. rewrite list_elem_of_singleton.
    intros [Hold | Heq].
    + by apply (Hfresh it'); [right |].
    + apply Hit. rewrite <- Heq. apply list_elem_of_fmap. by exists it'.
Qed.

(** With a fresh id for the study set and fresh ids for its items, and no
    transport failure, [createStudySetDb] returns the record it built. *)
Lemma createStudySetDb_succeeds (id : string) (now : Z) (data : StudySetInput) (c : Conn) :
  reliable c ->
  hasStudySet id (tables c) = false ->
  headerFits id now data = true ->
  itemsFit id (in_items data) = true ->
  freshItemIds (in_items data) (tables c) ->
  exists c', createStudySetDb id now data c = (c', Some (newStudySet id now data)).
Proof.
  intros Hr Hno Hhead Hfit Hfresh. unfold createStudySetDb, tryCatch, bind.
  rewrite query_reliable by done. unfold insertStudySet.
  unfold headerFits in Hhead. cbn [title description createdAt updatedAt sourceType
    sourceName newStudySet]. rewrite Hhead. cbn [negb row_id]. rewrite Hno.
  match goal with
  | |- context [insertItems id ?its ?c1] =>
      destruct (insertItems_succeeds id its c1) as [c' Hins]
  end.
  - done.
  - unfold hasStudySet. simpl. apply bool_decide_eq_true.
    rewrite map_app, elem_of_app. right. simpl. by left.
  - exact Hfit.
  - exact Hfresh.
  - rewrite Hins. by exists c'.
Qed.

(** ... and [getStudySetDb] on that key then returns the row and the items. *)
Lemma createStudySetDb_getStudySetDb (id : string) (now : Z) (data : StudySetInput)
    (c c' : Conn) (s : StudySet) :
  reliable c ->
  itemsReferenceSets (tables c) = true ->
  createStudySetDb id now data c = (c', Some s) ->
  getStudySetDb scan id c' =
  (c', Some (Some (mkStudySet id (in_title data) (in_description data)
                     (default now (in_createdAt data)) (default now (in_updatedAt data))
                     (map itemOfRow (scan (map (itemRow id) (in_items data))))
                     (in_sourceType data) (orNull (in_sourceName data))))).
Proof.
  intros Hr Hfk Hrun.
  apply createStudySetDb_returned in Hrun
    as (_ & Hr' & _ & Hno & Hsets & Hitems & _); [| done].
  rewrite getStudySetDb_reliable by done.
  rewrite Hsets, List.filter_app, (hasStudySet_false_filter _ _ Hno).
  simpl. rewrite bool_decide_eq_true_2 by done. simpl.
  unfold itemsOf. rewrite Hitems, List.filter_app, itemsOf_own.
  pose proof (itemsOf_unknown id (tables c) Hfk Hno) as Hnone.
  unfold itemsOf in Hnone. rewrite Hnone. done.
Qed.

(** Whatever order the engine scans in, as long as it hands back the rows
    it was asked for, the items read back are those of the input. *)
Lemma createStudySetDb_getStudySetDb_items (id : string) (now : Z) (data : StudySetInput)
    (c c' : Conn) (s : StudySet) :
  (forall rows, Permutation (scan rows) rows) ->
  reliable c ->
  itemsReferenceSets (tables c) = true ->
  createStudySetDb id now data c = (c', Some s) ->
  exists s',
    getStudySetDb scan id c' = (c', Some (Some s')) /\
    Permutation (set_items s') (map storedItem (in_items data)).
Proof.
  intros Hscan Hr Hfk Hrun.
  eexists. split; [by eapply createStudySetDb_getStudySetDb |].
  simpl. rewrite Hscan, map_map.
  erewrite map_ext; [reflexivity |]. intros it. apply itemOfRow_itemRow.
Qed.

(** *** [updateStudySetDb] *)

Lemma updateStudySetDb_none (id : string) (now : Z) (data : StudySetPatch) (c : Conn) :
  hasStudySet id (tables c) = false ->
  exists c', updateStudySetDb scan id now data c = (c', Some None) /\ tables c' = tables c.
Proof.
  intros Hno. destruct (getStudySetDb_none id c Hno) as (c' & Hget & Ht).
  exists c'. unfold updateStudySetDb, tryCatch, bind. by rewrite Hget.
Qed.

Lemma filter_out_then_in (id : string) (rows : list StudyItemRow) :
  List.filter (fun r => bool_decide (irow_study_set_id r = id))
    (List.filter (fun r => negb (bool_decide (irow_study_set_id r = id))) rows) = [].
Proof.
  induction rows as [| r rows IH]; simpl; [done |].
  destruct (bool_decide (irow_study_set_id r = id)) eqn:Hr; simpl; [done |].
  by rewrite Hr.
Qed.

(** An [updateStudySetDb] that returns a study set returns what
    [getStudySetDb] then returns; the rows of its items are those of the
    replacement, in the order given, when there was one, and the old rows
    otherwise. *)
Lemma updateStudySetDb_returned (id : string) (now : Z) (data : StudySetPatch)
    (c c' : Conn) (s' : StudySet) :
  reliable c ->
  updateStudySetDb scan id now data c = (c', Some (Some s')) ->
  reliable c' /\
  getStudySetDb scan id c' = (c', Some (Some s')) /\
  set_items s' = map itemOfRow (scan (itemsOf id (tables c'))) /\
  itemsOf id (tables c') =
    match p_items data with
    | Some its => map (itemRow id) its
    | None => itemsOf id (tables c)
    end.
Proof.
  intros Hr. unfold updateStudySetDb, tryCatch, bind.
  rewrite getStudySetDb_reliable by done.
  destruct (List.filter _ (study_sets (tables c))) as [| row rows] eqn:Hrows;
    [discriminate |].
  rewrite query_reliable by done. unfold updateStudySetRow.
  destruct (negb _); [simpl; discriminate |].
  match goal with
  | |- context [mkConn ?t [] (console c)] => set (c1 := mkConn t [] (console c))
  end.
  assert (reliable c1) as Hr1 by done.
  assert (forall c2 : Conn,
            reliable c2 ->
            (let (c3, r) := getStudySetDb scan id c2 in
             match r with Some a => (c3, Some a)
                     | None => ret None (mkConn (tables c3) (faults c3)
                                 (console c3 ++ ["Error updating study set:"]))
             end) = (c', Some (Some s')) ->
            reliable c' /\ getStudySetDb scan id c' = (c', Some (Some s')) /\
            set_items s' = map itemOfRow (scan (itemsOf id (tables c'))) /\ c2 = c') as Hfinal.
  { intros c2 Hr2. rewrite getStudySetDb_reliable by done.
    intros [= -> Hs']. rewrite getStudySetDb_reliable by done.
    rewrite Hs'. repeat split; try done.
    destruct (List.filter _ (study_sets (tables c'))); [discriminate |].
    by injection Hs' as <-. }
  destruct (p_items data) as [its |].
  - rewrite query_reliable by done. unfold deleteStudyItems.
    match goal with
    | |- context [insertItems id its ?c2] =>
        destruct (insertItems id its c2) as [c3 [[] |]] eqn:Hins; [| discriminate]
    end.
    apply insertItems_reliable in Hins as (Hr3 & _ & _ & _ & Hitems); [| done].
    intros Hrun. apply Hfinal in Hrun as (Hr' & Hget & Hset & <-); [| done].
    repeat split; try done.
    unfold itemsOf. rewrite Hitems. simpl.
    by rewrite List.filter_app, filter_out_then_in, itemsOf_own.
  - unfold ret at 1. intros Hrun.
    apply Hfinal in Hrun as (Hr' & Hget & Hset & <-); [| done].
    repeat split; done.
Qed.

(** *** [deleteStudySetDb] *)

Lemma hasStudySet_deleted (id : string) (rows : list StudySetRow)
    (its : list StudyItemRow) (ps : list UserProgressRow) :
  hasStudySet id
    (mkTables (List.filter (fun r => negb (bool_decide (row_id r = id))) rows) its ps)
  = false.
Proof.
  unfold hasStudySet. apply bool_decide_eq_false. simpl.
  intros (row & Hid & Hin)%list_elem_of_fmap.
  apply list_elem_of_In, filter_In in Hin as [_ Hne].
  apply negb_true_iff, bool_decide_eq_false in Hne. congruence.
Qed.

(** When the [DELETE] is not lost in transport, it leaves no row of the
    study set and no row of its items, and [deleteStudySetDb] reports
    whether there was a row. *)
Lemma deleteStudySetDb_reached (id : string) (c : Conn) :
  hd false (faults c) = false ->
  exists c',
    deleteStudySetDb id c = (c', Some (hasStudySet id (tables c))) /\
    hasStudySet id (tables c') = false /\
    itemsOf id (tables c') = [] /\
    console c' = console c.
Proof.
  intros Hhd. unfold deleteStudySetDb, tryCatch, bind, query, deleteStudySetRow.
  assert (forall rows : list StudySetRow,
            (0 <? Z.of_nat (length (List.filter (fun r => bool_decide (row_id r = id)) rows)))
            = bool_decide (id ∈ map row_id rows)) as Hcount.
  { induction rows as [| r rows IH]; simpl; [done |].
    destruct (decide (row_id r = id)) as [Heq | Hne].
    - rewrite bool_decide_eq_true_2 by done. simpl.
      rewrite bool_decide_eq_true_2 by (rewrite Heq; by left).
      apply Z.ltb_lt. simpl length. lia.
    - rewrite bool_decide_eq_false_2 by done. rewrite IH.
      apply bool_decide_ext. rewrite elem_of_cons. naive_solver. }
  destruct (faults c) as [| [|] fs]; simpl in Hhd; [| discriminate |];
    simpl; eexists; (split; [unfold ret; by rewrite Hcount |]); simpl;
    (split; [apply hasStudySet_deleted |]); (split; [apply filter_out_then_in | done]).
Qed.

(** *** [saveUserProgressDb] and [getUserProgressDb] *)

Lemma updatedRow_matches (p : UserProgress) (id mode : string) (r : UserProgressRow) :
  progressMatches id mode (updatedRow p r) = progressMatches id mode r.
Proof. unfold updatedRow. by destruct (progressMatches (studySetId p) _ r). Qed.

Lemma filter_updatedRow (p : UserProgress) (id mode : string) (rows : list UserProgressRow) :
  List.filter (progressMatches id mode) (map (updatedRow p) rows) =
  map (updatedRow p) (List.filter (progressMatches id mode) rows).
Proof.
  induction rows as [| r rows IH]; simpl; [done |].
  rewrite updatedRow_matches.
  destruct (progressMatches id mode r); simpl; by rewrite IH.
Qed.

Lemma progressOfRow_updatedRow (p : UserProgress) (r : UserProgressRow) :
  progressMatches (studySetId p) (mode_name (mode p)) r = true ->
  progressOfRow (updatedRow p r) = p.
Proof.
  intros Hm. unfold updatedRow. rewrite Hm.
  apply andb_true_iff in Hm as [Hid Hmode].
  apply bool_decide_eq_true in Hid, Hmode. apply mode_name_inj in Hmode.
  unfold progressOfRow. simpl. rewrite Hid, Hmode. by destruct p.
Qed.

Lemma existsb_filter_nil {A} (f : A -> bool) (l : list A) :
  existsb f l = false <-> List.filter f l = [].
Proof.
  induction l as [| x l IH]; simpl; [done |].
  destruct (f x); simpl; [split; discriminate | exact IH].
Qed.

Lemma getUserProgressDb_reliable (id mode : string) (c : Conn) :
  reliable c ->
  getUserProgressDb id mode c =
  (c, Some match List.filter (progressMatches id mode) (user_progress (tables c)) with
           | [] => None
           | row :: _ => Some (progressOfRow row)
           end).
Proof.
  intros Hr. unfold getUserProgressDb, tryCatch, bind.
  rewrite query_reliable by done. unfold selectProgress, ret.
  pose proof (conn_eta c) as Heta. rewrite Hr in Heta. rewrite Heta.
  by destruct (List.filter _ (user_progress (tables c))).
Qed.

Lemma updateProgress_fits (now : Z) (p : ProgressInput) (t : Tables) :
  countersFit p = true ->
  updateProgress (stampProgress now p) t =
  Some (mkTables (study_sets t) (study_items t)
          (map (updatedRow (stampProgress now p)) (user_progress t)),
        Z.of_nat (progressCount (pi_studySetId p) (mode_name (pi_mode p)) t)).
Proof.
  unfold countersFit, updateProgress. simpl. intros ->. reflexivity.
Qed.

(** With the study set in the table, the counters in range and no transport
    failure, [saveUserProgressDb] stores the record, and [getUserProgressDb]
    on its key returns it. *)
Lemma saveUserProgressDb_getUserProgressDb (now : Z) (p : ProgressInput) (c : Conn) :
  reliable c ->
  hasStudySet (pi_studySetId p) (tables c) = true ->
  countersFit p = true ->
  exists c',
    saveUserProgressDb now p c = (c', Some (stampProgress now p)) /\
    reliable c' /\
    study_sets (tables c') = study_sets (tables c) /\
    getUserProgressDb (pi_studySetId p) (mode_name (pi_mode p)) c' =
      (c', Some (Some (stampProgress now p))).
Proof.
  intros Hr Hhas Hfit. unfold saveUserProgressDb, tryCatch, bind.
  rewrite query_reliable by done. rewrite updateProgress_fits by done.
  unfold progressCount.
  destruct (List.filter (progressMatches (pi_studySetId p) (mode_name (pi_mode p)))
              (user_progress (tables c))) as [| r0 rows] eqn:Hrows.
  - simpl. rewrite query_reliable by done. unfold insertProgress.
    unfold countersFit in Hfit. simpl. rewrite Hfit. simpl.
    unfold hasStudySet in *. simpl. rewrite Hhas. simpl.
    assert (existsb (progressMatches (pi_studySetId p) (mode_name (pi_mode p)))
              (map (updatedRow (stampProgress now p)) (user_progress (tables c))) = false)
      as ->.
    { apply existsb_filter_nil. by rewrite filter_updatedRow, Hrows. }
    eexists. split; [reflexivity |]. split; [done |]. split; [done |].
    rewrite getUserProgressDb_reliable by done. simpl.
    rewrite List.filter_app, filter_updatedRow, Hrows. simpl.
    unfold progressMatches. simpl. by rewrite !bool_decide_eq_true_2 by done.
  - replace (Z.of_nat (length (r0 :: rows)) =? 0) with false
      by (symmetry; apply Z.eqb_neq; simpl length; lia).
    eexists. split; [reflexivity |]. split; [done |]. split; [done |].
    rewrite getUserProgressDb_reliable by done. simpl.
    rewrite filter_updatedRow, Hrows. simpl.
    rewrite progressOfRow_updatedRow; [done |].
    assert (r0 ∈ List.filter (progressMatches (pi_studySetId p) (mode_name (pi_mode p)))
                   (user_progress (tables c))) as Hin by (rewrite Hrows; by left).
    by apply list_elem_of_In, filter_In in Hin as [_ Hin].
Qed.

(** Whatever happens, [saveUserProgressDb] returns the stamped record, and
    never leaves two rows for one study set and mode. *)
Lemma saveUserProgressDb_unique (now : Z) (p : ProgressInput) (c : Conn) :
  snd (saveUserProgressDb now p c) = Some (stampProgress now p) /\
  ((forall id md, (progressCount id md (tables c) <= 1)%nat) ->
   forall id md,
     (progressCount id md (tables (fst (saveUserProgressDb now p c))) <= 1)%nat).
Proof.
  unfold saveUserProgressDb, tryCatch, bind, query.
  set (up := stampProgress now p).
  assert (forall t n id md,
            updateProgress up (tables c) = Some (t, n) ->
            progressCount id md t = progressCount id md (tables c)) as Hupd.
  { intros t n id md. unfold updateProgress.
    destruct (negb _); [discriminate |]. intros [= <- _].
    unfold progressCount. simpl.
    by rewrite filter_updatedRow, length_map. }
  assert (forall t t' id md,
            insertProgress up t = Some (t', tt) ->
            (progressCount id md t <= 1)%nat ->
            (progressCount id md t' <= 1)%nat) as Hins.
  { intros t t' id md. unfold insertProgress.
    destruct (negb _); [discriminate |].
    destruct (negb _); [discriminate |].
    destruct (existsb _ (user_progress t)) eqn:Hex; [discriminate |].
    intros [= <-] Hle. unfold progressCount in *. simpl.
    rewrite List.filter_app, length_app. simpl.
    destruct (progressMatches id md _) eqn:Hm; simpl; [| lia].
    apply andb_true_iff in Hm as [Hid Hmode].
    apply bool_decide_eq_true in Hid, Hmode.
    cbn [prow_study_set_id prow_mode] in Hid, Hmode. rewrite <- Hid, <- Hmode.
    apply existsb_filter_nil in Hex. unfold up in Hex. simpl in Hex.
    rewrite Hex. simpl. lia. }
  destruct (faults c) as [| [|] fs]; simpl.
  - destruct (updateProgress up (tables c)) as [[t n] |] eqn:Hu; simpl.
    + destruct (n =? 0); simpl.
      * destruct (insertProgress up t) as [[t' []] |] eqn:Hi; simpl.
        -- split; [done |]. intros Hle id md. eapply Hins; [exact Hi |].
           rewrite (Hupd t n) by reflexivity. apply Hle.
        -- split; [done |]. intros Hle id md. rewrite (Hupd t n) by reflexivity. apply Hle.
      * split; [done |]. intros Hle id md. rewrite (Hupd t n) by reflexivity. apply Hle.
    + split; [done |]. intros Hle. exact Hle.
  - split; [done |]. intros Hle. exact Hle.
  - destruct (updateProgress up (tables c)) as [[t n] |] eqn:Hu; simpl.
    + destruct (n =? 0); simpl.
      * destruct fs as [| [|] fs']; simpl.
        -- destruct (insertProgress up t) as [[t' []] |] eqn:Hi; simpl.
           ++ split; [done |]. intros Hle id md. eapply Hins; [exact Hi |].
              rewrite (Hupd t n) by reflexivity. apply Hle.
           ++ split; [done |]. intros Hle id md. rewrite (Hupd t n) by reflexivity. apply Hle.
        -- split; [done |]. intros Hle id md. rewrite (Hupd t n) by reflexivity. apply Hle.
        -- destruct (insertProgress up t) as [[t' []] |] eqn:Hi; simpl.
           ++ split; [done |]. intros Hle id md. eapply Hins; [exact Hi |].
              rewrite (Hupd t n) by reflexivity. apply Hle.
           ++ split; [done |]. intros Hle id md. rewrite (Hupd t n) by reflexivity. apply Hle.
      * split; [done |]. intros Hle id md. rewrite (Hupd t n) by reflexivity. apply Hle.
    + split; [done |]. intros Hle. exact Hle.
Qed.

(** *** Referential integrity is kept by the statements *)

Lemma forallb_impl {A} (p q : A -> bool) (l : list A) :
  (forall x, p x = true -> q x = true) -> forallb p l = true -> forallb q l = true.
Proof.
  intros Hpq. induction l as [| x l IH]; simpl; [done |].
  intros [Hx Hl]%andb_true_iff. by rewrite (Hpq x Hx), IH.
Qed.

Lemma insertStudySet_references (r : StudySetRow) (t t' : Tables) :
  insertStudySet r t = Some (t', tt) ->
  itemsReferenceSets t = true -> itemsReferenceSets t' = true.
Proof.
  unfold insertStudySet. destruct (negb (fitsStudySets r)); [discriminate |].
  destruct (hasStudySet (row_id r) t); [discriminate |].
  intros [= <-]. unfold itemsReferenceSets, hasStudySet. simpl.
  apply forallb_impl. intros x Hx%bool_decide_eq_true. apply bool_decide_eq_true.
  rewrite map_app, elem_of_app. by left.
Qed.

Lemma insertStudyItem_references (r : StudyItemRow) (t t' : Tables) :
  insertStudyItem r t = Some (t', tt) ->
  itemsReferenceSets t = true -> itemsReferenceSets t' = true.
Proof.
  unfold insertStudyItem. destruct (negb (fitsStudyItems r)); [discriminate |].
  destruct (bool_decide _); [discriminate |].
  destruct (hasStudySet (irow_study_set_id r) t) eqn:Hhas; [| discriminate].
  intros [= <-]. unfold itemsReferenceSets, hasStudySet in *. simpl.
  rewrite forallb_app. intros ->. simpl. by rewrite Hhas.
Qed.

Lemma updateStudySetRow_references (id ttl descr : string) (now : Z) (st : SourceType)
    (sn : option string) (t t' : Tables) :
  updateStudySetRow id ttl descr now st sn t = Some (t', tt) ->
  itemsReferenceSets t = true -> itemsReferenceSets t' = true.
Proof.
  unfold updateStudySetRow. destruct (negb _); [discriminate |].
  intros [= <-]. unfold itemsReferenceSets, hasStudySet. simpl.
  rewrite map_map.
  assert (map (fun r => row_id (if bool_decide (row_id r = id)
                                then mkStudySetRow (row_id r) ttl descr (created_at r) now st sn
                                else r)) (study_sets t) = map row_id (study_sets t)) as ->.
  { apply map_ext. intros r. by destruct (bool_decide (row_id r = id)). }
  done.
Qed.

Lemma deleteStudyItems_references (id : string) (t t' : Tables) :
  deleteStudyItems id t = Some (t', tt) ->
  itemsReferenceSets t = true -> itemsReferenceSets t' = true.
Proof.
  unfold deleteStudyItems. intros [= <-]. unfold itemsReferenceSets, hasStudySet. simpl.
  apply forallb_filter.
Qed.

Lemma deleteStudySetRow_references (id : string) (t t' : Tables) (n : Z) :
  deleteStudySetRow id t = Some (t', n) ->
  itemsReferenceSets t = true -> itemsReferenceSets t' = true.
Proof.
  unfold deleteStudySetRow. intros [= <- _]. unfold itemsReferenceSets, hasStudySet. simpl.
  induction (study_items t) as [| r rows IH]; simpl; [done |].
  intros [Hr Hrows]%andb_true_iff.
  destruct (bool_decide (irow_study_set_id r = id)) eqn:Hid; simpl; [by apply IH |].
  rewrite IH by done. rewrite andb_true_r.
  apply bool_decide_eq_true. apply bool_decide_eq_true in Hr.
  apply bool_decide_eq_false in Hid.
  apply list_elem_of_fmap in Hr as (row & Hrow & Hin).
  apply list_elem_of_fmap. exists row. split; [done |].
  apply list_elem_of_In, filter_In. split; [by apply list_elem_of_In |].
  apply negb_true_iff, bool_decide_eq_false. congruence.
Qed.

(** *** Transport failures *)


Lemma getStudySetDb_fault (id : string) (c : Conn) (fs : list bool) :
  faults c = true :: fs ->
  failsWith (getStudySetDb scan id) c fs "Error getting study set:" (Some None).
Proof.
  intros Hf. unfold failsWith, getStudySetDb, tryCatch, bind.
  by rewrite (query_fault _ _ fs Hf).
Qed.






(** *** Transport failures at a later call *)


























(** *** What [|| null] keeps *)



End DbFacts.

(** ** The persistence contract, in both backends *)

Section Persistence.

(** C2, as stated, fails in the database backend: progress saved for a
    study set that has no row in [study_sets] is rejected by the foreign key
    of [user_progress], the rejection is swallowed, and nothing can be read
    back. *)
Lemma saveUserProgress_last_write_wins_counterexample :
  let p1 := mkProgressInput "s1" Quiz 3 2 1 1 in
  let p2 := mkProgressInput "s1" Quiz 5 4 1 2 in
  let c2 := fst (Db.saveUserProgressDb 2 p2 (fst (Db.saveUserProgressDb 1 p1 Db.emptyConn))) in
  snd (Db.saveUserProgressDb 2 p2 (fst (Db.saveUserProgressDb 1 p1 Db.emptyConn)))
    = Some (stampProgress 2 p2) /\
  snd (Db.getUserProgressDb "s1" "quiz" c2) = Some None /\
  snd (Db.getUserProgressDb "s1" "quiz" c2) <> Some (Some (stampProgress 2 p2)).
Proof. vm_compute. repeat split; discriminate. Qed.

(** C2, amended.  Two [saveUserProgress] calls with the same study set and
    mode, then [getUserProgress] on that pair, return the record of the later
    call (its counters, stamped with its time); this holds in the fallback
    store whenever the browser, if there is one, accepts writes, and in the
    database whenever no call fails in transport, the study set has a row in
    [study_sets] and the counters fit their [INTEGER] columns.  In both
    backends a save leaves at most one record per study set and mode where
    there was at most one. *)
Theorem saveUserProgress_last_write_wins
    (now1 now2 : Z) (p1 p2 : ProgressInput) (w : LocalDb.Client) (c : Db.Conn) :
  pi_studySetId p1 = pi_studySetId p2 ->
  pi_mode p1 = pi_mode p2 ->
  (LocalDb.writable w ->
     snd (LocalDb.getUserProgress (pi_studySetId p1) (mode_name (pi_mode p1))
            (fst (LocalDb.saveUserProgress now2 p2
                    (fst (LocalDb.saveUserProgress now1 p1 w)))))
     = Some (stampProgress now2 p2)) /\
  (Db.reliable c ->
   Db.hasStudySet (pi_studySetId p1) (Db.tables c) = true ->
   Db.countersFit p1 = true -> Db.countersFit p2 = true ->
     exists c1 c2,
       Db.saveUserProgressDb now1 p1 c = (c1, Some (stampProgress now1 p1)) /\
       Db.saveUserProgressDb now2 p2 c1 = (c2, Some (stampProgress now2 p2)) /\
       Db.getUserProgressDb (pi_studySetId p1) (mode_name (pi_mode p1)) c2
       = (c2, Some (Some (stampProgress now2 p2)))) /\
  ((forall key, (LocalDb.recordsInBrowser key w <= 1)%nat) ->
   forall key,
     (LocalDb.recordsInMemory key (fst (LocalDb.saveUserProgress now2 p2 w)) <= 1)%nat /\
     (LocalDb.recordsInBrowser key (fst (LocalDb.saveUserProgress now2 p2 w)) <= 1)%nat) /\
  ((forall id md, (Db.progressCount id md (Db.tables c) <= 1)%nat) ->
   forall id md,
     (Db.progressCount id md (Db.tables (fst (Db.saveUserProgressDb now2 p2 c))) <= 1)%nat).
Proof.
  intros Hid Hmode. repeat split.
  - intros Hw.
    destruct (saveUserProgress_getUserProgress now1 p1 w Hw) as (Hw1 & _ & _).
    destruct (saveUserProgress_getUserProgress now2 p2 _ Hw1) as (_ & _ & Hget).
    by rewrite Hid, Hmode.
  - intros Hr Hhas Hfit1 Hfit2.
    destruct (saveUserProgressDb_getUserProgressDb now1 p1 c Hr Hhas Hfit1)
      as (c1 & Hrun1 & Hr1 & Hsets1 & _).
    assert (Db.hasStudySet (pi_studySetId p2) (Db.tables c1) = true) as Hhas1.
    { unfold Db.hasStudySet in *. by rewrite Hsets1, <- Hid. }
    destruct (saveUserProgressDb_getUserProgressDb now2 p2 c1 Hr1 Hhas1 Hfit2)
      as (c2 & Hrun2 & _ & _ & Hget).
    exists c1, c2. by rewrite Hid, Hmode.
  - by apply saveUserProgress_records.
  - by apply saveUserProgress_records.
  - apply saveUserProgressDb_unique.
Qed.

(** C2, amended, in a browser store and in the sample database. *)
Lemma saveUserProgress_last_write_wins_witness :
  snd (LocalDb.getUserProgress "k1" "quiz"
         (fst (LocalDb.saveUserProgress 30 (Db.quizProgress 5 4 1 2)
                 (fst (LocalDb.saveUserProgress 20 (Db.quizProgress 3 2 1 1)
                         LocalDb.browserStore)))))
  = Some (mkUserProgress "k1" Quiz 30 5 4 1 2) /\
  exists c2,
    Db.getUserProgressDb "k1" "quiz" c2 = (c2, Some (Some (mkUserProgress "k1" Quiz 30 5 4 1 2))).
Proof.
  destruct (saveUserProgress_last_write_wins 20 30
              (Db.quizProgress 3 2 1 1) (Db.quizProgress 5 4 1 2)
              LocalDb.browserStore Db.sampleConn eq_refl eq_refl)
    as (Hlocal & Hdb & _).
  split.
  - apply Hlocal. reflexivity.
  - destruct Hdb as (c1 & c2 & _ & _ & Hget); try reflexivity.
    exists c2. exact Hget.
Defined.

(** C3, as stated, fails.  In the database the items of a study set are
    read by [SELECT * FROM study_items WHERE study_set_id = $1], which has no
    [ORDER BY], and [study_items] has no column that records a position: with
    an engine that hands the rows back newest first, the two cards of a study
    set just created come back in the reverse of the order given.  In the
    fallback store, when the browser takes no more writes, an update that
    swaps the two cards of a persisted study set returns them swapped, but
    the next [getStudySet] loads the persisted record and returns them in
    the former order; and in a browser store that holds, filed under
    ["k1"], a study set carrying the id ["own"], [getStudySet "own"] returns
    that one, with its single card, and not the study set that was created
    under ["own"] with two. *)
Lemma getStudySet_items_in_order_counterexample :
  (exists c' s s',
     Db.createStudySetDb "k1" 10 Db.sampleData Db.emptyConn = (c', Some s) /\
     Db.getStudySetDb (@rev Db.StudyItemRow) "k1" c' = (c', Some (Some s')) /\
     map item_id (in_items Db.sampleData) = ["a"; "b"] /\
     map item_id (set_items s') = ["b"; "a"] /\
     set_items s' <> map Db.storedItem (in_items Db.sampleData)) /\
  (exists s s',
     snd (LocalDb.updateStudySet "k1" 50 Db.swappedItems LocalClient.fullStore) = Some s /\
     snd (LocalDb.getStudySet "k1"
            (fst (LocalDb.updateStudySet "k1" 50 Db.swappedItems LocalClient.fullStore)))
       = Some s' /\
     map item_id (set_items s) = ["b"; "a"] /\
     map item_id (set_items s') = ["a"; "b"]) /\
  (exists s',
     snd (LocalDb.getStudySet "own" LocalDb.clashingStore) = Some s' /\
     map item_id (in_items LocalDb.sampleInput) = ["a"; "b"] /\
     map item_id (set_items s') = ["a"]).
Proof.
  split; [| split].
  - eexists _, _, _. vm_compute. repeat split; discriminate.
  - eexists _, _. vm_compute. repeat split.
  - eexists. vm_compute. repeat split.
Qed.

(** C3, amended.  [getStudySet] returns [null], not an error, for an id
    under which nothing is stored.  In the fallback store, with the persisted
    layout in place, it returns what the browser holds under the key of the
    id and else what the memory holds; where the browser accepts writes, it
    returns after [createStudySet], for the key the set was stored under, the
    set with its items in the order of the input, and after an
    [updateStudySet] the set with the items of the replacement in the order
    given (the former items when none was given), to the client that wrote
    and to a new client over the same browser alike.  In the database,
    whenever no call fails in transport, it returns after a [createStudySet]
    or [updateStudySet] that succeeded the rows of the items written (an
    empty [correctAnswer] turned into none) in the order in which the engine
    scans them: the same items in some order for every engine that hands back
    the rows it is asked for, and in the order given for an engine that scans
    in insertion order. *)
Theorem getStudySet_items_in_order
    (scan : list Db.StudyItemRow -> list Db.StudyItemRow)
    (id : string) (now : Z) (data : StudySetInput) (patch : StudySetPatch)
    (w : LocalDb.Client) (c : Db.Conn) :
  (LocalDb.absent id w -> snd (LocalDb.getStudySet id w) = None) /\
  (LocalDb.consistent w ->
     snd (LocalDb.getStudySet id w) = LocalDb.visibleStudySet id w) /\
  (LocalDb.healthy w ->
     exists s,
       snd (LocalDb.getStudySet id (fst (LocalDb.createStudySet id now data w))) = Some s /\
       set_items s = in_items data) /\
  (LocalDb.healthy w -> LocalDb.window w <> None -> in_id data = None ->
     exists s,
       snd (LocalDb.getStudySet id
              (LocalClient.reloaded (fst (LocalDb.createStudySet id now data w)))) = Some s /\
       set_items s = in_items data) /\
  (LocalDb.healthy w ->
   forall existingSet,
     snd (LocalDb.getStudySet id w) = Some existingSet ->
     exists s,
       snd (LocalDb.getStudySet id (fst (LocalDb.updateStudySet id now patch w))) = Some s /\
       set_items s = default (set_items existingSet) (p_items patch)) /\
  (LocalDb.healthy w -> LocalDb.window w <> None ->
   forall existingSet,
     snd (LocalDb.getStudySet id w) = Some existingSet ->
     set_id existingSet = id ->
     exists s,
       snd (LocalDb.getStudySet id
              (LocalClient.reloaded (fst (LocalDb.updateStudySet id now patch w)))) = Some s /\
       set_items s = default (set_items existingSet) (p_items patch)) /\
  (Db.hasStudySet id (Db.tables c) = false ->
     exists c', Db.getStudySetDb scan id c = (c', Some None)) /\
  (Db.reliable c ->
   Db.itemsReferenceSets (Db.tables c) = true ->
   forall c' s,
     Db.createStudySetDb id now data c = (c', Some s) ->
     exists s',
       Db.getStudySetDb scan id c' = (c', Some (Some s')) /\
       set_items s' = map Db.itemOfRow (scan (map (Db.itemRow id) (in_items data))) /\
       ((forall rows, Permutation (scan rows) rows) ->
        Permutation (set_items s') (map Db.storedItem (in_items data))) /\
       (Db.inInsertionOrder scan -> set_items s' = map Db.storedItem (in_items data))) /\
  (Db.reliable c ->
   forall c' s,
     Db.updateStudySetDb scan id now patch c = (c', Some (Some s)) ->
     Db.getStudySetDb scan id c' = (c', Some (Some s)) /\
     set_items s =
       map Db.itemOfRow
         (scan match p_items patch with
               | Some its => map (Db.itemRow id) its
               | None => Db.itemsOf id (Db.tables c)
               end) /\
     ((forall rows, Permutation (scan rows) rows) ->
      Permutation (set_items s)
        match p_items patch with
        | Some its => map Db.storedItem its
        | None => map Db.itemOfRow (Db.itemsOf id (Db.tables c))
        end) /\
     (Db.inInsertionOrder scan ->
      set_items s =
        match p_items patch with
        | Some its => map Db.storedItem its
        | None => map Db.itemOfRow (Db.itemsOf id (Db.tables c))
        end)).
Proof.
  assert (forall its : list StudyItem,
            map Db.itemOfRow (map (Db.itemRow id) its) = map Db.storedItem its) as Hstored.
  { intros its. rewrite map_map. apply map_ext. intros it. apply itemOfRow_itemRow. }
  repeat apply conj.
  - intros Ha. by destruct (getStudySet_absent id w Ha) as [-> _].
  - intros Hc. by rewrite getStudySet_visible.
  - intros Hh. eexists. split; [by apply createStudySet_getStudySet |]. done.
  - intros Hh Hclient Hown. eexists. split; [by apply createStudySet_reloaded |]. done.
  - intros Hh existingSet Hget.
    rewrite getStudySet_visible in Hget by (by apply healthy_consistent).
    destruct (updateStudySet_getStudySet id now patch w existingSet Hh Hget) as [_ Hafter].
    eexists. split; [exact Hafter |]. done.
  - intros Hh Hclient existingSet Hget Hid.
    rewrite getStudySet_visible in Hget by (by apply healthy_consistent).
    eexists. split; [by apply updateStudySet_reloaded |]. done.
  - intros Hno. destruct (getStudySetDb_none scan id c Hno) as (c' & Hget & _). eauto.
  - intros Hr Hfk c' s Hrun.
    eexists. split; [by eapply createStudySetDb_getStudySetDb |].
    cbn [set_items]. split; [reflexivity |]. split.
    + intros Hscan. by rewrite Hscan, Hstored.
    + intros Hscan. by rewrite Hscan, Hstored.
  - intros Hr c' s Hrun.
    apply updateStudySetDb_returned in Hrun as (_ & Hget & Hitems & Hrows); [| done].
    split; [exact Hget |]. rewrite Hitems, Hrows.
    split; [by destruct (p_items patch) |]. split.
    + intros Hscan. rewrite Hscan. destruct (p_items patch) as [its |]; [| done].
      by rewrite Hstored.
    + intros Hscan. rewrite Hscan. destruct (p_items patch) as [its |]; [| done].
      by rewrite Hstored.
Qed.

(** C3, amended, in a browser store and in the sample database: the two
    cards come back in the order they were given, to the client that wrote
    them and to a new one, an unknown id gives [null], and an engine that
    scans newest first gives the same two cards. *)
Lemma getStudySet_items_in_order_witness :
  snd (LocalDb.getStudySet "zz" LocalDb.browserStore) = None /\
  (exists s,
     snd (LocalDb.getStudySet "k2"
            (fst (LocalDb.createStudySet "k2" 11 LocalDb.sampleInput LocalDb.browserStore)))
     = Some s /\ map item_id (set_items s) = ["a"; "b"]) /\
  (exists s,
     snd (LocalDb.getStudySet "k2"
            (LocalClient.reloaded
               (fst (LocalDb.createStudySet "k2" 11 LocalDb.sampleInput LocalDb.browserStore))))
     = Some s /\ map item_id (set_items s) = ["a"; "b"]) /\
  (exists s',
     Db.getStudySetDb (fun rows => rows) "k1" Db.sampleConn = (Db.sampleConn, Some (Some s')) /\
     map item_id (set_items s') = ["a"; "b"]) /\
  (exists s',
     Db.getStudySetDb (@rev Db.StudyItemRow) "k1" Db.sampleConn
     = (Db.sampleConn, Some (Some s')) /\
     Permutation (set_items s') (map Db.storedItem (in_items Db.sampleData))) /\
  (exists s,
     snd (LocalDb.getStudySet "k1"
            (fst (LocalDb.updateStudySet "k1" 12 Db.swappedItems LocalDb.browserStore)))
     = Some s /\ map item_id (set_items s) = ["b"; "a"]) /\
  (exists s,
     snd (LocalDb.getStudySet "k1"
            (LocalClient.reloaded
               (fst (LocalDb.updateStudySet "k1" 12 Db.swappedItems LocalDb.browserStore))))
     = Some s /\ map item_id (set_items s) = ["b"; "a"]) /\
  (exists c' s,
     Db.getStudySetDb (fun rows => rows) "k1" c' = (c', Some (Some s)) /\
     map item_id (set_items s) = ["b"; "a"]).
Proof.
  pose proof (getStudySet_items_in_order (fun rows => rows) "zz" 11 LocalDb.sampleInput
                (mkStudySetPatch None None None None None None)
                LocalDb.browserStore Db.emptyConn) as (Habsent & _).
  pose proof (getStudySet_items_in_order (fun rows => rows) "k2" 11 LocalDb.sampleInput
                (mkStudySetPatch None None None None None None)
                LocalDb.browserStore Db.emptyConn) as (_ & _ & Hcreate & Hcreate' & _).
  pose proof (getStudySet_items_in_order (fun rows => rows) "k1" 10 Db.sampleData
                (mkStudySetPatch None None None None None None)
                LocalDb.serverStore Db.emptyConn) as (_ & _ & _ & _ & _ & _ & _ & Hdb & _).
  pose proof (getStudySet_items_in_order (@rev Db.StudyItemRow) "k1" 10 Db.sampleData
                (mkStudySetPatch None None None None None None)
                LocalDb.serverStore Db.emptyConn) as (_ & _ & _ & _ & _ & _ & _ & Hrev & _).
  pose proof (getStudySet_items_in_order (fun rows => rows) "k1" 12 LocalDb.sampleInput
                Db.swappedItems LocalDb.browserStore Db.sampleConn)
    as (_ & _ & _ & _ & Hupdate & Hupdate' & _ & _ & Hdbupdate).
  repeat apply conj.
  - apply Habsent. split; reflexivity.
  - destruct Hcreate as (s & Hget & Hitems); [split; reflexivity |].
    exists s. split; [exact Hget |]. by rewrite Hitems.
  - destruct Hcreate' as (s & Hget & Hitems); [split; reflexivity | discriminate | reflexivity |].
    exists s. split; [exact Hget |]. by rewrite Hitems.
  - destruct (Hdb eq_refl eq_refl Db.sampleConn (newStudySet "k1" 10 Db.sampleData) eq_refl)
      as (s' & Hget & _ & _ & Hitems).
    exists s'. split; [exact Hget |]. by rewrite (Hitems (fun rows => eq_refl)).
  - destruct (Hrev eq_refl eq_refl Db.sampleConn (newStudySet "k1" 10 Db.sampleData) eq_refl)
      as (s' & Hget & _ & Hperm & _).
    exists s'. split; [exact Hget |].
    apply Hperm. intros rows. symmetry. apply Permutation_rev.
  - destruct (Hupdate (conj eq_refl eq_refl) (newStudySet "k1" 10 LocalDb.sampleInput)
                eq_refl) as (s & Hget & Hitems).
    exists s. split; [exact Hget |]. by rewrite Hitems.
  - destruct (Hupdate' (conj eq_refl eq_refl)) with (existingSet := newStudySet "k1" 10 LocalDb.sampleInput)
      as (s & Hget & Hitems); [discriminate | reflexivity | reflexivity |].
    exists s. split; [exact Hget |]. by rewrite Hitems.
  - destruct (Hdbupdate eq_refl
                (fst (Db.updateStudySetDb (fun rows => rows) "k1" 12 Db.swappedItems
                        Db.sampleConn))
                (mkStudySet "k1" "Spanish" "Basics" 10 12
                   [mkStudyItem "b" "Adios" "Goodbye" None None;
                    mkStudyItem "a" "Hola" "Hello there" None None]
                   Manual (Some "book.pdf"%string)) eq_refl) as (Hget & _ & _ & Hitems).
    eexists _, _. split; [exact Hget |]. reflexivity.
Defined.







(** C7, as stated, fails for some store states.  In a browser store in
    which a study set was created from an input with an id of its own, the
    set is filed under the generated id and loaded into memory under its
    own: [deleteStudySet] on the id it carries returns [true] and removes
    the entry in memory only, and the next [getStudySet] loads the set, items
    and all, from the browser again.  In the database, when the [DELETE] is
    lost in transport, [deleteStudySet] answers [false] and the study set is
    still there with its items. *)
Lemma deleteStudySet_then_absent_counterexample :
  snd (LocalDb.deleteStudySet "own" LocalDb.ownIdStore) = true /\
  snd (LocalDb.getStudySet "own" (fst (LocalDb.deleteStudySet "own" LocalDb.ownIdStore)))
    = Some (newStudySet "k1" 10 LocalDb.inputWithId) /\
  snd (Db.deleteStudySetDb "k1" Db.brokenConn) = Some false /\
  snd (Db.getStudySetDb (fun rows => rows) "k1" (fst (Db.deleteStudySetDb "k1" Db.brokenConn)))
    = snd (Db.getStudySetDb (fun rows => rows) "k1" Db.sampleConn) /\
  snd (Db.getStudySetDb (fun rows => rows) "k1" Db.sampleConn) <> Some None /\
  Db.itemsOf "k1" (Db.tables (fst (Db.deleteStudySetDb "k1" Db.brokenConn))) <> [].
Proof. vm_compute. repeat split; discriminate. Qed.

(** C7, amended.  [deleteStudySet] followed by [getStudySet] on the same id
    gives [null], and the items of the study set are gone with it: in the
    fallback store, where the persisted layout is in place (every study set
    in the browser filed under its own id), nothing is kept under the id any
    more, in memory or in the browser; in the database, where the [DELETE]
    is not lost in transport, no row of [study_items] refers to the id any
    more. *)
Theorem deleteStudySet_then_absent
    (scan : list Db.StudyItemRow -> list Db.StudyItemRow)
    (id : string) (w : LocalDb.Client) (c : Db.Conn) :
  (LocalDb.consistent w ->
     snd (LocalDb.getStudySet id (fst (LocalDb.deleteStudySet id w))) = None /\
     LocalDb.visibleStudySet id (fst (LocalDb.deleteStudySet id w)) = None) /\
  (hd false (Db.faults c) = false ->
     exists c' c'',
       Db.deleteStudySetDb id c = (c', Some (Db.hasStudySet id (Db.tables c))) /\
       Db.itemsOf id (Db.tables c') = [] /\
       Db.getStudySetDb scan id c' = (c'', Some None)).
Proof.
  split.
  - intros Hc. destruct (deleteStudySet_visible id id w Hc) as [Hc' Hv].
    rewrite bool_decide_eq_true_2 in Hv by done.
    rewrite getStudySet_visible by done. done.
  - intros Hhd. destruct (deleteStudySetDb_reached id c Hhd) as (c' & Hrun & Hno & Hitems & _).
    destruct (getStudySetDb_none scan id c' Hno) as (c'' & Hget & _).
    exists c', c''. done.
Qed.

(** C7, amended, in a browser store and in the sample database, each
    holding the study set. *)
Lemma deleteStudySet_then_absent_witness :
  snd (LocalDb.getStudySet "k1" (fst (LocalDb.deleteStudySet "k1" LocalDb.browserStore)))
  = None /\
  exists c' c'',
    Db.deleteStudySetDb "k1" Db.sampleConn = (c', Some true) /\
    Db.getStudySetDb (fun rows => rows) "k1" c' = (c'', Some None).
Proof.
  destruct (deleteStudySet_then_absent (fun rows => rows) "k1"
              LocalDb.browserStore Db.sampleConn) as [Hlocal Hdb].
  split.
  - apply Hlocal. reflexivity.
  - destruct (Hdb eq_refl) as (c' & c'' & Hrun & _ & Hget).
    exists c', c''. split; [exact Hrun | exact Hget].
Defined.

(** C8.  [updateStudySet] on an id under which nothing is stored returns
    [null] and does not throw, in the fallback store and, whether or not a
    call fails in transport, in the database. *)
Theorem updateStudySet_absent_id
    (scan : list Db.StudyItemRow -> list Db.StudyItemRow)
    (id : string) (now : Z) (patch : StudySetPatch) (w : LocalDb.Client) (c : Db.Conn) :
  (LocalDb.absent id w -> snd (LocalDb.updateStudySet id now patch w) = None) /\
  (Db.hasStudySet id (Db.tables c) = false ->
     exists c', Db.updateStudySetDb scan id now patch c = (c', Some None) /\
                Db.tables c' = Db.tables c).
Proof.
  split.
  - apply updateStudySet_absent.
  - apply updateStudySetDb_none.
Qed.

(** C8, in a browser store and in the sample database, for an id neither
    of them knows. *)
Lemma updateStudySet_absent_id_witness :
  snd (LocalDb.updateStudySet "zz" 12 (mkStudySetPatch (Some "New"%string) None None None None None)
         LocalDb.browserStore) = None /\
  exists c',
    Db.updateStudySetDb (fun rows => rows) "zz" 12
      (mkStudySetPatch (Some "New"%string) None None None None None) Db.sampleConn
    = (c', Some None).
Proof.
  destruct (updateStudySet_absent_id (fun rows => rows) "zz" 12
              (mkStudySetPatch (Some "New"%string) None None None None None)
              LocalDb.browserStore Db.sampleConn) as [Hlocal Hdb].
  split.
  - apply Hlocal. split; reflexivity.
  - destruct (Hdb eq_refl) as (c' & Hrun & _). exists c'. exact Hrun.
Defined.

(** C10, as stated, fails for some store states.  In a browser store that
    holds a study set under ["own"] and, filed under ["k1"], a second one
    that carries the id ["own"] as well, [getStudySet "own"] returns the
    second before [deleteStudySet "k1"] and the first after it. *)
Lemma deleteStudySet_frame_counterexample :
  snd (LocalDb.getStudySet "own" LocalDb.clashingStore)
    = Some (newStudySet "k1" 20 LocalDb.inputWithId) /\
  snd (LocalDb.deleteStudySet "k1" LocalDb.clashingStore) = true /\
  snd (LocalDb.getStudySet "own" (fst (LocalDb.deleteStudySet "k1" LocalDb.clashingStore)))
    = Some (newStudySet "own" 10 LocalDb.sampleInput) /\
  snd (LocalDb.getStudySet "own" (fst (LocalDb.deleteStudySet "k1" LocalDb.clashingStore)))
    <> snd (LocalDb.getStudySet "own" LocalDb.clashingStore).
Proof. vm_compute. repeat split; discriminate. Qed.

(** C10, amended.  In the fallback store with the persisted layout in
    place (every study set in the browser filed under its own id),
    [deleteStudySet id] changes what [getStudySet] returns for no other id,
    and what [getUserProgress] returns for no study set and mode. *)
Theorem deleteStudySet_frame (id : string) (w : LocalDb.Client) :
  LocalDb.consistent w ->
  (forall id', id' <> id ->
     snd (LocalDb.getStudySet id' (fst (LocalDb.deleteStudySet id w)))
     = snd (LocalDb.getStudySet id' w)) /\
  (forall studySetId mode,
     snd (LocalDb.getUserProgress studySetId mode (fst (LocalDb.deleteStudySet id w)))
     = snd (LocalDb.getUserProgress studySetId mode w)).
Proof.
  intros Hc. split.
  - intros id' Hne. destruct (deleteStudySet_visible id id' w Hc) as [Hc' Hv].
    rewrite bool_decide_eq_false_2 in Hv by done.
    by rewrite !getStudySet_visible.
  - intros studySetId mode. rewrite !getUserProgress_visible. simpl.
    apply deleteStudySet_visibleProgress, progressKey_prefix.
Qed.

(** C10, amended, in a browser store with two study sets: deleting the
    first leaves the second and its progress record as they were. *)
Lemma deleteStudySet_frame_witness :
  snd (LocalDb.getStudySet "k2" (fst (LocalDb.deleteStudySet "k1" LocalDb.twoSetStore)))
  = Some (newStudySet "k2" 20 LocalDb.sampleInput) /\
  snd (LocalDb.getUserProgress "k2" "learn"
         (fst (LocalDb.deleteStudySet "k1" LocalDb.twoSetStore)))
  = Some (mkUserProgress "k2" Learn 30 2 1 1 1).
Proof.
  destruct (deleteStudySet_frame "k1" LocalDb.twoSetStore) as [Hsets Hprogress].
  - reflexivity.
  - split.
    + rewrite Hsets by discriminate. reflexivity.
    + rewrite Hprogress. reflexivity.
Defined.

End Persistence.

(** ** Learn mode: the session as a whole *)

Section LearnSessionFacts.
Import LearnView LearnSession.

(** *** The three counters *)

Lemma countZ_nonneg {A} (p : A -> bool) (l : list A) : 0 <= countZ p l.
Proof. unfold countZ. lia. Qed.

Lemma countZ_split {A} (p q : A -> bool) (l : list A) :
  (forall x, p x && q x = false) ->
  countZ p l + countZ q l + countZ (fun x => negb (p x) && negb (q x)) l
  = Z.of_nat (length l).
Proof.
  intros Hdisj. unfold countZ. induction l as [| x l IH]; simpl; [done |].
  specialize (Hdisj x).
  destruct (p x), (q x); simpl in *; try discriminate; lia.
Qed.

Lemma countZ_ext_in {A} (p q : A -> bool) (l : list A) :
  Forall (fun x => p x = q x) l -> countZ p l = countZ q l.
Proof.
  unfold countZ. induction 1 as [| x l Hx _ IH]; simpl; [done |].
  rewrite Hx. destruct (q x); simpl; lia.
Qed.

(** X1.  [updateStats] splits the items three ways: the counters
    [mastered] (level 3 or 4), [inProgress] (level 1 or 2) and [notStarted]
    are never negative and add up to the number of items, and, the levels
    being levels, [notStarted] counts the items at level 0, [mastered] those
    at level 3 or 4 and [inProgress] those at level 1 or 2.  Nothing else
    of the state changes. *)
Theorem updateStats_partition (st : LearnState) :
  0 <= mastered (updateStats st) /\
  0 <= inProgress (updateStats st) /\
  0 <= notStarted (updateStats st) /\
  mastered (updateStats st) + inProgress (updateStats st) + notStarted (updateStats st)
    = Z.of_nat (length (items st)) /\
  (Forall (fun it => valid_level (knowledgeLevel it)) (items st) ->
   notStarted (updateStats st) = countZ (fun it => knowledgeLevel it =? 0) (items st) /\
   mastered (updateStats st)
     = countZ (fun it => (knowledgeLevel it =? 3) || (knowledgeLevel it =? 4)) (items st) /\
   inProgress (updateStats st)
     = countZ (fun it => (knowledgeLevel it =? 1) || (knowledgeLevel it =? 2)) (items st)) /\
  setCounters (mastered st) (inProgress st) (notStarted st) (updateStats st) = st.
Proof.
  set (isMastered := fun it : LearnItem => 3 <=? knowledgeLevel it).
  set (isLearning := fun it : LearnItem =>
                       (0 <? knowledgeLevel it) && (knowledgeLevel it <? 3)).
  assert (countZ isMastered (items st) + countZ isLearning (items st)
          + countZ (fun it => negb (isMastered it) && negb (isLearning it)) (items st)
          = Z.of_nat (length (items st))) as Hsplit.
  { apply countZ_split. intros it. unfold isMastered, isLearning.
    destruct (Z.leb_spec 3 (knowledgeLevel it)), (Z.ltb_spec (knowledgeLevel it) 3),
      (Z.ltb_spec 0 (knowledgeLevel it)); simpl; try done; lia. }
  pose proof (countZ_nonneg isMastered (items st)) as Hm.
  pose proof (countZ_nonneg isLearning (items st)) as Hp.
  pose proof (countZ_nonneg (fun it => negb (isMastered it) && negb (isLearning it))
                (items st)) as Hn.
  unfold updateStats. simpl. fold isMastered isLearning.
  split; [exact Hm |]. split; [exact Hp |]. split; [lia |]. split; [lia |].
  split; [| by destruct st].
  intros Hvalid. split; [| split].
  - transitivity (countZ (fun it => negb (isMastered it) && negb (isLearning it)) (items st));
      [lia |].
    apply countZ_ext_in. eapply Forall_impl; [exact Hvalid |].
    unfold valid_level, isMastered, isLearning. intros it Hit. simpl.
    destruct (Z.leb_spec 3 (knowledgeLevel it)), (Z.ltb_spec (knowledgeLevel it) 3),
      (Z.ltb_spec 0 (knowledgeLevel it)), (Z.eqb_spec (knowledgeLevel it) 0);
      simpl; try done; lia.
  - apply countZ_ext_in. eapply Forall_impl; [exact Hvalid |].
    unfold valid_level, isMastered. intros it Hit. simpl.
    destruct (Z.leb_spec 3 (knowledgeLevel it)), (Z.eqb_spec (knowledgeLevel it) 3),
      (Z.eqb_spec (knowledgeLevel it) 4); simpl; try done; lia.
  - apply countZ_ext_in. eapply Forall_impl; [exact Hvalid |].
    unfold valid_level, isLearning. intros it Hit. simpl.
    destruct (Z.ltb_spec (knowledgeLevel it) 3), (Z.ltb_spec 0 (knowledgeLevel it)),
      (Z.eqb_spec (knowledgeLevel it) 1), (Z.eqb_spec (knowledgeLevel it) 2);
      simpl; try done; lia.
Qed.

(** X1, at the sample session: one card at level 2, one at level 0. *)
Lemma updateStats_partition_witness :
  mastered (updateStats sampleQuizState) = 0 /\
  inProgress (updateStats sampleQuizState) = 1 /\
  notStarted (updateStats sampleQuizState) = 1.
Proof.
  destruct (updateStats_partition sampleQuizState) as (_ & _ & _ & _ & Hzero & _).
  split; [reflexivity |]. split; [reflexivity |].
  destruct Hzero as [Hzero _]; [| rewrite Hzero; reflexivity].
  repeat constructor; unfold valid_level; simpl; lia.
Defined.

(** *** What a session keeps *)

(** The shape of a successful [updateItemKnowledge]. *)
Lemma updateItemKnowledge_items (now : Z) (st st' : LearnState) :
  updateItemKnowledge now st = Some st' ->
  exists it level interval,
    at_index (items st) (currentIndex st) = Some it /\
    valid_level level /\
    at_index intervals level = Some interval /\
    items st' =
      <[Z.to_nat (currentIndex st) := mkLearnItem (item it) level (now + interval) (Some now)]>
        (items st).
Proof.
  unfold updateItemKnowledge.
  destruct (at_index (items st) (currentIndex st)) as [it |]; [| discriminate].
  match goal with
  | |- context [at_index intervals ?lvl] =>
      destruct (at_index intervals lvl) as [d |] eqn:Hd; [| discriminate];
      intros [= <-]; exists it, lvl, d
  end.
  split; [done |]. split; [by eapply intervals_defined |]. by split.
Qed.

Lemma sessionItems_insert (studySet : StudySet) (l : list LearnItem) (i : nat)
    (it : LearnItem) (level next now : Z) :
  l !! i = Some it ->
  valid_level level ->
  sessionItems studySet l ->
  sessionItems studySet (<[i := mkLearnItem (item it) level next (Some now)]> l).
Proof.
  intros Hi Hlevel (Hcards & Hvalid & Hnew). repeat split.
  - rewrite <- Hcards. apply list_eq. intros j.
    rewrite !list_lookup_fmap.
    destruct (decide (i = j)) as [<- | Hne].
    + rewrite list_lookup_insert_eq by (by eapply lookup_lt_Some). by rewrite Hi.
    + by rewrite list_lookup_insert_ne.
  - apply Forall_insert; done.
  - apply Forall_insert; [done |]. unfold reviewedOrNew. simpl. discriminate.
Qed.

Lemma sessionItems_fresh (now : Z) (studySet : StudySet) :
  sessionItems studySet (freshItems now studySet).
Proof.
  unfold sessionItems, freshItems. repeat split.
  - rewrite map_map. simpl. apply map_id.
  - apply Forall_forall. intros it (x & -> & _)%list_elem_of_fmap.
    unfold valid_level. simpl. lia.
  - apply Forall_forall. by intros it (x & -> & _)%list_elem_of_fmap.
Qed.

(** X2.  Throughout a session of a study set, whatever the user types,
    checks, continues or resets and whenever the effects run, the items
    carry the cards of the study set, one per card and in its order; every
    knowledge level is one of 0..4; and an item that was never reviewed is
    at level 0. *)
Theorem session_keeps_items
    (toLowerCase trim : string -> string) (studySet : StudySet) (now : Z)
    (st : LearnState) :
  rtc (SessionStep toLowerCase trim studySet) (initialState now studySet) st ->
  sessionItems studySet (items st).
Proof.
  intros Hsteps.
  assert (sessionItems studySet (items (initialState now studySet))) as Hinit
    by apply sessionItems_fresh.
  induction Hsteps as [| st0 st1 st2 Hstep _ IH]; [exact Hinit |].
  apply IH. clear IH. destruct Hstep as
    [text st0 | st0 st1 Hcheck | now1 st0 st1 Hnext | now1 st0 | st0 | now1 st0].
  - exact Hinit.
  - unfold checkAnswer in Hcheck.
    destruct (at_index (items st0) (currentIndex st0)); [| discriminate].
    by injection Hcheck as <-.
  - unfold handleNext in Hnext. destruct (stage st0).
    + by injection Hnext as <-.
    + by injection Hnext as <-.
    + destruct (updateItemKnowledge now1 st0) as [st' |] eqn:Hrun; [| discriminate].
      injection Hnext as <-. simpl.
      apply updateItemKnowledge_items in Hrun as (it & level & d & Hat & Hlevel & _ & ->).
      apply at_index_Some in Hat as [_ Hat]. by apply sessionItems_insert.
  - apply sessionItems_fresh.
  - exact Hinit.
  - unfold findNextItem. destruct (bool_decide _); [exact Hinit |].
    by destruct (dueItems now1 st0).
Qed.

(** X2, one review into a session of the sample study set. *)
Lemma session_keeps_items_witness :
  exists st,
    handleNext 7 (setFeedback (Some FeedbackCorrect) (setStage StageQuiz (initialState 5 sampleSet)))
    = Some st /\
    sessionItems sampleSet (items st).
Proof.
  eexists. split; [reflexivity |].
  apply (session_keeps_items asciiToLowerCase asciiTrim sampleSet 5).
  eapply rtc_l; [apply (StepNext _ _ _ 6); reflexivity |].
  eapply rtc_l; [apply (StepNext _ _ _ 6); reflexivity |].
  eapply rtc_l; [apply (StepType _ _ _ "hello there"%string) |].
  eapply rtc_l; [apply StepCheck; reflexivity |].
  eapply rtc_l; [apply (StepNext _ _ _ 7); reflexivity |].
  apply rtc_refl.
Defined.

(** *** A review takes its item out of the due ones *)

Lemma filter_length_insert {A} (p : A -> bool) (l : list A) (i : nat) (x y : A) :
  l !! i = Some x ->
  (length (List.filter p (<[i := y]> l)) + (if p x then 1 else 0)
   = length (List.filter p l) + (if p y then 1 else 0))%nat.
Proof.
  revert i. induction l as [| z l IH]; intros i Hi; [done |].
  destruct i as [| i]; simpl in *.
  - injection Hi as ->. destruct (p x), (p y); simpl; lia.
  - specialize (IH i Hi). destruct (p z); simpl; lia.
Qed.

Lemma intervals_at_least_a_minute (level interval : Z) :
  at_index intervals level = Some interval -> minute <= interval.
Proof.
  intros Hd. pose proof (intervals_defined _ _ Hd) as Hv.
  rewrite (intervals_delay _ Hv) in Hd. injection Hd as <-.
  unfold delayOfLevel, day, hour, minute.
  repeat (destruct (_ =? _)); lia.
Qed.

(** X3.  A recall attempt at time [now] puts the next review of the item
    at least a minute after [now], so that the item is no longer due at
    [now]; when it was due, there is one due item less, and a session whose
    clock stood still would come to its end. *)
Theorem review_leaves_due (now : Z) (st st' : LearnState) (it : LearnItem) :
  updateItemKnowledge now st = Some st' ->
  at_index (items st) (currentIndex st) = Some it ->
  exists it',
    at_index (items st') (currentIndex st) = Some it' /\
    now + minute <= nextReview it' /\
    isDue now it' = false /\
    (isDue now it = true -> S (dueCount now (items st')) = dueCount now (items st)) /\
    (isDue now it = false -> dueCount now (items st') = dueCount now (items st)).
Proof.
  intros Hrun Hat.
  apply updateItemKnowledge_items in Hrun as (it0 & level & d & Hat0 & Hlevel & Hd & Hitems).
  rewrite Hat in Hat0. injection Hat0 as <-.
  pose proof (intervals_at_least_a_minute _ _ Hd) as Hmin.
  apply at_index_Some in Hat as [H0 Hat].
  exists (mkLearnItem (item it) level (now + d) (Some now)).
  assert (isDue now (mkLearnItem (item it) level (now + d) (Some now)) = false) as Hnot.
  { unfold isDue, minute in *. simpl. apply Z.leb_gt. lia. }
  split.
  { rewrite Hitems. apply at_index_Some. split; [done |].
    apply list_lookup_insert_eq. by eapply lookup_lt_Some. }
  split; [simpl; lia |]. split; [exact Hnot |].
  pose proof (filter_length_insert (isDue now) (items st) _ it
                (mkLearnItem (item it) level (now + d) (Some now)) Hat) as Hcount.
  rewrite Hnot in Hcount. unfold dueCount. rewrite Hitems.
  split; intros Hdue; rewrite Hdue in Hcount; lia.
Qed.

(** X3, at the sample session: the card answered was due, and one due card
    is left of two. *)
Lemma review_leaves_due_witness :
  exists st',
    updateItemKnowledge 1000 sampleQuizState = Some st' /\
    dueCount 1000 (items sampleQuizState) = 2%nat /\
    dueCount 1000 (items st') = 1%nat.
Proof.
  destruct (review_leaves_due 1000 sampleQuizState
              (setItems [mkLearnItem sampleItemA 3 (1000 + 3 * day) (Some 1000);
                         mkLearnItem sampleItemB 0 50 None] sampleQuizState)
              (mkLearnItem sampleItemA 2 100 None) eq_refl eq_refl)
    as (it' & _ & _ & _ & Hless & _).
  eexists. split; [reflexivity |]. split; [reflexivity |].
  apply eq_add_S. exact (Hless eq_refl).
Defined.

(** *** The progress that a session reports *)




(** *** How a session starts *)

Lemma sortByNextReview_level (now : Z) (l : list LearnItem) :
  Forall (fun it => nextReview it = now) l -> sortByNextReview l = l.
Proof.
  induction 1 as [| x l Hx Hl IH]; simpl; [done |].
  fold (sortByNextReview l). rewrite IH.
  destruct Hl as [| y l Hy _]; simpl; [done |].
  by rewrite Hx, Hy, Z.leb_refl.
Qed.

Lemma filter_all {A} (p : A -> bool) (l : list A) :
  Forall (fun x => p x = true) l -> List.filter p l = l.
Proof. induction 1 as [| x l Hx _ IH]; simpl; [done |]. by rewrite Hx, IH. Qed.

(** X5.  A session that has just been created, or reset, at time [now]
    holds every card at level 0, never reviewed and due at once; when the
    effect that finds the next item then runs, at [now] or later, on a
    study set that has a card, it shows the first card of the study set and
    leaves the session open.  (A study set without cards is left out: the
    component reads [currentItem.id] of [items[0]] while rendering and throws
    before any effect runs.) *)
Theorem session_start (studySet : StudySet) (now now' : Z) (st0 : LearnState) :
  now <= now' ->
  items (resetSession now studySet st0) = items (initialState now studySet) /\
  stage (resetSession now studySet st0) = StageTerm /\
  items (initialState now studySet)
    = map (fun c => mkLearnItem c 0 now None) (set_items studySet) /\
  (forall card rest,
     set_items studySet = card :: rest ->
     forall st, items st = freshItems now studySet -> stage st = StageTerm ->
       currentIndex (findNextItem studySet now' st) = 0 /\
       at_index (items (findNextItem studySet now' st)) 0
         = Some (mkLearnItem card 0 now None) /\
       isSessionComplete (findNextItem studySet now' st) = isSessionComplete st).
Proof.
  intros Hclock. split; [done |]. split; [done |]. split; [done |].
  - intros card rest Hcards st Hitems Hstage. unfold findNextItem, dueItems.
    rewrite bool_decide_eq_false_2 by (rewrite Hstage; auto).
    rewrite Hitems. unfold freshItems. rewrite Hcards.
    rewrite filter_all.
    2: { apply Forall_forall. intros it (c & -> & _)%list_elem_of_fmap.
         unfold isDue. simpl. by apply Z.leb_le. }
    rewrite (sortByNextReview_level now).
    2: { apply Forall_forall. by intros it (c & -> & _)%list_elem_of_fmap. }
    simpl. rewrite bool_decide_eq_true_2 by done. simpl.
    split; [done |]. split; [| done].
    rewrite Hitems. unfold freshItems. by rewrite Hcards.
Qed.

(** X5, for the sample study set: the session created at 5 shows its first
    card when the effect runs at 6. *)
Lemma session_start_witness :
  currentIndex (findNextItem sampleSet 6 (initialState 5 sampleSet)) = 0 /\
  at_index (items (findNextItem sampleSet 6 (initialState 5 sampleSet))) 0
  = Some (mkLearnItem sampleItemA 0 5 None).
Proof.
  destruct (session_start sampleSet 5 6 sampleQuizState) as (_ & _ & _ & Hfirst).
  - lia.
  - destruct (Hfirst sampleItemA [sampleItemB] eq_refl (initialState 5 sampleSet)
                eq_refl eq_refl) as (Hidx & Hat & _).
    split; [exact Hidx | exact Hat].
Defined.

(** *** One round on a card *)

(** X25.  One full round on the card shown: from the term, "Show
    Definition", "Test Yourself", an answer typed and checked, "Continue".
    Each step is possible; at the end the session shows a term again with the
    input and the feedback cleared, the card has moved one level up (at most
    to 4) when the answer typed contained the first 20 characters of the
    definition, case and surrounding blanks apart, and one level down (at
    least to 0) otherwise, it is scheduled by the delay of its new level, and
    no other card has changed. *)
Theorem review_round
    (toLowerCase trim : string -> string) (now : Z) (text : string)
    (st : LearnState) (it : LearnItem) :
  stage st = StageTerm ->
  at_index (items st) (currentIndex st) = Some it ->
  valid_level (knowledgeLevel it) ->
  exists st1 st2 st4 st5,
    handleNext now st = Some st1 /\ stage st1 = StageDefinition /\
    handleNext now st1 = Some st2 /\ stage st2 = StageQuiz /\
    checkAnswer toLowerCase trim (setUserInput text st2) = Some st4 /\
    handleNext now st4 = Some st5 /\
    stage st5 = StageTerm /\ userInput st5 = ""%string /\ feedback st5 = None /\
    currentIndex st5 = currentIndex st /\
    (let newLevel :=
       if gradeAnswer toLowerCase trim text (definition (item it))
       then Z.min 4 (knowledgeLevel it + 1)
       else Z.max 0 (knowledgeLevel it - 1) in
     at_index (items st5) (currentIndex st)
     = Some (mkLearnItem (item it) newLevel (now + delayOfLevel newLevel) (Some now))) /\
    (forall j, j <> currentIndex st -> at_index (items st5) j = at_index (items st) j).
Proof.
  intros Hstage Hit Hvalid.
  destruct st as [its idx stg inp fb fin m ip ns ps]. simpl in Hstage, Hit. subst stg.
  eexists _, _, _, _.
  split; [reflexivity |]. split; [reflexivity |].
  split; [reflexivity |]. split; [reflexivity |].
  split; [unfold checkAnswer; simpl; rewrite Hit; reflexivity |].
  set (grade := gradeAnswer toLowerCase trim text (definition (item it))).
  set (newLevel := if grade then Z.min 4 (knowledgeLevel it + 1)
                   else Z.max 0 (knowledgeLevel it - 1)).
  assert (at_index intervals newLevel = Some (delayOfLevel newLevel)) as Hdelay
    by (apply intervals_delay; by apply newLevel_valid).
  assert (bool_decide (Some (if grade then FeedbackCorrect else FeedbackIncorrect)
                       = Some FeedbackCorrect) = grade) as Hgrade
    by (by destruct grade).
  apply at_index_Some in Hit as [Hidx Hlook].
  split.
  { unfold handleNext, updateItemKnowledge. simpl.
    fold grade. rewrite Hgrade. fold newLevel.
    assert (at_index its idx = Some it) as -> by (by apply at_index_Some).
    fold newLevel. rewrite Hdelay. reflexivity. }
  simpl. split; [done |]. split; [done |]. split; [done |]. split; [done |].
  split.
  - apply at_index_Some. split; [exact Hidx |].
    apply list_lookup_insert_eq. by eapply lookup_lt_Some.
  - intros j Hj. unfold at_index. destruct (j <? 0) eqn:Hneg; [done |].
    apply list_lookup_insert_ne. apply Z.ltb_ge in Hneg. lia.
Qed.

(** X25, for the first card of the sample study set: the definition typed
    in capitals counts as known. *)
Lemma review_round_witness :
  exists st1 st2 st4 st5,
    handleNext 7 (initialState 5 sampleSet) = Some st1 /\
    handleNext 7 st1 = Some st2 /\
    checkAnswer asciiToLowerCase asciiTrim (setUserInput "HELLO THERE" st2) = Some st4 /\
    handleNext 7 st4 = Some st5 /\
    at_index (items st5) 0 = Some (mkLearnItem sampleItemA 1 (7 + hour) (Some 7)).
Proof.
  destruct (review_round asciiToLowerCase asciiTrim 7 "HELLO THERE"
              (initialState 5 sampleSet) (mkLearnItem sampleItemA 0 5 None))
    as (st1 & st2 & st4 & st5 & H1 & _ & H2 & _ & H4 & H5 & _ & _ & _ & _ & Hitem & _).
  - reflexivity.
  - reflexivity.
  - unfold valid_level. simpl. lia.
  - exists st1, st2, st4, st5.
    split; [exact H1 |]. split; [exact H2 |]. split; [exact H4 |].
    split; [exact H5 | exact Hitem].
Defined.

End LearnSessionFacts.

(** ** Fallback store: listing, reloading, and writes that are lost *)

Section LocalClientFacts.
Import LocalDb LocalClient.

Lemma wellKeyed_consistent (w : Client) : wellKeyed w -> consistent w.
Proof. by intros [_ Hc]. Qed.

(** X6.  In a store where every study set is filed under its own id,
    [getAllStudySets] lists exactly the study sets that [getStudySet]
    returns for their id: nothing listed is unreachable, nothing reachable
    is missing. *)
Theorem getAllStudySets_getStudySet (w : Client) (s : StudySet) :
  wellKeyed w ->
  s ∈ snd (getAllStudySets w) <-> snd (getStudySet (set_id s) w) = Some s.
Proof.
  intros Hwk. pose proof (wellKeyed_consistent w Hwk) as Hc.
  destruct (initialize_wellKeyed w Hwk) as [Hkeys _].
  rewrite getStudySet_visible by done. simpl.
  rewrite <- initialize_lookup by done.
  rewrite list_elem_of_fmap. split.
  - intros ([k s'] & -> & Hin). apply elem_of_map_to_list in Hin.
    simpl. by rewrite (Hkeys k s' Hin).
  - intros Hlook. exists (set_id s, s). split; [done |].
    by apply elem_of_map_to_list.
Qed.

(** X6, in the browser store with two study sets: the second is listed. *)
Lemma getAllStudySets_getStudySet_witness :
  newStudySet "k2" 20 sampleInput ∈ snd (getAllStudySets twoSetStore).
Proof.
  apply (getAllStudySets_getStudySet twoSetStore (newStudySet "k2" 20 sampleInput)).
  - apply (wellKeyed_reachable (mkClient emptyMemoryStore (Some (mkBrowser [] false)))).
    + split; [intros k s Hk; exact (False_ind _ (lookup_empty_Some k s Hk)) | reflexivity].
    + eapply rtc_l; [apply (StepCreate "k1" 10 sampleInput); reflexivity |].
      eapply rtc_l; [apply (StepCreate "k2" 20 sampleInput); reflexivity |].
      eapply rtc_l; [apply (StepSaveProgress 30 (mkProgressInput "k2" Learn 2 1 1 1)) |].
      apply rtc_refl.
  - reflexivity.
Defined.

(** X7.  Starting from a new client over a browser in the persisted
    layout, or over none, and calling the operations in any order, with
    creation inputs that bring no id of their own, every study set stays
    filed under its own id, in memory and in the browser. *)
Theorem calls_keep_layout (browser : option Browser) (w : Client) :
  consistent (createLocalStorageClient browser) ->
  rtc Step (createLocalStorageClient browser) w ->
  wellKeyed w.
Proof.
  intros Hc Hsteps. eapply wellKeyed_reachable; [| exact Hsteps].
  split; [| exact Hc].
  intros k s Hk. exact (False_ind _ (lookup_empty_Some k s Hk)).
Qed.

(** X7, for the browser store with two study sets and a progress record. *)
Lemma calls_keep_layout_witness : wellKeyed twoSetStore.
Proof.
  apply (calls_keep_layout (Some (mkBrowser [] false))); [reflexivity |].
  eapply rtc_l; [apply (StepCreate "k1" 10 sampleInput); reflexivity |].
  eapply rtc_l; [apply (StepCreate "k2" 20 sampleInput); reflexivity |].
  eapply rtc_l; [apply (StepSaveProgress 30 (mkProgressInput "k2" Learn 2 1 1 1)) |].
  apply rtc_refl.
Defined.

(** *** Reloading *)

(** X8.  What survives a reload, that is a new client over the same
    browser: on the client, where writes are accepted, a study set that was
    created and a progress record that was saved are read back by the new
    client, and the study set is listed; on the server, where there is no
    browser, the new client has neither. *)
Theorem reload_reads_browser
    (id : string) (now : Z) (data : StudySetInput) (p : ProgressInput) (w : Client) :
  healthy w ->
  in_id data = None ->
  (window w <> None ->
     snd (getStudySet id (reloaded (fst (createStudySet id now data w))))
       = Some (newStudySet id now data) /\
     newStudySet id now data
       ∈ snd (getAllStudySets (reloaded (fst (createStudySet id now data w)))) /\
     snd (getUserProgress (pi_studySetId p) (mode_name (pi_mode p))
            (reloaded (fst (saveUserProgress now p w))))
       = Some (stampProgress now p)) /\
  (window w = None ->
     snd (getStudySet id (reloaded (fst (createStudySet id now data w)))) = None /\
     snd (getAllStudySets (reloaded (fst (createStudySet id now data w)))) = [] /\
     snd (getUserProgress (pi_studySetId p) (mode_name (pi_mode p))
            (reloaded (fst (saveUserProgress now p w)))) = None).
Proof.
  intros Hh Hown.
  assert (set_id (newStudySet id now data) = id) as Hid
    by (unfold newStudySet; simpl; by rewrite Hown).
  unfold healthy in Hh.
  destruct (window w) as [b |] eqn:Hw; (split; [| done || intros _]); try done.
  - (* on the client *)
    intros _. destruct Hh as [Hc Hfull].
    assert (window (fst (createStudySet id now data w)) =
            Some (mkBrowser
                    (putItem allSetsKey
                       (JsonIds (pushId (studySetIds (memoryStore w)) id))
                       (putItem (studySetKey id) (JsonStudySet (newStudySet id now data))
                          (localStorage b))) false)) as Hwin.
    { unfold createStudySet, tryWrite, setItem. simpl. rewrite Hw. simpl.
      rewrite !Hfull. simpl. by rewrite ?Hfull. }
    assert (consistent (fst (createStudySet id now data w))) as Hc'.
    { unfold consistent. rewrite Hwin. simpl.
      apply layoutConsistent_put_ids. apply forallb_putItem; [done |].
      rewrite <- Hid at 1. apply entryConsistent_own. }
    assert (snd (getStudySet id (reloaded (fst (createStudySet id now data w))))
            = Some (newStudySet id now data)) as Hget.
    { rewrite reloaded_lookup by (unfold consistent, reloaded; exact Hc').
      rewrite Hwin. simpl. unfold storedStudySet.
      rewrite getItem_putItem_ne by apply studySetKey_ne_allSetsKey.
      by rewrite getItem_putItem_eq. }
    split; [exact Hget |]. split.
    + rewrite getStudySet_visible in Hget by exact Hc'. simpl in Hget.
      rewrite <- (initialize_lookup id) in Hget by exact Hc'.
      simpl. apply list_elem_of_fmap. exists (id, newStudySet id now data).
      split; [done |]. by apply elem_of_map_to_list.
    + rewrite getUserProgress_visible. simpl.
      unfold reloaded, createLocalStorageClient, visibleProgress, saveUserProgress,
        tryWrite, setItem. simpl.
      rewrite initialize_window, Hw. simpl. rewrite Hfull. simpl.
      unfold storedProgress. by rewrite getItem_putItem_eq.
  - (* on the server *)
    unfold reloaded, createLocalStorageClient, createStudySet, saveUserProgress, tryWrite.
    simpl. rewrite initialize_window, Hw. simpl.
    unfold getStudySet, getAllStudySets, getUserProgress, initializeFromLocalStorage. simpl.
    rewrite !lookup_empty. split; [done |]. split; [| done].
    by rewrite map_to_list_empty.
Qed.

(** X8, in the browser store holding the sample study set, and on the
    server. *)
Lemma reload_reads_browser_witness :
  snd (getStudySet "k2" (reloaded (fst (createStudySet "k2" 20 sampleInput browserStore))))
  = Some (newStudySet "k2" 20 sampleInput) /\
  snd (getStudySet "k2" (reloaded (fst (createStudySet "k2" 20 sampleInput serverStore))))
  = None.
Proof.
  split.
  - destruct (reload_reads_browser "k2" 20 sampleInput (mkProgressInput "k2" Learn 2 1 1 1)
                browserStore) as [Hclient _]; [split; reflexivity | reflexivity |].
    destruct Hclient as (Hget & _); [discriminate | exact Hget].
  - destruct (reload_reads_browser "k2" 20 sampleInput (mkProgressInput "k2" Learn 2 1 1 1)
                serverStore) as [_ Hserver]; [exact I | reflexivity |].
    destruct (Hserver eq_refl) as (Hget & _). exact Hget.
Defined.

(** *** What [deleteStudySet] answers *)

(** X9.  In the persisted layout [deleteStudySet] answers [true] exactly
    when [getStudySet] finds the study set, and a second deletion of the same
    id answers [false]. *)
Theorem deleteStudySet_result (id : string) (w : Client) :
  consistent w ->
  snd (deleteStudySet id w) = bool_decide (is_Some (snd (getStudySet id w))) /\
  snd (deleteStudySet id (fst (deleteStudySet id w))) = false.
Proof.
  intros Hc.
  assert (forall w0, consistent w0 ->
            snd (deleteStudySet id w0) = bool_decide (is_Some (visibleStudySet id w0)))
    as Hfound.
  { intros w0 Hc0. unfold deleteStudySet.
    rewrite (initialize_lookup id w0 Hc0).
    destruct (visibleStudySet id w0) as [s |]; simpl.
    - done.
    - done. }
  split.
  - rewrite (Hfound w Hc). by rewrite getStudySet_visible.
  - destruct (deleteStudySet_visible id id w Hc) as [Hc' Hgone].
    rewrite (Hfound _ Hc'), Hgone.
    by rewrite (bool_decide_eq_true_2 (id = id) eq_refl).
Qed.

(** X9, in the browser store with two study sets: the first deletion of
    ["k1"] answers [true], the second [false]. *)
Lemma deleteStudySet_result_witness :
  snd (deleteStudySet "k1" twoSetStore) = true /\
  snd (deleteStudySet "k1" (fst (deleteStudySet "k1" twoSetStore))) = false.
Proof.
  destruct (deleteStudySet_result "k1" twoSetStore) as [Hfirst Hsecond];
    [reflexivity |].
  split; [| exact Hsecond].
  rewrite Hfirst. reflexivity.
Defined.

(** *** The keys of progress records *)

Lemma colon_in_name (x y : string) :
  LearnView.includes (x +:+ String ":" y) ":" = true.
Proof. apply includes_occurs. by exists x, y. Qed.

Lemma colon_split_inj (x x' n n' : string) :
  LearnView.includes n ":" = false ->
  LearnView.includes n' ":" = false ->
  x +:+ ":" +:+ n = x' +:+ ":" +:+ n' ->
  x = x' /\ n = n'.
Proof.
  intros Hn Hn'. revert x'.
  induction x as [| c x IH]; intros [| c' x']; rewrite ?append_cons, ?append_empty.
  - intros H. by injection H as ->.
  - intros H. injection H as _ H. rewrite H, colon_in_name in Hn. discriminate.
  - intros H. injection H as _ H. rewrite <- H, colon_in_name in Hn'. discriminate.
  - intros H. injection H as -> H. destruct (IH x' H) as [-> ->]. done.
Qed.

Lemma progressKey_inj (id id' : string) (md md' : Mode) :
  progressKey id (mode_name md) = progressKey id' (mode_name md') ->
  id = id' /\ md = md'.
Proof.
  unfold progressKey. intros H.
  assert (id +:+ ":" +:+ mode_name md = id' +:+ ":" +:+ mode_name md') as H'.
  { revert H. generalize (id +:+ ":" +:+ mode_name md) (id' +:+ ":" +:+ mode_name md').
    intros a b H. rewrite !append_cons, !append_empty in H. by simplify_eq. }
  apply colon_split_inj in H' as [-> Hm]; [| by destruct md | by destruct md'].
  split; [done |]. by apply (mode_name_inj md md').
Qed.

(** X10.  The keys [progress:<studySetId>:<mode>] of two different pairs
    of a study set and a mode are different, whatever the study-set ids are
    (the names of the modes contain no colon); so saving the progress of one
    pair leaves what [getUserProgress] answers for every other pair as it
    was. *)
Theorem saveUserProgress_other_pair
    (now : Z) (p : ProgressInput) (id' : string) (md' : Mode) (w : Client) :
  (id', md') <> (pi_studySetId p, pi_mode p) ->
  progressKey id' (mode_name md') <> progressKey (pi_studySetId p) (mode_name (pi_mode p)) /\
  snd (getUserProgress id' (mode_name md') (fst (saveUserProgress now p w))) =
  snd (getUserProgress id' (mode_name md') w).
Proof.
  intros Hne.
  assert (progressKey id' (mode_name md')
          <> progressKey (pi_studySetId p) (mode_name (pi_mode p))) as Hkey.
  { intros H. apply progressKey_inj in H as [-> ->]. by apply Hne. }
  split; [exact Hkey |].
  rewrite !getUserProgress_visible. simpl.
  pose proof (initialize_progress (progressKey id' (mode_name md')) w
                (progressKey_prefix _ _)) as Hinit.
  unfold saveUserProgress, tryWrite, setItem, visibleProgress in *. simpl.
  rewrite initialize_window in *.
  destruct (window w) as [b |] eqn:Hw; simpl.
  - destruct (storageFull b); simpl.
    + destruct (storedProgress (localStorage b) _); [done |].
      rewrite lookup_insert_ne by (intros H; by apply Hkey). exact Hinit.
    + unfold storedProgress in *.
      rewrite getItem_putItem_ne by (intros H; by apply Hkey).
      destruct (getItem (progressKey id' (mode_name md')) (localStorage b))
        as [[s | q | ids |] |]; try done;
        (rewrite lookup_insert_ne by (intros H; by apply Hkey)); exact Hinit.
  - rewrite lookup_insert_ne by (intros H; by apply Hkey). exact Hinit.
Qed.

(** X10, in the browser store with two study sets: saving the quiz
    progress of ["k2"] keeps its Learn progress. *)
Lemma saveUserProgress_other_pair_witness :
  snd (getUserProgress "k2" (mode_name Learn)
         (fst (saveUserProgress 40 (mkProgressInput "k2" Quiz 5 4 1 1) twoSetStore)))
  = snd (getUserProgress "k2" (mode_name Learn) twoSetStore).
Proof.
  destruct (saveUserProgress_other_pair 40 (mkProgressInput "k2" Quiz 5 4 1 1)
              "k2" Learn twoSetStore) as [_ Hsame]; [discriminate | exact Hsame].
Defined.

(** *** A browser that refuses writes *)

(** X11.  With the quota of [localStorage] exhausted a write reaches the
    memory of the client only, and every read loads the browser's entries
    over it: the update of a persisted study set returns the merged record,
    and the progress saved for a persisted pair is returned as saved, but the
    next read answers the record that was persisted before. *)
Theorem full_storage_reads_old_record (w : Client) (b : Browser) :
  window w = Some b ->
  storageFull b = true ->
  layoutConsistent (localStorage b) = true ->
  (forall id now data old,
     storedStudySet (localStorage b) id = Some old ->
     snd (updateStudySet id now data w) = Some (mergeStudySet old data now) /\
     snd (getStudySet id (fst (updateStudySet id now data w))) = Some old) /\
  (forall now p old,
     storedProgress (localStorage b)
       (progressKey (pi_studySetId p) (mode_name (pi_mode p))) = Some old ->
     snd (saveUserProgress now p w) = stampProgress now p /\
     snd (getUserProgress (pi_studySetId p) (mode_name (pi_mode p))
            (fst (saveUserProgress now p w))) = Some old).
Proof.
  intros Hw Hfull Hlayout.
  assert (consistent w) as Hc by (unfold consistent; by rewrite Hw).
  split.
  - intros id now data old Hold.
    assert (visibleStudySet id w = Some old) as Hvis
      by (unfold visibleStudySet; by rewrite Hw, Hold).
    unfold updateStudySet.
    rewrite getStudySet_visible by by apply initialize_consistent.
    rewrite initialize_visible, Hvis by exact Hc.
    split; [done |]. simpl.
    unfold tryWrite, setItem. simpl. rewrite !initialize_window, Hw. simpl.
    rewrite Hfull. simpl.
    rewrite getStudySet_visible by (unfold consistent; simpl; exact Hlayout).
    simpl. unfold visibleStudySet. simpl. by rewrite Hold.
  - intros now p old Hold. split; [done |].
    rewrite getUserProgress_visible. simpl.
    unfold saveUserProgress, tryWrite, setItem, visibleProgress. simpl.
    rewrite initialize_window, Hw. simpl. rewrite Hfull. simpl. by rewrite Hold.
Qed.

(** X11, in the browser store with two study sets once its quota is
    exhausted: renaming ["k1"] returns the renamed study set, and the next
    read answers the old one. *)
Lemma full_storage_reads_old_record_witness :
  snd (updateStudySet "k1" 50 renameOnly fullStore)
  = Some (mergeStudySet (newStudySet "k1" 10 sampleInput) renameOnly 50) /\
  snd (getStudySet "k1" (fst (updateStudySet "k1" 50 renameOnly fullStore)))
  = Some (newStudySet "k1" 10 sampleInput).
Proof.
  destruct (full_storage_reads_old_record fullStore
              (mkBrowser (default [] (localStorage <$> window twoSetStore)) true))
    as [Hset _]; [reflexivity | reflexivity | reflexivity |].
  apply (Hset "k1" 50 renameOnly (newStudySet "k1" 10 sampleInput)). reflexivity.
Defined.

(** *** Updating a study set that is there *)

Lemma wellKeyed_visible (id : string) (w : Client) (s : StudySet) :
  wellKeyed w -> visibleStudySet id w = Some s -> set_id s = id.
Proof.
  intros Hwk Hv. destruct (initialize_wellKeyed w Hwk) as [Hkeys _].
  apply Hkeys. by rewrite initialize_lookup by by apply wellKeyed_consistent.
Qed.

(** X12.  [updateStudySet] on a study set that the store shows, in a store
    that accepts writes: the result is the old record with the properties of
    the patch in place of its own and [updatedAt] set to the time of the call
    (an [updatedAt] of the patch is overridden, an empty title of the patch
    is taken); id and [createdAt] are the old ones; the next read returns
    that record, and what is read for every other id is as before. *)
Theorem updateStudySet_merges
    (id : string) (now : Z) (data : StudySetPatch) (w : Client) (old : StudySet) :
  wellKeyed w ->
  writable w ->
  snd (getStudySet id w) = Some old ->
  exists s,
    snd (updateStudySet id now data w) = Some s /\
    snd (getStudySet id (fst (updateStudySet id now data w))) = Some s /\
    set_id s = id /\ createdAt s = createdAt old /\ updatedAt s = now /\
    title s = default (title old) (p_title data) /\
    description s = default (description old) (p_description data) /\
    set_items s = default (set_items old) (p_items data) /\
    sourceType s = default (sourceType old) (p_sourceType data) /\
    sourceName s = match p_sourceName data with
                   | Some n => Some n
                   | None => sourceName old
                   end /\
    (forall id', id' <> id ->
       snd (getStudySet id' (fst (updateStudySet id now data w))) =
       snd (getStudySet id' w)).
Proof.
  intros Hwk Hwr Hold.
  pose proof (wellKeyed_consistent w Hwk) as Hc.
  rewrite getStudySet_visible in Hold by exact Hc. simpl in Hold.
  assert (healthy w) as Hh.
  { unfold healthy, consistent, writable in *. by destruct (window w). }
  destruct (updateStudySet_getStudySet id now data w old Hh Hold) as [Hret Hread].
  exists (mergeStudySet old data now).
  split; [exact Hret |]. split; [exact Hread |].
  split; [exact (wellKeyed_visible id w old Hwk Hold) |].
  do 7 (split; [reflexivity |]).
  intros id' Hne.
  assert (wellKeyed (fst (updateStudySet id now data w))) as Hwk'
    by (eapply wellKeyed_step; [exact Hwk | apply StepUpdate]).
  rewrite !getStudySet_visible by (done || by apply wellKeyed_consistent).
  simpl. clear Hret Hread Hwk'.
  unfold updateStudySet.
  rewrite getStudySet_visible by by apply initialize_consistent.
  rewrite initialize_visible, Hold by exact Hc.
  pose proof (initialize_lookup id' (initializeFromLocalStorage w)
                (initialize_consistent w Hc)) as Hmem.
  rewrite initialize_visible in Hmem by exact Hc.
  unfold tryWrite, setItem, visibleStudySet in *. simpl.
  rewrite !initialize_window.
  destruct (window w) as [b |] eqn:Hw; simpl.
  - unfold writable in Hwr. rewrite Hw in Hwr. rewrite Hwr. simpl.
    unfold storedStudySet in *.
    rewrite getItem_putItem_ne by (intros H; apply studySetKey_inj in H; by apply Hne).
    destruct (getItem (studySetKey id') (localStorage b)) as [[s | q | ids |] |];
      try done; (rewrite lookup_insert_ne by done); exact Hmem.
  - rewrite lookup_insert_ne by done. exact Hmem.
Qed.

(** X12, in the browser store with two study sets: renaming ["k1"]. *)
Lemma updateStudySet_merges_witness :
  exists s,
    snd (updateStudySet "k1" 50 renameOnly twoSetStore) = Some s /\
    title s = "Spanish II"%string /\ updatedAt s = 50.
Proof.
  destruct (updateStudySet_merges "k1" 50 renameOnly twoSetStore
              (newStudySet "k1" 10 sampleInput))
    as (s & Hret & _ & _ & _ & Hupd & Hti & _).
  - apply (wellKeyed_reachable (mkClient emptyMemoryStore (Some (mkBrowser [] false)))).
    + split; [intros k s Hk; exact (False_ind _ (lookup_empty_Some k s Hk)) | reflexivity].
    + eapply rtc_l; [apply (StepCreate "k1" 10 sampleInput); reflexivity |].
      eapply rtc_l; [apply (StepCreate "k2" 20 sampleInput); reflexivity |].
      eapply rtc_l; [apply (StepSaveProgress 30 (mkProgressInput "k2" Learn 2 1 1 1)) |].
      apply rtc_refl.
  - reflexivity.
  - reflexivity.
  - exists s. split; [exact Hret |]. split; [exact Hti | exact Hupd].
Defined.

End LocalClientFacts.

(** ** More on the database backend *)

Section DbOperations.
Import Db DbSamples.

Lemma filter_filter_keep {A} (p q : A -> bool) (l : list A) :
  (forall x, p x = true -> q x = true) ->
  List.filter p (List.filter q l) = List.filter p l.
Proof.
  intros Hpq. induction l as [| x l IH]; [done |]. simpl.
  destruct (q x) eqn:Hq; simpl.
  - by rewrite IH.
  - destruct (p x) eqn:Hp; [| exact IH]. rewrite (Hpq x Hp) in Hq. discriminate.
Qed.

Lemma filter_filter_none {A} (p q : A -> bool) (l : list A) :
  (forall x, q x = true -> p x = false) ->
  List.filter p (List.filter q l) = [].
Proof.
  intros Hqp. induction l as [| x l IH]; [done |]. simpl.
  destruct (q x) eqn:Hq; simpl; [| exact IH]. by rewrite (Hqp x Hq).
Qed.

(** X13.  In the database [deleteStudySet] takes the progress of the study
    set with it (the fallback store keeps it): without a transport failure,
    after the deletion [getUserProgress] answers [null] for the deleted id
    in every mode, while the progress and the study sets of every other id
    read as before. *)
Theorem deleteStudySetDb_cascades
    (scan : list StudyItemRow -> list StudyItemRow) (id : string) (c : Conn) :
  reliable c ->
  exists c',
    deleteStudySetDb id c = (c', Some (hasStudySet id (tables c))) /\
    reliable c' /\
    (forall md, getUserProgressDb id md c' = (c', Some None)) /\
    (forall id' md, id' <> id ->
       snd (getUserProgressDb id' md c') = snd (getUserProgressDb id' md c)) /\
    (forall id', id' <> id ->
       snd (getStudySetDb scan id' c') = snd (getStudySetDb scan id' c)).
Proof.
  intros Hr. unfold deleteStudySetDb, tryCatch, bind.
  rewrite query_reliable by exact Hr. simpl.
  eexists. split.
  { unfold ret. f_equal. f_equal. unfold hasStudySet.
    induction (study_sets (tables c)) as [| r rows IH]; [done |]. simpl.
    destruct (bool_decide_reflect (row_id r = id)) as [Heq | Hne]; simpl.
    - symmetry. apply bool_decide_eq_true_2. rewrite Heq. apply elem_of_cons. by left.
    - rewrite IH. apply bool_decide_ext. rewrite elem_of_cons. naive_solver. }
  assert (reliable
            (mkConn
               (mkTables
                  (List.filter (fun r => negb (bool_decide (row_id r = id)))
                     (study_sets (tables c)))
                  (List.filter (fun r => negb (bool_decide (irow_study_set_id r = id)))
                     (study_items (tables c)))
                  (List.filter (fun r => negb (bool_decide (prow_study_set_id r = id)))
                     (user_progress (tables c))))
               [] (console c))) as Hr' by reflexivity.
  split; [exact Hr' |]. split; [| split].
  - intros md. rewrite getUserProgressDb_reliable by exact Hr'. simpl.
    rewrite filter_filter_none; [done |].
    intros r Hq. unfold progressMatches.
    destruct (bool_decide (prow_study_set_id r = id)); [discriminate | done].
  - intros id' md Hne. rewrite !getUserProgressDb_reliable by done. simpl.
    rewrite filter_filter_keep; [done |].
    intros r Hp. unfold progressMatches in Hp.
    apply andb_true_iff in Hp as [Hp _]. apply bool_decide_eq_true in Hp.
    apply negb_true_iff, bool_decide_eq_false. congruence.
  - intros id' Hne. rewrite !getStudySetDb_reliable by done. simpl.
    unfold itemsOf. simpl.
    rewrite !filter_filter_keep; [done | |].
    + intros r Hp. apply bool_decide_eq_true in Hp.
      apply negb_true_iff, bool_decide_eq_false. congruence.
    + intros r Hp. apply bool_decide_eq_true in Hp.
      apply negb_true_iff, bool_decide_eq_false. congruence.
Qed.

(** X13, in the sample database with the quiz progress of its study set. *)
Lemma deleteStudySetDb_cascades_witness :
  exists c',
    deleteStudySetDb "k1" progressConn = (c', Some true) /\
    getUserProgressDb "k1" "quiz" c' = (c', Some None).
Proof.
  destruct (deleteStudySetDb_cascades (fun rows => rows) "k1" progressConn)
    as (c' & Hrun & _ & Hgone & _); [reflexivity |].
  exists c'. split; [exact Hrun | apply Hgone].
Defined.

(** *** A creation that fails half-way *)

Lemma forEach_app {A} (xs ys : list A) (f : A -> M unit) (c : Conn) :
  forEach (xs ++ ys) f c =
  match forEach xs f c with
  | (c', Some _) => forEach ys f c'
  | (c', None) => (c', None)
  end.
Proof.
  revert c. induction xs as [| x xs IH]; intros c; [done |].
  simpl. unfold bind. destruct (f x c) as [c1 [[] |]]; [apply IH | done].
Qed.

(** The loop over the items stops at an item that the primary key
    refuses; the items before it are in. *)
Lemma insertItems_stops
    (setId : string) (pre post : list StudyItem) (dup : StudyItem) (c : Conn) :
  reliable c ->
  hasStudySet setId (tables c) = true ->
  itemsFit setId pre = true ->
  freshItemIds pre (tables c) ->
  item_id dup ∈ map irow_id (study_items (tables c)) ++ map item_id pre ->
  exists c',
    insertItems setId (pre ++ dup :: post) c = (c', None) /\
    reliable c' /\ console c' = console c /\
    study_sets (tables c') = study_sets (tables c) /\
    study_items (tables c') = study_items (tables c) ++ map (itemRow setId) pre.
Proof.
  intros Hr Hhas Hfit Hfresh Hdup.
  destruct (insertItems_succeeds setId pre c Hr Hhas Hfit Hfresh) as [c2 Hpre].
  destruct (insertItems_reliable setId pre c c2 Hr Hpre)
    as (Hr2 & Hcon2 & Hsets2 & _ & Hitems2).
  unfold insertItems in *. rewrite forEach_app, Hpre.
  cbn [forEach]. unfold bind.
  rewrite query_reliable by exact Hr2.
  unfold insertStudyItem.
  rewrite bool_decide_eq_true_2.
  2:{ rewrite Hitems2. simpl. rewrite map_app, map_map. simpl.
      by rewrite <- (map_ext _ _ (fun it => eq_refl (item_id it))). }
  destruct (negb (fitsStudyItems _)); (eexists; split; [reflexivity |]; simpl; done).
Qed.

(** X14.  [createStudySet] in the database is not all-or-nothing: the row
    of the study set and the items are inserted one statement after the
    other, and [id] is the primary key of the whole of [study_items].  When
    an item of the input has the id of an item that is stored already, or of
    an earlier item of the input, the call throws after logging, and the
    study set stays behind with the items that came before (the row of the
    study set and the rows of those items fitting their columns, so that
    they were accepted). *)
Theorem createStudySetDb_stops_half_way
    (id : string) (now : Z) (data : StudySetInput) (c : Conn)
    (pre post : list StudyItem) (dup : StudyItem) :
  reliable c ->
  hasStudySet id (tables c) = false ->
  headerFits id now data = true ->
  in_items data = pre ++ dup :: post ->
  itemsFit id pre = true ->
  freshItemIds pre (tables c) ->
  item_id dup ∈ map irow_id (study_items (tables c)) ++ map item_id pre ->
  exists c',
    createStudySetDb id now data c = (c', None) /\
    console c' = console c ++ ["Error creating study set:"%string] /\
    hasStudySet id (tables c') = true /\
    study_items (tables c') = study_items (tables c) ++ map (itemRow id) pre.
Proof.
  intros Hr Hnew Hhead Hitems Hfit Hfresh Hdup.
  unfold createStudySetDb, tryCatch. unfold bind at 1.
  rewrite query_reliable by exact Hr.
  unfold insertStudySet. unfold headerFits in Hhead.
  cbn [title description createdAt updatedAt sourceType sourceName newStudySet].
  rewrite Hhead. cbn [negb row_id]. rewrite Hnew.
  cbn [set_items newStudySet]. rewrite Hitems. unfold bind at 1.
  match goal with
  | |- context [insertItems id _ ?c1] =>
      destruct (insertItems_stops id pre post dup c1)
        as (c2 & Hstop & _ & Hcon & Hsets & Hitems2);
        [reflexivity | | exact Hfit | exact Hfresh | exact Hdup |]
  end.
  { unfold hasStudySet. simpl. apply bool_decide_eq_true_2.
    rewrite map_app. apply elem_of_app. right. simpl. apply elem_of_cons. by left. }
  rewrite Hstop.
  eexists. split; [reflexivity |]. simpl.
  split; [by rewrite Hcon |]. split; [| exact Hitems2].
  unfold hasStudySet. rewrite Hsets. simpl. apply bool_decide_eq_true_2.
  rewrite map_app. apply elem_of_app. right. simpl. apply elem_of_cons. by left.
Qed.

(** X14, in the sample database: the second item of the input has the id
    of a stored item. *)
Lemma createStudySetDb_stops_half_way_witness :
  exists c',
    createStudySetDb "k2" 20 clashingData sampleConn = (c', None) /\
    hasStudySet "k2" (tables c') = true.
Proof.
  destruct (createStudySetDb_stops_half_way "k2" 20 clashingData sampleConn
              [mkStudyItem "c" "Salut" "Hi" None None]
              [mkStudyItem "d" "Oui" "Yes" None None]
              (mkStudyItem "a" "Merci" "Thanks" None None))
    as (c' & Hrun & _ & Hhas & _).
  - reflexivity.
  - reflexivity.
  - reflexivity.
  - reflexivity.
  - reflexivity.
  - split.
    + simpl. apply NoDup_cons. split; [apply not_elem_of_nil | apply NoDup_nil_2].
    + intros it Hit. apply elem_of_cons in Hit as [-> | Hit];
        [| by apply elem_of_nil in Hit].
      simpl. intros Hin. apply list_elem_of_In in Hin. simpl in Hin.
      destruct Hin as [H | [H | []]]; discriminate.
  - simpl. apply elem_of_cons. by left.
  - exists c'. split; [exact Hrun | exact Hhas].
Defined.

(** *** Listing the study sets *)

Lemma mapM_reliable
    (scan : list StudyItemRow -> list StudyItemRow) (rows : list StudySetRow) (c : Conn) :
  reliable c ->
  mapM (fun row =>
          await itemRows <~ query (selectStudyItems scan (row_id row)) ;;
          ret (studySetOfRows row itemRows)) rows c =
  (c, Some (map (fun row => studySetOfRows row (scan (itemsOf (row_id row) (tables c))))
              rows)).
Proof.
  intros Hr. induction rows as [| row rows IH]; [done |].
  cbn [mapM]. unfold bind at 1. unfold bind at 1.
  rewrite query_reliable by exact Hr. cbn [selectStudyItems].
  unfold reliable in Hr. rewrite <- Hr, conn_eta. unfold ret at 1.
  unfold bind at 1. rewrite IH. done.
Qed.

Lemma getAllStudySetsDb_reliable
    (scan : list StudyItemRow -> list StudyItemRow) (c : Conn) :
  reliable c ->
  getAllStudySetsDb scan c =
  (c, Some (map (fun row => studySetOfRows row (scan (itemsOf (row_id row) (tables c))))
              (foldr insertByUpdatedAt [] (study_sets (tables c))))).
Proof.
  intros Hr. unfold getAllStudySetsDb, tryCatch. unfold bind at 1.
  rewrite query_reliable by exact Hr. cbn [selectAllStudySets].
  pose proof Hr as Hr'. unfold reliable in Hr'. rewrite <- Hr', conn_eta.
  by rewrite mapM_reliable.
Qed.

Lemma insertByUpdatedAt_perm (x : StudySetRow) (l : list StudySetRow) :
  Permutation (insertByUpdatedAt x l) (x :: l).
Proof.
  induction l as [| y l IH]; [done |]. simpl.
  destruct (updated_at y <=? updated_at x); [done |].
  rewrite IH. apply perm_swap.
Qed.

Lemma selectAll_perm (rows : list StudySetRow) :
  Permutation (foldr insertByUpdatedAt [] rows) rows.
Proof.
  induction rows as [| x rows IH]; [done |]. simpl.
  rewrite insertByUpdatedAt_perm. by constructor.
Qed.

Lemma insertByUpdatedAt_sorted (x : StudySetRow) (l : list StudySetRow) :
  StronglySorted (fun a b => updated_at b <= updated_at a) l ->
  StronglySorted (fun a b => updated_at b <= updated_at a) (insertByUpdatedAt x l).
Proof.
  induction 1 as [| y l Hs IH Hall]; simpl.
  - constructor; [constructor | constructor].
  - destruct (Z.leb_spec (updated_at y) (updated_at x)) as [Hle | Hlt].
    + constructor; [by constructor |].
      constructor; [exact Hle |].
      eapply List.Forall_impl; [| exact Hall]. simpl. intros z Hz. lia.
    + constructor; [exact IH |].
      apply List.Forall_forall. intros z Hz.
      apply (Permutation_in _ (insertByUpdatedAt_perm x l)) in Hz as [<- | Hz]; [lia |].
      rewrite List.Forall_forall in Hall. by apply Hall.
Qed.

Lemma selectAll_sorted (rows : list StudySetRow) :
  StronglySorted (fun a b => updated_at b <= updated_at a)
    (foldr insertByUpdatedAt [] rows).
Proof.
  induction rows as [| x rows IH]; simpl; [constructor |].
  by apply insertByUpdatedAt_sorted.
Qed.

Lemma StronglySorted_map {A B} (f : A -> B) (R : B -> B -> Prop) (l : list A) :
  StronglySorted (fun a b => R (f a) (f b)) l -> StronglySorted R (map f l).
Proof.
  induction 1 as [| x l Hs IH Hall]; simpl; constructor; [exact IH |].
  apply List.Forall_map. exact Hall.
Qed.

Lemma filter_absent_row (id : string) (rows : list StudySetRow) :
  id ∉ map row_id rows ->
  List.filter (fun r => bool_decide (row_id r = id)) rows = [].
Proof.
  induction rows as [| r rows IH]; [done |]. simpl. intros Hnot.
  rewrite bool_decide_eq_false_2.
  - apply IH. intros Hin. apply Hnot. apply elem_of_cons. by right.
  - intros Heq. apply Hnot. apply elem_of_cons. by left.
Qed.

Lemma filter_unique_row (id : string) (rows : list StudySetRow) (row : StudySetRow) :
  NoDup (map row_id rows) ->
  row ∈ rows ->
  row_id row = id ->
  List.filter (fun r => bool_decide (row_id r = id)) rows = [row].
Proof.
  intros Hnd Hin Hid. induction rows as [| r rows IH]; [by apply elem_of_nil in Hin |].
  simpl in Hnd. apply NoDup_cons in Hnd as [Hfresh Hnd].
  simpl. apply elem_of_cons in Hin as [<- | Hin].
  - rewrite bool_decide_eq_true_2 by exact Hid. f_equal.
    apply filter_absent_row. by rewrite <- Hid.
  - rewrite bool_decide_eq_false_2; [by apply IH |].
    intros Heq. apply Hfresh. rewrite Heq, <- Hid.
    apply list_elem_of_In, in_map. by apply list_elem_of_In.
Qed.

(** X15.  Without a transport failure [getAllStudySets] of the database
    returns one study set for every row of [study_sets], the most recently
    updated first; and, the ids of the rows being distinct as the primary
    key has it, a study set is in the list exactly when [getStudySet]
    returns it for its id. *)
Theorem getAllStudySetsDb_lists
    (scan : list StudyItemRow -> list StudyItemRow) (c : Conn) :
  reliable c ->
  NoDup (map row_id (study_sets (tables c))) ->
  exists l,
    getAllStudySetsDb scan c = (c, Some l) /\
    Permutation (map set_id l) (map row_id (study_sets (tables c))) /\
    StronglySorted (fun a b => updatedAt b <= updatedAt a) l /\
    (forall s, s ∈ l <-> getStudySetDb scan (set_id s) c = (c, Some (Some s))).
Proof.
  intros Hr Hnd. eexists. split; [by apply getAllStudySetsDb_reliable |].
  split; [| split].
  - rewrite map_map. simpl.
    apply (Permutation_map row_id). apply selectAll_perm.
  - apply StronglySorted_map. simpl. apply selectAll_sorted.
  - intros s. rewrite getStudySetDb_reliable by exact Hr.
    rewrite list_elem_of_fmap. split.
    + intros (row & -> & Hin). simpl.
      apply list_elem_of_In in Hin.
      apply (Permutation_in _ (selectAll_perm _)) in Hin.
      apply list_elem_of_In in Hin.
      by rewrite (filter_unique_row (row_id row) _ row Hnd Hin eq_refl).
    + intros Hget.
      destruct (List.filter _ (study_sets (tables c))) as [| row rest] eqn:Hrows;
        [discriminate |].
      assert (row ∈ List.filter (fun r => bool_decide (row_id r = set_id s))
                       (study_sets (tables c))) as Hin
        by (rewrite Hrows; apply elem_of_cons; by left).
      apply list_elem_of_In, List.filter_In in Hin as [Hin Hid].
      apply bool_decide_eq_true in Hid.
      exists row. split.
      * rewrite Hid. symmetry. by injection Hget.
      * apply list_elem_of_In.
        apply (Permutation_in _ (Permutation_sym (selectAll_perm _))). exact Hin.
Qed.

(** X15, in the sample database with a second, older study set: the list
    starts with the study set that was updated last. *)
Lemma getAllStudySetsDb_lists_witness :
  exists l,
    getAllStudySetsDb (fun rows => rows) twoSetConn = (twoSetConn, Some l) /\
    map set_id l = ["k1"; "k0"]%string.
Proof.
  destruct (getAllStudySetsDb_lists (fun rows => rows) twoSetConn) as (l & Hrun & _).
  - reflexivity.
  - apply (bool_decide_unpack _). vm_compute. exact I.
  - exists l. split; [exact Hrun |].
    rewrite getAllStudySetsDb_reliable in Hrun by reflexivity.
    injection Hrun as <-. reflexivity.
Defined.

(** *** Reading changes nothing *)

Lemma query_read_tables {R} (stmt : Tables -> option (Tables * R)) (c : Conn) :
  (forall t, exists r, stmt t = Some (t, r)) ->
  tables (fst (query stmt c)) = tables c.
Proof.
  intros Hread. unfold query.
  destruct (faults c) as [| [|] fs]; simpl; try done;
    destruct (Hread (tables c)) as [r ->]; done.
Qed.

Lemma mapM_read_tables
    (scan : list StudyItemRow -> list StudyItemRow) (rows : list StudySetRow) (c : Conn) :
  tables (fst (mapM (fun row =>
                       await itemRows <~ query (selectStudyItems scan (row_id row)) ;;
                       ret (studySetOfRows row itemRows)) rows c)) = tables c.
Proof.
  revert c. induction rows as [| row rows IH]; intros c; [done |].
  cbn [mapM]. unfold bind at 1. unfold bind at 1.
  pose proof (query_read_tables (selectStudyItems scan (row_id row)) c) as Hq.
  destruct (query (selectStudyItems scan (row_id row)) c) as [c1 [itemRows |]];
    simpl in Hq |- *.
  - unfold ret at 1. unfold bind. specialize (IH c1).
    destruct (mapM _ rows c1) as [c2 [l |]]; simpl in IH |- *;
      (rewrite IH; apply Hq; intros t; by eexists).
  - apply Hq. intros t. by eexists.
Qed.

Lemma reads_tables_all
    (scan : list StudyItemRow -> list StudyItemRow) (c : Conn) :
  exists c' l, getAllStudySetsDb scan c = (c', Some l) /\ tables c' = tables c.
Proof.
  unfold getAllStudySetsDb, tryCatch. unfold bind at 1.
  pose proof (query_read_tables selectAllStudySets c) as Hq.
  destruct (query selectAllStudySets c) as [c1 [rows |]]; simpl in Hq.
  - pose proof (mapM_read_tables scan rows c1) as Hm.
    destruct (mapM _ rows c1) as [c2 [l |]]; simpl in Hm |- *;
      (do 2 eexists; split; [reflexivity |]); simpl;
      rewrite ?Hm; apply Hq; intros t; by eexists.
  - do 2 eexists. split; [reflexivity |]. simpl. apply Hq. intros t. by eexists.
Qed.

(** X16.  Whatever transport failures occur, the three reading operations
    of the database backend return a value to their caller, they do not
    throw, and leave the tables as they were. *)
Theorem reads_keep_tables
    (scan : list StudyItemRow -> list StudyItemRow) (c : Conn) :
  (forall id, exists c' r,
     getStudySetDb scan id c = (c', Some r) /\ tables c' = tables c) /\
  (exists c' l, getAllStudySetsDb scan c = (c', Some l) /\ tables c' = tables c) /\
  (forall id md, exists c' r,
     getUserProgressDb id md c = (c', Some r) /\ tables c' = tables c).
Proof.
  split; [| split].
  - intros id. apply getStudySetDb_returns.
  - apply reads_tables_all.
  - intros id md. unfold getUserProgressDb, tryCatch, bind.
    pose proof (query_read_tables (selectProgress id md) c) as Hq.
    destruct (query (selectProgress id md) c) as [c1 [rows |]]; simpl in Hq.
    + destruct rows as [| row rows]; (do 2 eexists; split; [reflexivity |]);
        simpl; apply Hq; intros t; by eexists.
    + do 2 eexists. split; [reflexivity |]. simpl. apply Hq. intros t. by eexists.
Qed.

(** *** Updating a study set that is there *)

Lemma filter_updated_rows (id : string) (f : StudySetRow -> StudySetRow)
    (rows : list StudySetRow) :
  (forall r, row_id (f r) = row_id r) ->
  List.filter (fun r => bool_decide (row_id r = id))
    (map (fun r => if bool_decide (row_id r = id) then f r else r) rows) =
  map f (List.filter (fun r => bool_decide (row_id r = id)) rows).
Proof.
  intros Hf. induction rows as [| r rows IH]; [done |]. simpl.
  destruct (bool_decide_reflect (row_id r = id)) as [Heq | Hne]; simpl.
  - rewrite bool_decide_eq_true_2 by (by rewrite Hf). by rewrite IH.
  - rewrite bool_decide_eq_false_2 by exact Hne. exact IH.
Qed.

Lemma map_row_id_updated (id : string) (f : StudySetRow -> StudySetRow)
    (rows : list StudySetRow) :
  (forall r, row_id (f r) = row_id r) ->
  map row_id (map (fun r => if bool_decide (row_id r = id) then f r else r) rows) =
  map row_id rows.
Proof.
  intros Hf. rewrite map_map. apply map_ext. intros r.
  destruct (bool_decide (row_id r = id)); [apply Hf | done].
Qed.

(** X17.  [updateStudySet] in the database on a study set that is there,
    without a transport failure: the result keeps id and [createdAt], has
    [updatedAt] set to the time of the call, takes title, description, source
    type and source name from the patch where it has them (an empty title
    counts as none: [data.title || existing.title]) and the items of the
    patch, if it has any, in place of all former ones; it is what the next
    read returns.  For the statements to be accepted the new values of the
    row and the rows of the items must fit their columns, and the ids of the
    items must be distinct and clash with no item of another study set. *)
Theorem updateStudySetDb_merges
    (scan : list StudyItemRow -> list StudyItemRow)
    (id : string) (now : Z) (data : StudySetPatch) (c : Conn) (old : StudySet) :
  reliable c ->
  getStudySetDb scan id c = (c, Some (Some old)) ->
  patchFits now old data = true ->
  (forall its, p_items data = Some its ->
     itemsFit id its = true /\
     NoDup (map item_id its) /\
     forall it r, it ∈ its -> r ∈ study_items (tables c) ->
                  irow_id r = item_id it -> irow_study_set_id r = id) ->
  exists c' s,
    updateStudySetDb scan id now data c = (c', Some (Some s)) /\
    getStudySetDb scan id c' = (c', Some (Some s)) /\
    set_id s = id /\ createdAt s = createdAt old /\ updatedAt s = now /\
    title s = orElse (p_title data) (title old) /\
    description s = default (description old) (p_description data) /\
    sourceType s = default (sourceType old) (p_sourceType data) /\
    sourceName s = match p_sourceName data with
                   | Some n => Some n
                   | None => sourceName old
                   end /\
    set_items s = match p_items data with
                  | Some its => map itemOfRow (scan (map (itemRow id) its))
                  | None => set_items old
                  end.
Proof.
  intros Hr Hold Hfits Hitems.
  pose proof Hold as Hrows. rewrite getStudySetDb_reliable in Hrows by exact Hr.
  destruct (List.filter _ (study_sets (tables c))) as [| row rest] eqn:Hfilter;
    [discriminate |].
  assert (row_id row = id) as Hrow.
  { assert (In row (List.filter (fun r => bool_decide (row_id r = id))
                      (study_sets (tables c)))) as Hin by (rewrite Hfilter; by left).
    apply List.filter_In in Hin as [_ Hin]. by apply bool_decide_eq_true in Hin. }
  assert (old = studySetOfRows row (scan (itemsOf id (tables c)))) as ->
    by (symmetry; by injection Hrows).
  unfold updateStudySetDb, tryCatch. unfold bind at 1. rewrite Hold.
  unfold bind at 1. rewrite query_reliable by exact Hr.
  unfold updateStudySetRow. unfold patchFits in Hfits. rewrite Hfits. cbn [negb].
  match goal with
  | |- context [map (fun r => if bool_decide (row_id r = id) then @?F r else r)
                  (study_sets (tables c))] =>
      pose proof (filter_updated_rows id F (study_sets (tables c)) (fun r => eq_refl))
        as Hfilter1;
      pose proof (map_row_id_updated id F (study_sets (tables c)) (fun r => eq_refl))
        as Hids1
  end.
  rewrite Hfilter in Hfilter1. cbn [map] in Hfilter1.
  remember (map _ (study_sets (tables c))) as rows1 eqn:Hrows1 in *.
  clear Hrows1.
  destruct (p_items data) as [its |] eqn:Hpatch.
  - (* the items are replaced *)
    destruct (Hitems its eq_refl) as (Hfit & Hnd & Hclash).
    unfold bind at 1. unfold bind at 1.
    rewrite query_reliable by reflexivity.
    cbn [deleteStudyItems tables console study_sets study_items user_progress].
    match goal with
    | |- context [insertItems id its ?c2] =>
        destruct (insertItems_succeeds id its c2) as [c3 Hins];
          [reflexivity | | exact Hfit |
           | destruct (insertItems_reliable id its c2 c3 eq_refl Hins)
               as (Hr3 & Hcon3 & Hsets3 & _ & Hitems3)]
    end.
    { unfold hasStudySet. cbn [tables study_sets]. rewrite Hids1.
      apply bool_decide_eq_true_2. apply list_elem_of_In.
      rewrite <- Hrow. apply in_map.
      assert (In row (List.filter (fun r => bool_decide (row_id r = id))
                        (study_sets (tables c)))) as Hin by (rewrite Hfilter; by left).
      by apply List.filter_In in Hin as [Hin _]. }
    { split; [exact Hnd |]. intros it Hit Hin. cbn [tables study_items] in Hin.
      apply list_elem_of_In, in_map_iff in Hin as (r & Hr_id & Hr_in).
      apply List.filter_In in Hr_in as [Hr_in Hr_other].
      apply negb_true_iff, bool_decide_eq_false in Hr_other. apply Hr_other.
      apply (Hclash it r Hit); [by apply list_elem_of_In | exact Hr_id]. }
    rewrite Hins.
    cbn [tables study_sets study_items] in Hsets3, Hitems3.
    assert (itemsOf id (tables c3) = map (itemRow id) its) as Hown.
    { unfold itemsOf. rewrite Hitems3, List.filter_app, filter_out_then_in, itemsOf_own.
      done. }
    assert (getStudySetDb scan id c3 =
            (c3, Some (Some (studySetOfRows
                               (mkStudySetRow (row_id row)
                                  (orElse (p_title data) (row_title row))
                                  (default (row_description row) (p_description data))
                                  (created_at row) now
                                  (default (source_type row) (p_sourceType data))
                                  (match p_sourceName data with
                                   | Some n => Some n
                                   | None => source_name row
                                   end))
                               (scan (map (itemRow id) its)))))) as Hread.
    { rewrite getStudySetDb_reliable by exact Hr3. by rewrite Hsets3, Hfilter1, Hown. }
    rewrite Hread.
    do 2 eexists. split; [reflexivity |]. split; [exact Hread |].
    simpl. by rewrite Hrow.
  - (* the items stay *)
    unfold bind at 1. unfold ret at 1.
    match goal with
    | |- context [getStudySetDb scan id ?c1] =>
        assert (getStudySetDb scan id c1 =
                (c1, Some (Some (studySetOfRows
                                   (mkStudySetRow (row_id row)
                                      (orElse (p_title data) (row_title row))
                                      (default (row_description row) (p_description data))
                                      (created_at row) now
                                      (default (source_type row) (p_sourceType data))
                                      (match p_sourceName data with
                                       | Some n => Some n
                                       | None => source_name row
                                       end))
                                   (scan (itemsOf id (tables c))))))) as Hread
    end.
    { rewrite getStudySetDb_reliable by reflexivity.
      cbn [tables study_sets]. by rewrite Hfilter1. }
    rewrite Hread.
    do 2 eexists. split; [reflexivity |]. split; [exact Hread |].
    simpl. by rewrite Hrow.
Qed.

(** X17, in the sample database: the two cards in the other order. *)
Lemma updateStudySetDb_merges_witness :
  exists c' s,
    updateStudySetDb (fun rows => rows) "k1" 50 swappedItems sampleConn
    = (c', Some (Some s)) /\
    title s = "Spanish"%string /\ updatedAt s = 50 /\
    map item_id (set_items s) = ["b"; "a"]%string.
Proof.
  destruct (updateStudySetDb_merges (fun rows => rows) "k1" 50 swappedItems sampleConn
              (mkStudySet "k1" "Spanish" "Basics" 10 10
                 [mkStudyItem "a" "Hola" "Hello there" None None;
                  mkStudyItem "b" "Adios" "Goodbye" (Some ["x"; "y"]) (Some "B")]
                 Manual (Some "book.pdf")))
    as (c' & s & Hrun & _ & _ & _ & Hupd & Hti & _ & _ & _ & Hit).
  - reflexivity.
  - reflexivity.
  - reflexivity.
  - intros its Hits. injection Hits as <-. split; [reflexivity | split].
    + apply (bool_decide_unpack _). vm_compute. exact I.
    + intros it r Hit Hr _. simpl in Hr.
      apply elem_of_cons in Hr as [-> | Hr]; [reflexivity |].
      apply elem_of_cons in Hr as [-> | Hr]; [reflexivity |].
      by apply elem_of_nil in Hr.
  - exists c', s. split; [exact Hrun |]. split; [exact Hti |]. split; [exact Hupd |].
    rewrite Hit. reflexivity.
Defined.

(** X27.  [updateStudySet] in the database is not all-or-nothing either.
    When the patch brings items and one of them has the id of an earlier item
    of the patch or of an item of another study set, the call logs and
    returns [null], like for a study set that is not there; but the row has
    its new title and time already, the former items are deleted, and the
    items of the patch that came before the clash are in, which is what the
    next read returns (the new values of the row and the rows of those items
    fitting their columns, so that they were accepted). *)
Theorem updateStudySetDb_stops_half_way
    (scan : list StudyItemRow -> list StudyItemRow)
    (id : string) (now : Z) (data : StudySetPatch) (c : Conn) (old : StudySet)
    (pre post : list StudyItem) (dup : StudyItem) :
  reliable c ->
  getStudySetDb scan id c = (c, Some (Some old)) ->
  patchFits now old data = true ->
  p_items data = Some (pre ++ dup :: post) ->
  itemsFit id pre = true ->
  NoDup (map item_id pre) ->
  (forall it r, it ∈ pre -> r ∈ study_items (tables c) ->
                irow_id r = item_id it -> irow_study_set_id r = id) ->
  (item_id dup ∈ map item_id pre \/
   exists r, r ∈ study_items (tables c) /\ irow_id r = item_id dup /\
             irow_study_set_id r <> id) ->
  exists c' s,
    updateStudySetDb scan id now data c = (c', Some None) /\
    console c' = console c ++ ["Error updating study set:"%string] /\
    getStudySetDb scan id c' = (c', Some (Some s)) /\
    updatedAt s = now /\
    title s = orElse (p_title data) (title old) /\
    set_items s = map itemOfRow (scan (map (itemRow id) pre)).
Proof.
  intros Hr Hold Hfits Hpatch Hfit Hnd Hclash Hdup.
  pose proof Hold as Hrows. rewrite getStudySetDb_reliable in Hrows by exact Hr.
  destruct (List.filter _ (study_sets (tables c))) as [| row rest] eqn:Hfilter;
    [discriminate |].
  assert (In row (study_sets (tables c)) /\ row_id row = id) as [Hrow_in Hrow].
  { assert (In row (List.filter (fun r => bool_decide (row_id r = id))
                      (study_sets (tables c)))) as Hin by (rewrite Hfilter; by left).
    apply List.filter_In in Hin as [Hin Hid]. by apply bool_decide_eq_true in Hid. }
  assert (old = studySetOfRows row (scan (itemsOf id (tables c)))) as ->
    by (symmetry; by injection Hrows).
  unfold updateStudySetDb, tryCatch. unfold bind at 1. rewrite Hold.
  unfold bind at 1. rewrite query_reliable by exact Hr.
  unfold updateStudySetRow. unfold patchFits in Hfits. rewrite Hfits. cbn [negb].
  match goal with
  | |- context [map (fun r => if bool_decide (row_id r = id) then @?F r else r)
                  (study_sets (tables c))] =>
      pose proof (filter_updated_rows id F (study_sets (tables c)) (fun r => eq_refl))
        as Hfilter1;
      pose proof (map_row_id_updated id F (study_sets (tables c)) (fun r => eq_refl))
        as Hids1
  end.
  rewrite Hfilter in Hfilter1. cbn [map] in Hfilter1.
  remember (map _ (study_sets (tables c))) as rows1 eqn:Hrows1 in *.
  clear Hrows1. rewrite Hpatch.
  unfold bind at 1. unfold bind at 1.
  rewrite query_reliable by reflexivity.
  cbn [deleteStudyItems tables console study_sets study_items user_progress].
  match goal with
  | |- context [insertItems id _ ?c2] =>
      destruct (insertItems_stops id pre post dup c2)
        as (c3 & Hstop & Hr3 & Hcon3 & Hsets3 & Hitems3);
        [reflexivity | | exact Hfit | | |]
  end.
  { unfold hasStudySet. cbn [tables study_sets]. rewrite Hids1.
    apply bool_decide_eq_true_2. apply list_elem_of_In.
    rewrite <- Hrow. by apply in_map. }
  { split; [exact Hnd |]. intros it Hit Hin. cbn [tables study_items] in Hin.
    apply list_elem_of_In, in_map_iff in Hin as (r & Hr_id & Hr_in).
    apply List.filter_In in Hr_in as [Hr_in Hr_other].
    apply negb_true_iff, bool_decide_eq_false in Hr_other. apply Hr_other.
    apply (Hclash it r Hit); [by apply list_elem_of_In | exact Hr_id]. }
  { cbn [tables study_items]. apply elem_of_app.
    destruct Hdup as [Hdup | (r & Hr_in & Hr_id & Hr_other)]; [by right | left].
    apply list_elem_of_In, in_map_iff. exists r. split; [exact Hr_id |].
    apply List.filter_In. split; [by apply list_elem_of_In |].
    by apply negb_true_iff, bool_decide_eq_false. }
  rewrite Hstop.
  cbn [tables study_sets study_items] in Hsets3, Hitems3.
  assert (itemsOf id (tables c3) = map (itemRow id) pre) as Hown.
  { unfold itemsOf. rewrite Hitems3, List.filter_app, filter_out_then_in, itemsOf_own.
    done. }
  eexists _, _. split; [reflexivity |]. cbn [console]. split; [by rewrite Hcon3 |].
  rewrite getStudySetDb_reliable by exact Hr3.
  cbn [tables]. rewrite Hsets3, Hfilter1, Hown.
  split; [reflexivity |]. done.
Qed.

(** X27, in the database with two study sets: the second item of the patch
    for ["k1"] has the id of the item of ["k0"]. *)
Lemma updateStudySetDb_stops_half_way_witness :
  exists c' s,
    updateStudySetDb (fun rows => rows) "k1" 50 clashingPatch twoSetConn = (c', Some None) /\
    getStudySetDb (fun rows => rows) "k1" c' = (c', Some (Some s)) /\
    map item_id (set_items s) = ["e"]%string.
Proof.
  destruct (updateStudySetDb_stops_half_way (fun rows => rows) "k1" 50 clashingPatch
              twoSetConn
              (mkStudySet "k1" "Spanish" "Basics" 10 10
                 [mkStudyItem "a" "Hola" "Hello there" None None;
                  mkStudyItem "b" "Adios" "Goodbye" (Some ["x"; "y"]) (Some "B")]
                 Manual (Some "book.pdf"))
              [mkStudyItem "e" "Uno" "One" None None] []
              (mkStudyItem "c" "Dos" "Two" None None))
    as (c' & s & Hrun & _ & Hget & _ & _ & Hitems).
  - reflexivity.
  - reflexivity.
  - reflexivity.
  - reflexivity.
  - reflexivity.
  - apply NoDup_cons. split; [apply not_elem_of_nil | apply NoDup_nil_2].
  - intros it r Hit Hr Hid.
    apply elem_of_cons in Hit as [-> | Hit]; [| by apply elem_of_nil in Hit].
    simpl in Hr, Hid.
    repeat (apply elem_of_cons in Hr as [-> | Hr]; [discriminate |]).
    by apply elem_of_nil in Hr.
  - right. exists (mkStudyItemRow "c" "k0" "Salut" "Hi" None None).
    split; [| split; [reflexivity | discriminate]].
    simpl. apply elem_of_cons. right. apply elem_of_cons. right.
    apply elem_of_cons. by left.
  - exists c', s. split; [exact Hrun |]. split; [exact Hget |].
    rewrite Hitems. reflexivity.
Defined.

(** *** Progress the database does not take *)

Lemma map_updatedRow_none (p : UserProgress) (rows : list UserProgressRow) :
  List.filter (progressMatches (studySetId p) (mode_name (mode p))) rows = [] ->
  map (updatedRow p) rows = rows.
Proof.
  induction rows as [| r rows IH]; [done |]. simpl. unfold updatedRow at 1.
  destruct (progressMatches (studySetId p) (mode_name (mode p)) r); [done |].
  intros Hnone. by rewrite IH.
Qed.

Lemma tables_eta (t : Tables) :
  mkTables (study_sets t) (study_items t) (user_progress t) = t.
Proof. by destruct t. Qed.

(** X18.  [saveUserProgress] in the database stores nothing, and still
    returns the record like a saved one after logging, when a counter does
    not fit its [INTEGER] column or when the study set has no row (the
    foreign key of [user_progress]); what is read afterwards is what was
    there before. *)
Theorem saveUserProgressDb_rejected (now : Z) (p : ProgressInput) (c : Conn) :
  reliable c ->
  countersFit p = false \/
  (hasStudySet (pi_studySetId p) (tables c) = false /\
   progressCount (pi_studySetId p) (mode_name (pi_mode p)) (tables c) = 0%nat) ->
  saveUserProgressDb now p c =
    (mkConn (tables c) [] (console c ++ ["Error saving user progress:"%string]),
     Some (stampProgress now p)) /\
  forall id md,
    snd (getUserProgressDb id md (fst (saveUserProgressDb now p c))) =
    snd (getUserProgressDb id md c).
Proof.
  intros Hr Hwhy.
  assert (saveUserProgressDb now p c =
          (mkConn (tables c) [] (console c ++ ["Error saving user progress:"%string]),
           Some (stampProgress now p))) as Hrun.
  { unfold saveUserProgressDb, tryCatch, bind.
    rewrite query_reliable by exact Hr.
    destruct (countersFit p) eqn:Hfit.
    - destruct Hwhy as [Hwhy | [Hnone Hcount]]; [discriminate |].
      rewrite updateProgress_fits by exact Hfit. rewrite Hcount. simpl.
      rewrite query_reliable by reflexivity.
      unfold insertProgress. cbn [tables stampProgress itemsStudied correctAnswers
        incorrectAnswers completedSessions studySetId mode study_sets].
      unfold countersFit in Hfit. rewrite Hfit. simpl.
      unfold hasStudySet in *. cbn [study_sets]. rewrite Hnone. simpl.
      rewrite map_updatedRow_none, tables_eta; [done |].
      apply length_zero_iff_nil. exact Hcount.
    - unfold updateProgress. cbn [stampProgress itemsStudied correctAnswers
        incorrectAnswers completedSessions].
      unfold countersFit in Hfit. rewrite Hfit. done. }
  split; [exact Hrun |].
  intros id md. rewrite Hrun. cbn [fst].
  by rewrite !getUserProgressDb_reliable by (done || reflexivity).
Qed.

(** X18, in the sample database: a counter beyond the range of [INTEGER]. *)
Lemma saveUserProgressDb_rejected_witness :
  snd (saveUserProgressDb 20 (quizProgress (2 ^ 31) 2 1 1) sampleConn)
  = Some (stampProgress 20 (quizProgress (2 ^ 31) 2 1 1)) /\
  snd (getUserProgressDb "k1" "quiz"
         (fst (saveUserProgressDb 20 (quizProgress (2 ^ 31) 2 1 1) sampleConn)))
  = Some None.
Proof.
  destruct (saveUserProgressDb_rejected 20 (quizProgress (2 ^ 31) 2 1 1) sampleConn)
    as [Hrun Hread]; [reflexivity | left; reflexivity |].
  split; [by rewrite Hrun |]. rewrite Hread. reflexivity.
Defined.

(** *** An input that brings its own id *)

(** X19.  [{ id, createdAt: now, updatedAt: now, ...data }]: when the
    input has an id of its own, as the output of [studySetSchema.parse] that
    [POST /api/study-sets] passes on has, the record returned carries that id
    while the study set is stored under the generated one.  So, on the server
    side of the fallback store and in the database alike, the study set is
    found under the generated id and not under the id of the record that was
    returned (unless that id was in use before); in the database this is for
    an input that the engine accepts: the ids are new and the values fit
    their columns. *)
Theorem createStudySet_keeps_own_id
    (scan : list StudyItemRow -> list StudyItemRow)
    (id own : string) (now : Z) (data : StudySetInput) (w : LocalDb.Client) (c : Conn) :
  in_id data = Some own ->
  own <> id ->
  (LocalDb.window w = None ->
   LocalDb.studySets (LocalDb.memoryStore w) !! own = None ->
     set_id (snd (LocalDb.createStudySet id now data w)) = own /\
     snd (LocalDb.getStudySet own (fst (LocalDb.createStudySet id now data w))) = None /\
     snd (LocalDb.getStudySet id (fst (LocalDb.createStudySet id now data w)))
       = Some (snd (LocalDb.createStudySet id now data w))) /\
  (reliable c ->
   hasStudySet id (tables c) = false ->
   hasStudySet own (tables c) = false ->
   headerFits id now data = true -> itemsFit id (in_items data) = true ->
   freshItemIds (in_items data) (tables c) ->
     exists c' s s',
       createStudySetDb id now data c = (c', Some s) /\ set_id s = own /\
       getStudySetDb scan own c' = (c', Some None) /\
       getStudySetDb scan id c' = (c', Some (Some s')) /\ set_id s' = id).
Proof.
  intros Hown Hne. split.
  - intros Hserver Hfree.
    unfold LocalDb.createStudySet, LocalDb.getStudySet, LocalDb.tryWrite,
      LocalDb.initializeFromLocalStorage.
    simpl. rewrite !Hserver. simpl. rewrite ?Hserver.
    rewrite lookup_insert_ne by (intros H; by apply Hne).
    rewrite Hfree, lookup_insert_eq.
    split; [by rewrite Hown | done].
  - intros Hr Hnew Hfree Hhead Hfit Hfresh.
    destruct (createStudySetDb_succeeds id now data c Hr Hnew Hhead Hfit Hfresh)
      as [c' Hrun].
    destruct (createStudySetDb_returned id now data c c' _ Hr Hrun)
      as (_ & Hr' & _ & _ & Hsets & _).
    eexists c', _, _. split; [exact Hrun |].
    split; [unfold newStudySet; simpl; by rewrite Hown |].
    rewrite !getStudySetDb_reliable by exact Hr'.
    rewrite Hsets, !List.filter_app.
    rewrite !hasStudySet_false_filter by done. simpl.
    rewrite bool_decide_eq_false_2 by (intros H; by apply Hne).
    rewrite bool_decide_eq_true_2 by done.
    split; [done |]. split; [reflexivity | done].
Qed.

(** X19, on the server side of the fallback store and in the empty
    database. *)
Lemma createStudySet_keeps_own_id_witness :
  snd (LocalDb.getStudySet "own"
         (fst (LocalDb.createStudySet "k1" 10 LocalDb.inputWithId LocalDb.serverStore)))
  = None /\
  exists c' s,
    createStudySetDb "k1" 10 LocalDb.inputWithId emptyConn = (c', Some s) /\
    set_id s = "own"%string /\
    getStudySetDb (fun rows => rows) "own" c' = (c', Some None).
Proof.
  destruct (createStudySet_keeps_own_id (fun rows => rows) "k1" "own" 10
              LocalDb.inputWithId LocalDb.serverStore emptyConn eq_refl)
    as [Hlocal Hdb]; [discriminate |].
  split.
  - destruct Hlocal as (_ & Hgone & _); [reflexivity | reflexivity | exact Hgone].
  - destruct Hdb as (c' & s & s' & Hrun & Hid & Hgone & _).
    + reflexivity.
    + reflexivity.
    + reflexivity.
    + reflexivity.
    + reflexivity.
    + split.
      * simpl. apply NoDup_cons. split; [apply not_elem_of_nil | apply NoDup_nil_2].
      * intros it _. apply not_elem_of_nil.
    + exists c', s. split; [exact Hrun |]. split; [exact Hid | exact Hgone].
Defined.

End DbOperations.

(** ** The API routes *)

Section ApiFacts.
Import Db DbSamples Api.

Lemma query_createTable (c : Conn) :
  exists c' r, query createTableIfNotExists c = (c', r) /\
               tables c' = tables c /\ console c' = console c /\
               faults c' = tail (faults c).
Proof.
  unfold query. destruct (faults c) as [| [|] fs]; simpl; by eexists _, _.
Qed.

(** [ensureDbInitialized] returns whatever happens, and the tables are as
    before. *)
Lemma ensureDbInitialized_returns (c : Conn) :
  exists c', ensureDbInitialized c = (c', Some tt) /\ tables c' = tables c.
Proof.
  unfold ensureDbInitialized, initDb, setupDatabase, tryCatch. unfold bind at 1.
  unfold bind at 1.
  destruct (query_createTable c) as (c1 & r1 & -> & Ht1 & _).
  destruct r1 as [[] |]; [| eexists; split; [reflexivity | simpl; exact Ht1]].
  unfold bind at 1.
  destruct (query_createTable c1) as (c2 & r2 & -> & Ht2 & _).
  destruct r2 as [[] |]; [| eexists; split; [reflexivity | simpl; congruence]].
  unfold bind at 1.
  destruct (query_createTable c2) as (c3 & r3 & -> & Ht3 & _).
  destruct r3 as [[] |]; eexists; (split; [reflexivity | simpl; congruence]).
Qed.

Lemma ensureDbInitialized_reliable (c : Conn) :
  reliable c -> ensureDbInitialized c = (c, Some tt).
Proof.
  intros Hr. unfold ensureDbInitialized, initDb, setupDatabase, tryCatch, bind.
  unfold query, createTableIfNotExists. unfold reliable in Hr. rewrite Hr. simpl.
  unfold ret. by rewrite <- Hr, conn_eta.
Qed.

(** X20.  In database mode the two reading routes of the study sets never
    answer 500, whatever transport failures occur, and leave the tables as
    they are: [GET /api/study-sets/[id]] answers the study set or 404, [GET
    /api/study-sets] answers a list.  Without a failure they answer what
    [getStudySet] and [getAllStudySets] return; when the lookup of a study
    set fails, the route answers 404 although the study set may be there. *)
Theorem GET_routes_never_500
    (scan : list StudyItemRow -> list StudyItemRow) (id : string) (c : Conn) :
  (exists c' r,
     GET_studySet scan id c = (c', Some r) /\ tables c' = tables c /\
     ((exists s, r = Success s) \/ r = Failure 404 "Study set not found")) /\
  (exists c' l,
     GET_studySets scan c = (c', Some (Success l)) /\ tables c' = tables c) /\
  (reliable c ->
     GET_studySet scan id c =
       (c, Some match snd (getStudySetDb scan id c) with
                | Some (Some s) => Success s
                | _ => Failure 404 "Study set not found"
                end) /\
     GET_studySets scan c =
       (c, Some (Success (default [] (snd (getAllStudySetsDb scan c)))))) /\
  (forall fs, faults c = false :: false :: false :: true :: fs ->
     snd (GET_studySet scan id c) = Some (Failure 404 "Study set not found")).
Proof.
  split; [| split; [| split]].
  - unfold GET_studySet, tryCatch. unfold bind at 1.
    destruct (ensureDbInitialized_returns c) as (c1 & -> & Ht1).
    unfold bind at 1.
    destruct (getStudySetDb_returns scan id c1) as (c2 & r & -> & Ht2).
    destruct r as [s |]; eexists _, _; (split; [reflexivity |]);
      (split; [simpl; congruence |]); [left; by exists s | by right].
  - unfold GET_studySets, tryCatch. unfold bind at 1.
    destruct (ensureDbInitialized_returns c) as (c1 & -> & Ht1).
    unfold bind at 1.
    destruct (reads_tables_all scan c1) as (c2 & l & -> & Ht2).
    eexists _, _. split; [reflexivity |]. simpl. congruence.
  - intros Hr. split.
    + unfold GET_studySet, tryCatch. unfold bind at 1.
      rewrite ensureDbInitialized_reliable by exact Hr.
      unfold bind at 1. rewrite getStudySetDb_reliable by exact Hr. simpl.
      by destruct (List.filter _ _).
    + unfold GET_studySets, tryCatch. unfold bind at 1.
      rewrite ensureDbInitialized_reliable by exact Hr.
      unfold bind at 1. by rewrite getAllStudySetsDb_reliable by exact Hr.
  - intros fs Hfs.
    unfold GET_studySet, tryCatch. unfold bind at 1.
    assert (ensureDbInitialized c =
            (mkConn (tables c) (true :: fs) (console c), Some tt)) as ->.
    { unfold ensureDbInitialized, initDb, setupDatabase, tryCatch, bind.
      unfold query, createTableIfNotExists. rewrite Hfs. simpl. done. }
    unfold bind at 1.
    pose proof (getStudySetDb_fault scan id
                  (mkConn (tables c) (true :: fs) (console c)) fs eq_refl) as Hfail.
    unfold failsWith in Hfail. rewrite Hfail. done.
Qed.

(** X20, on a connection to the sample database whose fourth call fails:
    the study set is there, and the route answers 404. *)
Lemma GET_routes_never_500_witness :
  snd (GET_studySet (fun rows => rows) "k1" sampleConn)
  = Some (Success (mkStudySet "k1" "Spanish" "Basics" 10 10
                     [mkStudyItem "a" "Hola" "Hello there" None None;
                      mkStudyItem "b" "Adios" "Goodbye" (Some ["x"; "y"]) (Some "B")]
                     Manual (Some "book.pdf"))) /\
  snd (GET_studySet (fun rows => rows) "k1" flakyConn)
  = Some (Failure 404 "Study set not found").
Proof.
  split.
  - destruct (GET_routes_never_500 (fun rows => rows) "k1" sampleConn)
      as (_ & _ & Hreliable & _).
    destruct Hreliable as [Hget _]; [reflexivity |]. rewrite Hget. reflexivity.
  - destruct (GET_routes_never_500 (fun rows => rows) "k1" flakyConn)
      as (_ & _ & _ & Hflaky).
    apply (Hflaky []). reflexivity.
Defined.

(** *** [DELETE /api/study-sets/[id]] *)

Lemma deleteStudySetDb_returns (id : string) (c : Conn) :
  exists c' b, deleteStudySetDb id c = (c', Some b).
Proof.
  unfold deleteStudySetDb, tryCatch, bind.
  destruct (query (deleteStudySetRow id) c) as [c1 [n |]]; by eexists _, _.
Qed.

Lemma deleteStudySetDb_reliable (id : string) (c : Conn) :
  reliable c ->
  exists c',
    deleteStudySetDb id c = (c', Some (hasStudySet id (tables c))) /\
    reliable c' /\ hasStudySet id (tables c') = false.
Proof.
  intros Hr.
  destruct (deleteStudySetDb_reached id c) as (c' & Hrun & Hgone & _);
    [unfold reliable in Hr; by rewrite Hr |].
  exists c'. split; [exact Hrun |]. split; [| exact Hgone].
  revert Hrun. unfold deleteStudySetDb, tryCatch, bind.
  rewrite query_reliable by exact Hr. simpl. by intros [= <- _].
Qed.

(** X21.  In database mode [DELETE /api/study-sets/[id]] never answers
    500: whatever transport failures occur it answers [{ success: true }] or
    404.  Without a failure it answers [{ success: true }] exactly when the
    study set had a row, and after it [GET /api/study-sets/[id]] answers 404
    and a second [DELETE] answers 404. *)
Theorem DELETE_route_answers
    (scan : list StudyItemRow -> list StudyItemRow) (id : string) (c : Conn) :
  (exists c' r,
     DELETE_studySet id c = (c', Some r) /\
     (r = Success true \/ r = Failure 404 "Study set not found")) /\
  (reliable c ->
     exists c',
       DELETE_studySet id c =
         (c', Some (if hasStudySet id (tables c) then Success true
                    else Failure 404 "Study set not found")) /\
       GET_studySet scan id c' = (c', Some (Failure 404 "Study set not found")) /\
       snd (DELETE_studySet id c') = Some (Failure 404 "Study set not found")).
Proof.
  split.
  - unfold DELETE_studySet, tryCatch. unfold bind at 1.
    destruct (ensureDbInitialized_returns c) as (c1 & -> & _).
    unfold bind at 1.
    destruct (deleteStudySetDb_returns id c1) as (c2 & b & ->).
    destruct b; eexists _, _; (split; [reflexivity |]); [by left | by right].
  - intros Hr.
    destruct (deleteStudySetDb_reliable id c Hr) as (c' & Hrun & Hr' & Hgone).
    exists c'. split; [| split].
    + unfold DELETE_studySet, tryCatch. unfold bind at 1.
      rewrite ensureDbInitialized_reliable by exact Hr.
      unfold bind at 1. rewrite Hrun. by destruct (hasStudySet id (tables c)).
    + unfold GET_studySet, tryCatch. unfold bind at 1.
      rewrite ensureDbInitialized_reliable by exact Hr'.
      unfold bind at 1. rewrite getStudySetDb_reliable by exact Hr'.
      by rewrite hasStudySet_false_filter by exact Hgone.
    + destruct (deleteStudySetDb_reliable id c' Hr') as (c'' & Hrun' & _).
      unfold DELETE_studySet, tryCatch. unfold bind at 1.
      rewrite ensureDbInitialized_reliable by exact Hr'.
      unfold bind at 1. rewrite Hrun', Hgone. done.
Qed.

(** X21, in the sample database. *)
Lemma DELETE_route_answers_witness :
  exists c',
    DELETE_studySet "k1" sampleConn = (c', Some (Success true)) /\
    GET_studySet (fun rows => rows) "k1" c'
    = (c', Some (Failure 404 "Study set not found")).
Proof.
  destruct (DELETE_route_answers (fun rows => rows) "k1" sampleConn) as [_ Hreliable].
  destruct Hreliable as (c' & Hrun & Hget & _); [reflexivity |].
  exists c'. split; [exact Hrun | exact Hget].
Defined.

(** *** The progress of a mode *)

(** X22.  [GET /api/learning-modes/quiz] and [.../flashcards] in database
    mode: without a [studySetId], or with an empty one, the answer is 400
    and the database is not asked; otherwise the answer is never 500 and
    never empty, it is a progress record of that study set and mode, the
    stored one if [getUserProgress] returns one and else a record with all
    counters at zero, stamped with the time of the request. *)
Theorem GET_progress_answers (md : Mode) (now : Z) (c : Conn) :
  GET_progress md now None c = (c, Some (Failure 400 "Study set ID is required")) /\
  GET_progress md now (Some ""%string) c
    = (c, Some (Failure 400 "Study set ID is required")) /\
  (forall id, id <> ""%string ->
     exists c' p,
       GET_progress md now (Some id) c = (c', Some (Success p)) /\
       tables c' = tables c /\ studySetId p = id /\ mode p = md /\
       (forall q, snd (getUserProgressDb id (mode_name md) c) = Some (Some q) -> p = q) /\
       (snd (getUserProgressDb id (mode_name md) c) = Some None ->
        p = mkUserProgress id md now 0 0 0 0)).
Proof.
  split; [done |]. split; [done |].
  intros id Hid. unfold GET_progress.
  rewrite bool_decide_eq_false_2 by exact Hid.
  unfold getUserProgressDb, tryCatch, bind.
  pose proof (query_read_tables (selectProgress id (mode_name md)) c) as Hq.
  unfold query in *. unfold selectProgress in *.
  destruct (faults c) as [| [|] fs]; simpl in *.
  - destruct (List.filter _ _) as [| row rows] eqn:Hrows; simpl;
      eexists _, _; (split; [reflexivity |]); simpl.
    + repeat split; try done; by intros q [=].
    + assert (In row (List.filter (progressMatches id (mode_name md))
                        (user_progress (tables c)))) as Hin by (rewrite Hrows; by left).
      apply List.filter_In in Hin as [_ Hm]. unfold progressMatches in Hm.
      apply andb_true_iff in Hm as [Hm1 Hm2].
      apply bool_decide_eq_true in Hm1, Hm2. apply mode_name_inj in Hm2.
      repeat split; try done; by intros q [= <-].
  - eexists _, _. split; [reflexivity |]. simpl.
    repeat split; try done; by intros q [=].
  - destruct (List.filter _ _) as [| row rows] eqn:Hrows; simpl;
      eexists _, _; (split; [reflexivity |]); simpl.
    + repeat split; try done; by intros q [=].
    + assert (In row (List.filter (progressMatches id (mode_name md))
                        (user_progress (tables c)))) as Hin by (rewrite Hrows; by left).
      apply List.filter_In in Hin as [_ Hm]. unfold progressMatches in Hm.
      apply andb_true_iff in Hm as [Hm1 Hm2].
      apply bool_decide_eq_true in Hm1, Hm2. apply mode_name_inj in Hm2.
      repeat split; try done; by intros q [= <-].
Qed.

(** X22, in the sample database with the quiz progress of its study set:
    the quiz route answers the stored record, the flashcards route a record
    of zeros. *)
Lemma GET_progress_answers_witness :
  snd (GET_quizProgress 99 (Some "k1"%string) progressConn)
  = Some (Success (mkUserProgress "k1" Quiz 20 3 2 1 1)) /\
  snd (GET_flashcardsProgress 99 (Some "k1"%string) progressConn)
  = Some (Success (mkUserProgress "k1" Flashcards 99 0 0 0 0)).
Proof.
  split.
  - destruct (GET_progress_answers Quiz 99 progressConn) as (_ & _ & Hquiz).
    destruct (Hquiz "k1"%string) as (c' & p & Hrun & _ & _ & _ & Hstored & _);
      [discriminate |].
    unfold GET_quizProgress. rewrite Hrun. simpl.
    by rewrite (Hstored (mkUserProgress "k1" Quiz 20 3 2 1 1) eq_refl).
  - destruct (GET_progress_answers Flashcards 99 progressConn) as (_ & _ & Hcards).
    destruct (Hcards "k1"%string) as (c' & p & Hrun & _ & _ & _ & _ & Hzero);
      [discriminate |].
    unfold GET_flashcardsProgress. rewrite Hrun. simpl.
    by rewrite (Hzero eq_refl).
Defined.

(** *** The sample data *)

(** X23.  [POST /api/sample-data] works once per server process in
    database mode.  The ids of the sample items are drawn when the module is
    loaded, and [id] is the primary key of [study_items]: after a call that
    succeeded, the next call, without any transport failure, answers 500
    and adds no item; it leaves behind a row for its first study set,
    provided the id and the time drawn for it fit their columns. *)
Theorem POST_sampleData_once
    (itemId : nat -> string) (first second : nat -> string * Z)
    (c c1 : Conn) (created : list StudySet) :
  reliable c ->
  POST_sampleData itemId first c = (c1, Some (Success created)) ->
  hasStudySet (fst (second 0%nat)) (tables c1) = false ->
  exists c2,
    POST_sampleData itemId second c1
      = (c2, Some (Failure 500 "Failed to create sample data")) /\
    (text (fst (second 0%nat)) = true -> int8 (snd (second 0%nat)) = true ->
     hasStudySet (fst (second 0%nat)) (tables c2) = true) /\
    study_items (tables c2) = study_items (tables c1) /\
    console c2 =
      console c1 ++ ["Error creating study set:"; "Failed to create sample data:"]%string.
Proof.
  intros Hr Hfirst Hnew.
  (* the first call *)
  unfold POST_sampleData, tryCatch in Hfirst. unfold bind at 1 in Hfirst.
  rewrite ensureDbInitialized_reliable in Hfirst by exact Hr.
  unfold bind at 1 in Hfirst. cbn [createAll sampleStudySets] in Hfirst.
  unfold bind at 1 in Hfirst.
  destruct (createStudySetDb (fst (first 0%nat)) _ _ c) as [ca [sa |]] eqn:Hsa;
    [| discriminate].
  destruct (createStudySetDb_returned _ _ _ c ca sa Hr Hsa)
    as (_ & Hra & _ & _ & _ & Hitems_a & _).
  unfold bind at 1 in Hfirst. unfold bind at 1 in Hfirst.
  destruct (createStudySetDb (fst (first 1%nat)) _ _ ca) as [cb [sb |]] eqn:Hsb;
    [| discriminate].
  destruct (createStudySetDb_returned _ _ _ ca cb sb Hra Hsb)
    as (_ & Hrb & _ & _ & _ & Hitems_b & _).
  unfold bind at 1 in Hfirst. cbn [createAll] in Hfirst.
  unfold ret in Hfirst. injection Hfirst as <- _.
  (* the second call *)
  unfold POST_sampleData, tryCatch. unfold bind at 1.
  rewrite ensureDbInitialized_reliable by exact Hrb.
  unfold bind at 1. cbn [createAll sampleStudySets].
  unfold bind at 1. unfold createStudySetDb at 1, tryCatch. unfold bind at 1.
  rewrite query_reliable by exact Hrb.
  unfold insertStudySet.
  match goal with
  | |- context [negb (fitsStudySets ?r)] => destruct (fitsStudySets r) eqn:Hfits
  end.
  2:{ (* the row of the study set is refused *)
      cbn [negb]. eexists. split; [reflexivity |]. cbn [tables console].
      split; [| split; [reflexivity | by rewrite <- app_assoc]].
      intros Htext Hint. unfold fitsStudySets in Hfits. simpl in Hfits.
      rewrite Htext, Hint in Hfits. discriminate Hfits. }
  cbn [negb row_id]. rewrite Hnew.
  cbn [set_items newStudySet in_items]. unfold bind at 1.
  match goal with
  | |- context [insertItems ?i (?dup :: ?post) ?c1] =>
      destruct (insertItems_stops i [] post dup c1)
        as (c2 & Hstop & _ & Hcon & Hsets & Hitems);
        [reflexivity | | reflexivity | |
         | cbn [app] in Hstop; rewrite Hstop]
  end.
  - unfold hasStudySet. simpl. apply bool_decide_eq_true_2.
    rewrite map_app. apply elem_of_app. right. simpl. apply elem_of_cons. by left.
  - split; [apply NoDup_nil_2 |]. intros it Hit. by apply elem_of_nil in Hit.
  - rewrite app_nil_r. cbn [tables study_items item_id].
    rewrite Hitems_b, Hitems_a. cbn [in_items sampleStudySets map].
    rewrite !map_app. cbn [map itemRow irow_id item_id].
    apply elem_of_app. left. apply elem_of_app. right. apply elem_of_cons. by left.
  - eexists. split; [reflexivity |]. simpl.
    split; [intros _ _ | split].
    + unfold hasStudySet. rewrite Hsets. simpl. apply bool_decide_eq_true_2.
      rewrite map_app. apply elem_of_app. right. simpl. apply elem_of_cons. by left.
    + rewrite Hitems. simpl. by rewrite app_nil_r.
    + rewrite Hcon. simpl. by rewrite <- app_assoc.
Qed.

(** X23, from the empty database. *)
Lemma POST_sampleData_once_witness :
  exists c2,
    POST_sampleData letterId secondCall (fst (POST_sampleData letterId firstCall emptyConn))
      = (c2, Some (Failure 500 "Failed to create sample data")) /\
    hasStudySet "s3" (tables c2) = true.
Proof.
  destruct (POST_sampleData_once letterId firstCall secondCall emptyConn
              (fst (POST_sampleData letterId firstCall emptyConn))
              (map (fun '(n, d) => newStudySet (fst (firstCall n)) (snd (firstCall n)) d)
                 (combine [0%nat; 1%nat] (sampleStudySets letterId))))
    as (c2 & Hrun & Hhas & _).
  - reflexivity.
  - vm_compute. reflexivity.
  - vm_compute. reflexivity.
  - exists c2. split; [exact Hrun | apply Hhas; reflexivity].
Defined.

End ApiFacts.

(** ** What the operations of the database backend hand on *)

Section DbSchemaFacts.
Import Db DbSamples DbSchema.

(** *** Through the monad *)

Lemma keeps_ret (P : Conn -> Prop) {A} (a : A) : keeps P (ret a).
Proof. by intros c Hc. Qed.

Lemma keeps_throw (P : Conn -> Prop) {A} : keeps P (@throw A).
Proof. by intros c Hc. Qed.

Lemma keeps_bind (P : Conn -> Prop) {A B} (m : M A) (k : A -> M B) :
  keeps P m -> (forall a, keeps P (k a)) -> keeps P (bind m k).
Proof.
  intros Hm Hk c Hc. unfold bind. specialize (Hm c Hc).
  destruct (m c) as [c1 [a |]]; [by apply Hk | exact Hm].
Qed.

Lemma keeps_tryCatch (P : Conn -> Prop) {A} (body handler : M A) (msg : string) :
  steady P -> keeps P body -> keeps P handler -> keeps P (tryCatch body msg handler).
Proof.
  intros [Hlog _] Hb Hh c Hc. unfold tryCatch. specialize (Hb c Hc).
  destruct (body c) as [c1 [a |]]; [exact Hb |]. apply Hh. by apply Hlog.
Qed.

Lemma keeps_query (P : Conn -> Prop) {R} (stmt : Tables -> option (Tables * R)) :
  steady P -> stmtKeeps P stmt -> keeps P (query stmt).
Proof.
  intros [_ Hnext] Hstmt c Hc. unfold query.
  specialize (Hnext c Hc).
  destruct (stmt (tables c)) as [[t' r] |] eqn:Hrun.
  - specialize (Hstmt c t' r Hc Hrun).
    by destruct (faults c) as [| [|] fs].
  - by destruct (faults c) as [| [|] fs].
Qed.

Lemma keeps_select (P : Conn -> Prop) {R} (stmt : Tables -> option (Tables * R)) :
  steady P -> (forall t, exists r, stmt t = Some (t, r)) -> keeps P (query stmt).
Proof.
  intros Hs Hsel. apply keeps_query; [exact Hs |].
  intros c t' r Hc Hrun. destruct (Hsel (tables c)) as [r' Hr'].
  rewrite Hr' in Hrun. injection Hrun as <- _. by apply Hs.
Qed.

Lemma keeps_forEach (P : Conn -> Prop) {A} (xs : list A) (f : A -> M unit) :
  (forall x, x ∈ xs -> keeps P (f x)) -> keeps P (forEach xs f).
Proof.
  induction xs as [| x xs IH]; intros Hf; simpl; [apply keeps_ret |].
  apply keeps_bind; [apply Hf, elem_of_cons; by left | intros _].
  apply IH. intros y Hy. apply Hf, elem_of_cons. by right.
Qed.

Lemma keeps_mapM (P : Conn -> Prop) {A B} (f : A -> M B) (xs : list A) :
  (forall x, keeps P (f x)) -> keeps P (mapM f xs).
Proof.
  intros Hf. induction xs as [| x xs IH]; simpl; [apply keeps_ret |].
  apply keeps_bind; [apply Hf | intros y].
  apply keeps_bind; [exact IH | intros ys; apply keeps_ret].
Qed.

(** *** Through the operations: it is enough that the statements an
    operation issues hand the property on *)

Lemma keeps_insertItems (P : Conn -> Prop) (setId : string) (its : list StudyItem) :
  steady P ->
  (forall it, stmtKeeps P (insertStudyItem (itemRow setId it))) ->
  keeps P (insertItems setId its).
Proof.
  intros Hs Hitem. apply keeps_forEach. intros it _. by apply keeps_query.
Qed.

Lemma keeps_getStudySetDb (P : Conn -> Prop)
    (scan : list StudyItemRow -> list StudyItemRow) (id : string) :
  steady P -> keeps P (getStudySetDb scan id).
Proof.
  intros Hs. apply keeps_tryCatch; [exact Hs | | apply keeps_ret].
  apply keeps_bind; [apply keeps_select; [exact Hs | intros t; by eexists] |].
  intros [| row rows]; [apply keeps_ret |].
  apply keeps_bind; [| intros itemRows; apply keeps_ret].
  apply keeps_select; [exact Hs | intros t; by eexists].
Qed.

Lemma keeps_createStudySetDb (P : Conn -> Prop)
    (id : string) (now : Z) (data : StudySetInput) :
  steady P ->
  (forall r, row_id r = id -> stmtKeeps P (insertStudySet r)) ->
  (forall it, stmtKeeps P (insertStudyItem (itemRow id it))) ->
  keeps P (createStudySetDb id now data).
Proof.
  intros Hs Hset Hitem.
  apply keeps_tryCatch; [exact Hs | | apply keeps_throw].
  apply keeps_bind; [apply keeps_query; [exact Hs | by apply Hset] |].
  intros _. apply keeps_bind; [by apply keeps_insertItems | intros _; apply keeps_ret].
Qed.

Lemma keeps_updateStudySetDb (P : Conn -> Prop)
    (scan : list StudyItemRow -> list StudyItemRow)
    (id : string) (now : Z) (data : StudySetPatch) :
  steady P ->
  (forall ttl descr st sn, stmtKeeps P (updateStudySetRow id ttl descr now st sn)) ->
  stmtKeeps P (deleteStudyItems id) ->
  (forall it, stmtKeeps P (insertStudyItem (itemRow id it))) ->
  keeps P (updateStudySetDb scan id now data).
Proof.
  intros Hs Hrow Hdel Hitem.
  apply keeps_tryCatch; [exact Hs | | apply keeps_ret].
  apply keeps_bind; [by apply keeps_getStudySetDb |].
  intros [existing |]; [| apply keeps_ret].
  apply keeps_bind; [apply keeps_query; [exact Hs | apply Hrow] |].
  intros _. apply keeps_bind; [| intros _; by apply keeps_getStudySetDb].
  destruct (p_items data) as [its |]; [| apply keeps_ret].
  apply keeps_bind; [by apply keeps_query |].
  intros _. by apply keeps_insertItems.
Qed.

Lemma keeps_deleteStudySetDb (P : Conn -> Prop) (id : string) :
  steady P -> stmtKeeps P (deleteStudySetRow id) -> keeps P (deleteStudySetDb id).
Proof.
  intros Hs Hdel. apply keeps_tryCatch; [exact Hs | | apply keeps_ret].
  apply keeps_bind; [by apply keeps_query | intros n; apply keeps_ret].
Qed.

Lemma keeps_getAllStudySetsDb (P : Conn -> Prop)
    (scan : list StudyItemRow -> list StudyItemRow) :
  steady P -> keeps P (getAllStudySetsDb scan).
Proof.
  intros Hs. apply keeps_tryCatch; [exact Hs | | apply keeps_ret].
  apply keeps_bind; [apply keeps_select; [exact Hs | intros t; by eexists] |].
  intros rows. apply keeps_mapM. intros row.
  apply keeps_bind; [| intros itemRows; apply keeps_ret].
  apply keeps_select; [exact Hs | intros t; by eexists].
Qed.

Lemma keeps_saveUserProgressDb (P : Conn -> Prop) (now : Z) (p : ProgressInput) :
  steady P ->
  stmtKeeps P (updateProgress (stampProgress now p)) ->
  stmtKeeps P (insertProgress (stampProgress now p)) ->
  keeps P (saveUserProgressDb now p).
Proof.
  intros Hs Hupd Hins. apply keeps_tryCatch; [exact Hs | | apply keeps_ret].
  apply keeps_bind; [by apply keeps_query |].
  intros n. apply keeps_bind; [| intros _; apply keeps_ret].
  destruct (n =? 0); [by apply keeps_query | apply keeps_ret].
Qed.

Lemma keeps_getUserProgressDb (P : Conn -> Prop) (id md : string) :
  steady P -> keeps P (getUserProgressDb id md).
Proof.
  intros Hs. apply keeps_tryCatch; [exact Hs | | apply keeps_ret].
  apply keeps_bind; [apply keeps_select; [exact Hs | intros t; by eexists] |].
  intros [| row rows]; apply keeps_ret.
Qed.

Lemma steady_onTables (Q : Tables -> Prop) : steady (onTables Q).
Proof. by split. Qed.

Lemma stmtKeeps_onTables (Q : Tables -> Prop) {R}
    (stmt : Tables -> option (Tables * R)) :
  (forall t t' r, stmt t = Some (t', r) -> Q t -> Q t') -> stmtKeeps (onTables Q) stmt.
Proof. intros Hstmt c t' r Hc Hrun. by apply (Hstmt _ _ _ Hrun). Qed.

(** *** The constraints, statement by statement *)

Lemma NoDup_map_filter {A B} (f : A -> B) (p : A -> bool) (l : list A) :
  NoDup (map f l) -> NoDup (map f (List.filter p l)).
Proof.
  induction l as [| x l IH]; [done |]. simpl. intros [Hx Hl]%NoDup_cons.
  destruct (p x); simpl; [| by apply IH].
  apply NoDup_cons. split; [| by apply IH].
  intros Hin. apply Hx. apply list_elem_of_In, in_map_iff in Hin as (y & Hy & Hin).
  apply List.filter_In in Hin as [Hin _].
  apply list_elem_of_In, in_map_iff. by exists y.
Qed.

Lemma NoDup_snoc_fresh {A} (l : list A) (x : A) :
  NoDup l -> x ∉ l -> NoDup (l ++ [x]).
Proof.
  intros Hl Hx. apply NoDup_app. split; [exact Hl |]. split.
  - intros y Hy Hy'. apply elem_of_cons in Hy' as [-> | Hy']; [done |].
    by apply elem_of_nil in Hy'.
  - apply NoDup_cons. split; [apply not_elem_of_nil | apply NoDup_nil_2].
Qed.

Lemma insertStudySet_schema (r : StudySetRow) (t t' : Tables) (u : unit) :
  insertStudySet r t = Some (t', u) -> schemaHolds t -> schemaHolds t'.
Proof.
  intros Hrun (Hsets & Hitems & Hirefs & Hprefs & Hcount).
  destruct u. pose proof (insertStudySet_references r t t' Hrun Hirefs) as Hirefs'.
  unfold insertStudySet in Hrun.
  destruct (negb (fitsStudySets r)); [discriminate |].
  destruct (hasStudySet (row_id r) t) eqn:Hhas; [discriminate |].
  injection Hrun as <-. split; [| split; [exact Hitems | split; [exact Hirefs' | split]]].
  - simpl. rewrite map_app. apply NoDup_snoc_fresh; [exact Hsets |].
    unfold hasStudySet in Hhas. by apply bool_decide_eq_false in Hhas.
  - unfold progressReferencesSets, hasStudySet in *. simpl.
    revert Hprefs. apply forallb_impl.
    intros x Hx%bool_decide_eq_true. apply bool_decide_eq_true.
    rewrite map_app, elem_of_app. by left.
  - exact Hcount.
Qed.

Lemma insertStudyItem_schema (r : StudyItemRow) (t t' : Tables) (u : unit) :
  insertStudyItem r t = Some (t', u) -> schemaHolds t -> schemaHolds t'.
Proof.
  intros Hrun (Hsets & Hitems & Hirefs & Hprefs & Hcount).
  destruct u. pose proof (insertStudyItem_references r t t' Hrun Hirefs) as Hirefs'.
  unfold insertStudyItem in Hrun.
  destruct (negb (fitsStudyItems r)); [discriminate |].
  destruct (bool_decide_reflect (irow_id r ∈ map irow_id (study_items t)))
    as [| Hfresh]; [discriminate |].
  destruct (hasStudySet (irow_study_set_id r) t); [| discriminate].
  injection Hrun as <-.
  split; [exact Hsets | split; [| split; [exact Hirefs' | split; [exact Hprefs | exact Hcount]]]].
  simpl. rewrite map_app. by apply NoDup_snoc_fresh.
Qed.

Lemma updateStudySetRow_schema (id ttl descr : string) (now : Z) (st : SourceType)
    (sn : option string) (t t' : Tables) (u : unit) :
  updateStudySetRow id ttl descr now st sn t = Some (t', u) ->
  schemaHolds t -> schemaHolds t'.
Proof.
  intros Hrun (Hsets & Hitems & Hirefs & Hprefs & Hcount).
  destruct u.
  pose proof (updateStudySetRow_references id ttl descr now st sn t t' Hrun Hirefs)
    as Hirefs'.
  unfold updateStudySetRow in Hrun. destruct (negb _); [discriminate |].
  injection Hrun as <-.
  assert (map row_id
            (map (fun r => if bool_decide (row_id r = id)
                           then mkStudySetRow (row_id r) ttl descr (created_at r) now st sn
                           else r) (study_sets t)) = map row_id (study_sets t)) as Hids.
  { rewrite map_map. apply map_ext. intros r. by destruct (bool_decide (row_id r = id)). }
  split; [| split; [exact Hitems | split; [exact Hirefs' | split; [| exact Hcount]]]].
  - simpl. by rewrite Hids.
  - unfold progressReferencesSets, hasStudySet in *. simpl. by rewrite Hids.
Qed.

Lemma deleteStudyItems_schema (id : string) (t t' : Tables) (u : unit) :
  deleteStudyItems id t = Some (t', u) -> schemaHolds t -> schemaHolds t'.
Proof.
  intros Hrun (Hsets & Hitems & Hirefs & Hprefs & Hcount).
  destruct u. pose proof (deleteStudyItems_references id t t' Hrun Hirefs) as Hirefs'.
  unfold deleteStudyItems in Hrun. injection Hrun as <-.
  split; [exact Hsets | split; [| split; [exact Hirefs' | split; [exact Hprefs | exact Hcount]]]].
  simpl. by apply NoDup_map_filter.
Qed.

Lemma hasStudySet_other (id id' : string)
    (its : list StudyItemRow) (ps : list UserProgressRow) (t : Tables) :
  id' <> id ->
  hasStudySet id' t = true ->
  hasStudySet id'
    (mkTables (List.filter (fun r => negb (bool_decide (row_id r = id))) (study_sets t))
       its ps) = true.
Proof.
  intros Hne Hhas. unfold hasStudySet in *. simpl.
  apply bool_decide_eq_true in Hhas. apply bool_decide_eq_true.
  apply list_elem_of_In, in_map_iff in Hhas as (r & Hr & Hin).
  apply list_elem_of_In, in_map_iff. exists r. split; [exact Hr |].
  apply List.filter_In. split; [exact Hin |].
  apply negb_true_iff, bool_decide_eq_false. congruence.
Qed.

Lemma deleteStudySetRow_schema (id : string) (t t' : Tables) (n : Z) :
  deleteStudySetRow id t = Some (t', n) -> schemaHolds t -> schemaHolds t'.
Proof.
  intros Hrun (Hsets & Hitems & Hirefs & Hprefs & Hcount).
  unfold deleteStudySetRow in Hrun. injection Hrun as <- _.
  split; [| split; [| split; [| split]]].
  - simpl. by apply NoDup_map_filter.
  - simpl. by apply NoDup_map_filter.
  - unfold itemsReferenceSets in *. cbn [study_items].
    apply forallb_forall. intros r Hin. apply List.filter_In in Hin as [Hin Hother].
    apply negb_true_iff, bool_decide_eq_false in Hother.
    apply hasStudySet_other; [exact Hother |].
    rewrite forallb_forall in Hirefs. by apply Hirefs.
  - unfold progressReferencesSets in *. cbn [user_progress].
    apply forallb_forall. intros r Hin. apply List.filter_In in Hin as [Hin Hother].
    apply negb_true_iff, bool_decide_eq_false in Hother.
    apply hasStudySet_other; [exact Hother |].
    rewrite forallb_forall in Hprefs. by apply Hprefs.
  - intros id' md. unfold progressCount in *. cbn [user_progress].
    etransitivity; [| apply (Hcount id' md)].
    clear. induction (user_progress t) as [| r rows IH]; [done |]. simpl.
    destruct (negb _); simpl; destruct (progressMatches id' md r); simpl; lia.
Qed.

Lemma updateProgress_schema (p : UserProgress) (t t' : Tables) (n : Z) :
  updateProgress p t = Some (t', n) -> schemaHolds t -> schemaHolds t'.
Proof.
  intros Hrun (Hsets & Hitems & Hirefs & Hprefs & Hcount).
  unfold updateProgress in Hrun. destruct (negb _); [discriminate |].
  injection Hrun as <- _.
  split; [exact Hsets | split; [exact Hitems | split; [exact Hirefs | split]]].
  - unfold progressReferencesSets, hasStudySet in *. cbn [user_progress study_sets].
    rewrite forallb_forall in Hprefs. apply forallb_forall. intros r Hin.
    apply in_map_iff in Hin as (r0 & <- & Hin). specialize (Hprefs r0 Hin).
    unfold updatedRow. by destruct (progressMatches _ _ r0).
  - intros id md. unfold progressCount in *. cbn [user_progress].
    rewrite filter_updatedRow, length_map. apply Hcount.
Qed.

Lemma insertProgress_schema (p : UserProgress) (t t' : Tables) (u : unit) :
  insertProgress p t = Some (t', u) -> schemaHolds t -> schemaHolds t'.
Proof.
  intros Hrun (Hsets & Hitems & Hirefs & Hprefs & Hcount).
  unfold insertProgress in Hrun. destruct (negb _); [discriminate |].
  destruct (hasStudySet (studySetId p) t) eqn:Hhas; [| discriminate]. simpl in Hrun.
  destruct (existsb _ _) eqn:Hex; [discriminate |].
  injection Hrun as <- _.
  split; [exact Hsets | split; [exact Hitems | split; [exact Hirefs | split]]].
  - unfold progressReferencesSets, hasStudySet in *. cbn [user_progress study_sets].
    rewrite forallb_app, Hprefs. simpl. by rewrite Hhas.
  - intros id md. unfold progressCount in *. cbn [user_progress].
    rewrite List.filter_app, length_app. simpl.
    destruct (progressMatches id md _) eqn:Hm; simpl; [| specialize (Hcount id md); lia].
    unfold progressMatches in Hm. simpl in Hm.
    apply andb_true_iff in Hm as [Hid Hmd].
    apply bool_decide_eq_true in Hid, Hmd. subst id md.
    apply existsb_filter_nil in Hex. by rewrite Hex.
Qed.

Lemma DbCall_schema (scan : list StudyItemRow -> list StudyItemRow) (c c' : Conn) :
  DbCall scan c c' -> schemaHolds (tables c) -> schemaHolds (tables c').
Proof.
  pose proof (steady_onTables schemaHolds) as Hs.
  intros [id now data c0 | id c0 | id now data c0 | id c0 | c0 | now p c0 | id md c0];
    revert c0.
  - apply (keeps_createStudySetDb (onTables schemaHolds)); [exact Hs | |].
    + intros r _. apply stmtKeeps_onTables. apply insertStudySet_schema.
    + intros it. apply stmtKeeps_onTables. apply insertStudyItem_schema.
  - by apply (keeps_getStudySetDb (onTables schemaHolds)).
  - apply (keeps_updateStudySetDb (onTables schemaHolds)); [exact Hs | | |].
    + intros ttl descr st sn. apply stmtKeeps_onTables. apply updateStudySetRow_schema.
    + apply stmtKeeps_onTables. apply deleteStudyItems_schema.
    + intros it. apply stmtKeeps_onTables. apply insertStudyItem_schema.
  - apply (keeps_deleteStudySetDb (onTables schemaHolds)); [exact Hs |].
    apply stmtKeeps_onTables. apply deleteStudySetRow_schema.
  - by apply (keeps_getAllStudySetsDb (onTables schemaHolds)).
  - apply (keeps_saveUserProgressDb (onTables schemaHolds)); [exact Hs | |].
    + apply stmtKeeps_onTables. apply updateProgress_schema.
    + apply stmtKeeps_onTables. apply insertProgress_schema.
  - by apply (keeps_getUserProgressDb (onTables schemaHolds)).
Qed.

(** X24.  The constraints that [setupDatabase] declares hold in every
    database the operations can produce: whatever the arguments, and whatever
    transport failures occur, each of the seven operations leaves the ids of
    the study sets and of the items distinct, every item and every progress
    row with a study set, and at most one progress row for a study set and a
    mode. *)
Theorem schema_kept
    (scan : list StudyItemRow -> list StudyItemRow) (c c' : Conn) :
  schemaHolds (tables c) ->
  rtc (DbCall scan) c c' ->
  schemaHolds (tables c').
Proof.
  intros Hc Hcalls. induction Hcalls as [c | c c1 c' Hcall _ IH]; [exact Hc |].
  apply IH. by apply (DbCall_schema scan c c1).
Qed.

(** X24, from the empty database to the sample database with the quiz
    progress of its study set. *)
Lemma schema_kept_witness : schemaHolds (tables progressConn).
Proof.
  apply (schema_kept (fun rows => rows) emptyConn).
  - split; [apply NoDup_nil_2 |]. split; [apply NoDup_nil_2 |].
    split; [reflexivity |]. split; [reflexivity |].
    intros id md. unfold progressCount. simpl. lia.
  - eapply rtc_l; [apply (CallCreate _ "k1" 10 sampleData) |].
    eapply rtc_l; [apply (CallSaveProgress _ 20 (quizProgress 3 2 1 1)) |].
    apply rtc_refl.
Defined.

(** *** No transport failure stays none *)

Lemma steady_reliable : steady reliable.
Proof.
  split; [by intros c msg Hc |]. intros c Hc. unfold reliable in *. simpl. by rewrite Hc.
Qed.

Lemma stmtKeeps_reliable {R} (stmt : Tables -> option (Tables * R)) :
  stmtKeeps reliable stmt.
Proof. intros c t' r Hc _. unfold reliable in *. simpl. by rewrite Hc. Qed.

Lemma DbCall_reliable (scan : list StudyItemRow -> list StudyItemRow) (c c' : Conn) :
  DbCall scan c c' -> reliable c -> reliable c'.
Proof.
  pose proof steady_reliable as Hs.
  intros [id now data c0 | id c0 | id now data c0 | id c0 | c0 | now p c0 | id md c0];
    revert c0.
  - apply (keeps_createStudySetDb reliable); [exact Hs | |];
      intros; apply stmtKeeps_reliable.
  - by apply (keeps_getStudySetDb reliable).
  - apply (keeps_updateStudySetDb reliable); [exact Hs | | |];
      intros; apply stmtKeeps_reliable.
  - apply (keeps_deleteStudySetDb reliable); [exact Hs |]. apply stmtKeeps_reliable.
  - by apply (keeps_getAllStudySetsDb reliable).
  - apply (keeps_saveUserProgressDb reliable); [exact Hs | |]; apply stmtKeeps_reliable.
  - by apply (keeps_getUserProgressDb reliable).
Qed.

(** *** The other study sets *)

Lemma sameFor_refl (id : string) (t : Tables) : sameFor id t t.
Proof. by repeat split. Qed.

Lemma sameFor_step (id : string) (t0 t t' : Tables) :
  sameFor id t t' -> sameFor id t0 t -> sameFor id t0 t'.
Proof.
  unfold sameFor, sameStudySet, sameProgress.
  intros [[Hr Hi] Hp] [[Hr0 Hi0] Hp0].
  repeat split; [congruence | congruence |]. intros md. by rewrite Hp, Hp0.
Qed.

Lemma stmtKeeps_sameFor (id : string) (t0 : Tables) {R}
    (stmt : Tables -> option (Tables * R)) :
  (forall t t' r, stmt t = Some (t', r) -> sameFor id t t') ->
  stmtKeeps (onTables (sameFor id t0)) stmt.
Proof.
  intros Hstmt. apply stmtKeeps_onTables. intros t t' r Hrun.
  apply sameFor_step. by apply (Hstmt _ _ _ Hrun).
Qed.

Lemma other_not_in (id id' : string) :
  id' <> id ->
  forall x : string, bool_decide (x = id') = true -> negb (bool_decide (x = id)) = true.
Proof.
  intros Hne x Hx%bool_decide_eq_true. apply negb_true_iff, bool_decide_eq_false.
  congruence.
Qed.

Lemma progressMatches_other (id id' md : string) (r : UserProgressRow) :
  id' <> id ->
  progressMatches id' md r = true -> negb (bool_decide (prow_study_set_id r = id)) = true.
Proof.
  intros Hne Hm. unfold progressMatches in Hm. apply andb_true_iff in Hm as [Hm _].
  by apply (other_not_in id id').
Qed.

Lemma insertStudySet_other (id' : string) (r : StudySetRow) (t t' : Tables) (u : unit) :
  row_id r <> id' -> insertStudySet r t = Some (t', u) -> sameFor id' t t'.
Proof.
  intros Hne Hrun. unfold insertStudySet in Hrun.
  destruct (negb (fitsStudySets r)); [discriminate |].
  destruct (hasStudySet (row_id r) t); [discriminate |]. injection Hrun as <- _.
  repeat split. unfold rowsOf. simpl. rewrite List.filter_app. simpl.
  rewrite bool_decide_eq_false_2 by exact Hne. by rewrite app_nil_r.
Qed.

Lemma insertStudyItem_other (id' : string) (r : StudyItemRow) (t t' : Tables) (u : unit) :
  irow_study_set_id r <> id' -> insertStudyItem r t = Some (t', u) -> sameFor id' t t'.
Proof.
  intros Hne Hrun. unfold insertStudyItem in Hrun.
  destruct (negb (fitsStudyItems r)); [discriminate |].
  destruct (bool_decide _); [discriminate |].
  destruct (negb _); [discriminate |]. injection Hrun as <- _.
  repeat split. unfold itemsOf. simpl. rewrite List.filter_app. simpl.
  rewrite bool_decide_eq_false_2 by exact Hne. by rewrite app_nil_r.
Qed.

Lemma updateStudySetRow_other (id id' ttl descr : string) (now : Z) (st : SourceType)
    (sn : option string) (t t' : Tables) (u : unit) :
  id' <> id ->
  updateStudySetRow id ttl descr now st sn t = Some (t', u) -> sameFor id' t t'.
Proof.
  intros Hne Hrun. unfold updateStudySetRow in Hrun.
  destruct (negb _); [discriminate |]. injection Hrun as <- _.
  repeat split. unfold rowsOf. simpl.
  induction (study_sets t) as [| r rows IH]; [done |]. simpl.
  destruct (bool_decide_reflect (row_id r = id)) as [Heq | Hother]; simpl.
  - rewrite !bool_decide_eq_false_2 by congruence. exact IH.
  - by rewrite IH.
Qed.

Lemma deleteStudyItems_other (id id' : string) (t t' : Tables) (u : unit) :
  id' <> id -> deleteStudyItems id t = Some (t', u) -> sameFor id' t t'.
Proof.
  intros Hne Hrun. unfold deleteStudyItems in Hrun. injection Hrun as <- _.
  repeat split. unfold itemsOf. simpl. apply filter_filter_keep.
  intros r. apply (other_not_in id id' Hne).
Qed.

Lemma deleteStudySetRow_other (id id' : string) (t t' : Tables) (n : Z) :
  id' <> id -> deleteStudySetRow id t = Some (t', n) -> sameFor id' t t'.
Proof.
  intros Hne Hrun. unfold deleteStudySetRow in Hrun. injection Hrun as <- _.
  split; [split |].
  - unfold rowsOf. simpl. apply filter_filter_keep.
    intros r. apply (other_not_in id id' Hne).
  - unfold itemsOf. simpl. apply filter_filter_keep.
    intros r. apply (other_not_in id id' Hne).
  - intros md. unfold sameProgress, progressOf. simpl. apply filter_filter_keep.
    intros r. by apply progressMatches_other.
Qed.

Lemma progressOf_updated (p : UserProgress) (id' md' : string)
    (rows : list UserProgressRow) :
  (id', md') <> (studySetId p, mode_name (mode p)) ->
  List.filter (progressMatches id' md') (map (updatedRow p) rows) =
  List.filter (progressMatches id' md') rows.
Proof.
  intros Hne. rewrite filter_updatedRow.
  induction rows as [| r rows IH]; [done |]. simpl.
  destruct (progressMatches id' md' r) eqn:Hm; [| exact IH]. simpl. rewrite IH.
  f_equal. unfold updatedRow.
  destruct (progressMatches (studySetId p) (mode_name (mode p)) r) eqn:Hp; [| done].
  exfalso. apply Hne. unfold progressMatches in Hm, Hp.
  apply andb_true_iff in Hm as [Hm1 Hm2]. apply andb_true_iff in Hp as [Hp1 Hp2].
  apply bool_decide_eq_true in Hm1, Hm2, Hp1, Hp2. congruence.
Qed.

Lemma progressOf_inserted (p : UserProgress) (id' md' : string) (r : UserProgressRow)
    (rows : list UserProgressRow) :
  (id', md') <> (prow_study_set_id r, mode_name (prow_mode r)) ->
  List.filter (progressMatches id' md') (rows ++ [r]) =
  List.filter (progressMatches id' md') rows.
Proof.
  intros Hne. rewrite List.filter_app. simpl.
  destruct (progressMatches id' md' r) eqn:Hm; [| by rewrite app_nil_r].
  exfalso. apply Hne. unfold progressMatches in Hm.
  apply andb_true_iff in Hm as [Hm1 Hm2].
  apply bool_decide_eq_true in Hm1, Hm2. congruence.
Qed.

Lemma updateProgress_other (p : UserProgress) (id' : string) (t t' : Tables) (n : Z) :
  studySetId p <> id' -> updateProgress p t = Some (t', n) -> sameFor id' t t'.
Proof.
  intros Hne Hrun. unfold updateProgress in Hrun.
  destruct (negb _); [discriminate |]. injection Hrun as <- _.
  repeat split. intros md. unfold sameProgress, progressOf. simpl.
  apply progressOf_updated. congruence.
Qed.

Lemma insertProgress_other (p : UserProgress) (id' : string) (t t' : Tables) (u : unit) :
  studySetId p <> id' -> insertProgress p t = Some (t', u) -> sameFor id' t t'.
Proof.
  intros Hne Hrun. unfold insertProgress in Hrun.
  destruct (negb _); [discriminate |]. destruct (negb _); [discriminate |].
  destruct (existsb _ _); [discriminate |]. injection Hrun as <- _.
  repeat split. intros md. unfold sameProgress, progressOf. simpl.
  apply (progressOf_inserted p). simpl. congruence.
Qed.

(** X26.  A call that creates, updates or deletes the study set [id], or
    saves progress for it, leaves what the tables hold for every other study
    set as it was: its row, its items and its progress in every mode.  This
    holds whatever transport failures occur and wherever the call stops.
    Without transport failures [getStudySet] and [getUserProgress] therefore
    return for every other id what they returned before the call. *)
Theorem calls_leave_other_study_sets
    (scan : list StudyItemRow -> list StudyItemRow) (id id' : string) (c c' : Conn) :
  id' <> id ->
  CallOn scan id c c' ->
  sameFor id' (tables c) (tables c') /\
  (reliable c ->
     snd (getStudySetDb scan id' c') = snd (getStudySetDb scan id' c) /\
     forall md, snd (getUserProgressDb id' md c') = snd (getUserProgressDb id' md c)).
Proof.
  intros Hne Hcall.
  assert (sameFor id' (tables c) (tables c')) as Hsame.
  { pose proof (steady_onTables (sameFor id' (tables c))) as Hs.
    pose proof (sameFor_refl id' (tables c)) as Hrefl.
    destruct Hcall as [now data c | now data c | c | now p c Hp].
    - revert Hrefl. apply (keeps_createStudySetDb (onTables (sameFor id' (tables c))));
        [exact Hs | |].
      + intros r Hr. apply stmtKeeps_sameFor. intros t t' u.
        apply insertStudySet_other. congruence.
      + intros it. apply stmtKeeps_sameFor. intros t t' u.
        apply insertStudyItem_other. simpl. congruence.
    - revert Hrefl. apply (keeps_updateStudySetDb (onTables (sameFor id' (tables c))));
        [exact Hs | | |].
      + intros ttl descr st sn. apply stmtKeeps_sameFor. intros t t' u.
        by apply updateStudySetRow_other.
      + apply stmtKeeps_sameFor. intros t t' u. by apply deleteStudyItems_other.
      + intros it. apply stmtKeeps_sameFor. intros t t' u.
        apply insertStudyItem_other. simpl. congruence.
    - revert Hrefl. apply (keeps_deleteStudySetDb (onTables (sameFor id' (tables c))));
        [exact Hs |].
      apply stmtKeeps_sameFor. intros t t' n. by apply deleteStudySetRow_other.
    - revert Hrefl. apply (keeps_saveUserProgressDb (onTables (sameFor id' (tables c))));
        [exact Hs | |].
      + apply stmtKeeps_sameFor. intros t t' n.
        apply updateProgress_other. simpl. congruence.
      + apply stmtKeeps_sameFor. intros t t' u.
        apply insertProgress_other. simpl. congruence. }
  split; [exact Hsame |].
  intros Hr.
  assert (reliable c') as Hr'.
  { apply (DbCall_reliable scan c c'); [| exact Hr].
    destruct Hcall; constructor. }
  destruct Hsame as [[Hrows Hitems] Hprogress].
  split.
  - rewrite !getStudySetDb_reliable by done. simpl.
    unfold rowsOf in Hrows. by rewrite Hrows, Hitems.
  - intros md. rewrite !getUserProgressDb_reliable by done. simpl.
    specialize (Hprogress md). unfold sameProgress, progressOf in Hprogress.
    by rewrite Hprogress.
Qed.

(** X26, in the database with two study sets: an update of ["k1"] that
    stops at an item whose id belongs to ["k0"] leaves ["k0"] as it was. *)
Lemma calls_leave_other_study_sets_witness :
  snd (getStudySetDb (fun rows => rows) "k0"
         (fst (updateStudySetDb (fun rows => rows) "k1" 50 clashingPatch twoSetConn)))
  = snd (getStudySetDb (fun rows => rows) "k0" twoSetConn).
Proof.
  destruct (calls_leave_other_study_sets (fun rows => rows) "k1" "k0" twoSetConn
              (fst (updateStudySetDb (fun rows => rows) "k1" 50 clashingPatch twoSetConn)))
    as [_ Hreads]; [discriminate | constructor |].
  destruct Hreads as [Hget _]; [reflexivity | exact Hget].
Defined.

(** *** The other pairs of a study set and a mode *)

(** X28.  [saveUserProgress] in the database, whatever transport failures
    occur, leaves the study sets and their items alone, and the progress of
    every other pair of a study set and a mode as well; so without transport
    failures [getStudySet] returns for every id, and [getUserProgress] for
    every other pair, what it returned before. *)
Theorem saveUserProgressDb_touches_one_pair
    (scan : list StudyItemRow -> list StudyItemRow)
    (now : Z) (p : ProgressInput) (c : Conn) :
  study_sets (tables (fst (saveUserProgressDb now p c))) = study_sets (tables c) /\
  study_items (tables (fst (saveUserProgressDb now p c))) = study_items (tables c) /\
  (forall id' md', (id', md') <> (pi_studySetId p, mode_name (pi_mode p)) ->
     sameProgress id' md' (tables c) (tables (fst (saveUserProgressDb now p c)))) /\
  (reliable c ->
     (forall id',
        snd (getStudySetDb scan id' (fst (saveUserProgressDb now p c)))
        = snd (getStudySetDb scan id' c)) /\
     (forall id' md', (id', md') <> (pi_studySetId p, mode_name (pi_mode p)) ->
        snd (getUserProgressDb id' md' (fst (saveUserProgressDb now p c)))
        = snd (getUserProgressDb id' md' c))).
Proof.
  set (Q := fun t : Tables =>
              study_sets t = study_sets (tables c) /\
              study_items t = study_items (tables c) /\
              forall id' md', (id', md') <> (pi_studySetId p, mode_name (pi_mode p)) ->
                              sameProgress id' md' (tables c) t).
  assert (Q (tables (fst (saveUserProgressDb now p c)))) as (Hsets & Hitems & Hprogress).
  { assert (Q (tables c)) as Hstart by done. revert Hstart.
    apply (keeps_saveUserProgressDb (onTables Q)); [apply steady_onTables | |].
    - apply stmtKeeps_onTables. intros t t' n Hrun (Hs & Hi & Hp).
      unfold updateProgress in Hrun. destruct (negb _); [discriminate |].
      injection Hrun as <- _. split; [exact Hs |]. split; [exact Hi |].
      intros id' md' Hne. unfold sameProgress, progressOf in *. simpl.
      rewrite progressOf_updated by exact Hne. by apply Hp.
    - apply stmtKeeps_onTables. intros t t' u Hrun (Hs & Hi & Hp).
      unfold insertProgress in Hrun. destruct (negb _); [discriminate |].
      destruct (negb _); [discriminate |].
      destruct (existsb _ _); [discriminate |]. injection Hrun as <- _.
      split; [exact Hs |]. split; [exact Hi |].
      intros id' md' Hne. unfold sameProgress, progressOf in *. simpl.
      rewrite (progressOf_inserted (stampProgress now p)) by exact Hne. by apply Hp. }
  split; [exact Hsets |]. split; [exact Hitems |]. split; [exact Hprogress |].
  intros Hr.
  assert (reliable (fst (saveUserProgressDb now p c))) as Hr'
    by (apply (DbCall_reliable scan c); [constructor | exact Hr]).
  split.
  - intros id'. rewrite !getStudySetDb_reliable by done. simpl.
    unfold itemsOf. by rewrite Hsets, Hitems.
  - intros id' md' Hne. rewrite !getUserProgressDb_reliable by done. simpl.
    specialize (Hprogress id' md' Hne). unfold sameProgress, progressOf in Hprogress.
    by rewrite Hprogress.
Qed.

(** X28, in the sample database with the quiz progress of its study set:
    saving its flashcards progress keeps the quiz progress. *)
Lemma saveUserProgressDb_touches_one_pair_witness :
  snd (getUserProgressDb "k1" "quiz"
         (fst (saveUserProgressDb 30 (mkProgressInput "k1" Flashcards 2 0 0 1) progressConn)))
  = Some (Some (mkUserProgress "k1" Quiz 20 3 2 1 1)).
Proof.
  destruct (saveUserProgressDb_touches_one_pair (fun rows => rows) 30
              (mkProgressInput "k1" Flashcards 2 0 0 1) progressConn)
    as (_ & _ & _ & Hreads).
  destruct Hreads as [_ Hprogress]; [reflexivity |].
  rewrite (Hprogress "k1"%string "quiz"%string) by discriminate. reflexivity.
Defined.

End DbSchemaFacts.
